(** * HDF5 library lifecycle (src/H5.c): a shallow embedding and its properties

    The development follows the C file function by function:
    - the C library routines the file relies on ([isalpha], [isdigit],
      [strtol], [printf] conversions), modelled on the "C" locale;
    - the globals of H5.c gathered in one record, [lib_state];
    - an error/state monad [M] in which a call either returns or reaches
      [abort()];
    - [H5_check_version], [H5__debug_mask], [H5_init_library],
      [H5_term_library] and the public entry points built on them;
    - the properties of the lifecycle, stated on these definitions.

    Everything the file calls but does not define (the [term_package] and
    [init] routines of the other packages, user callbacks, MPI, the
    allocator, [fdopen], the environment) acts on an abstract [World] and is
    collected in the record [externals].

    The model is sequential: the API lock is not represented.  The error
    stack filled by [HGOTO_ERROR] and the release of memory belong to
    other packages and are left in the [World]. *)

From Equations Require Import Equations.
From Equations.Prop Require Import Logic.
From Stdlib Require Import ZArith List String Ascii Bool Lia DecimalString.
Import ListNotations.

Local Open Scope string_scope.
Local Open Scope Z_scope.

Set Implicit Arguments.

(* ================================================================= *)
(** ** C scalars *)

(** [herr_t] is a signed integer: negative on failure. *)
Definition herr_t := Z.
Definition SUCCEED : herr_t := 0.
Definition FAIL : herr_t := -1.

Definition INT_MAX : Z := 2147483647.

(** Conversion to [int]: reduction modulo 2^32 into [-2^31, 2^31). *)
Definition to_int (z : Z) : Z := (z + 2147483648) mod 4294967296 - 2147483648.

(** Conversion to [unsigned int]. *)
Definition to_uint (z : Z) : Z := z mod 4294967296.

(** [a + b] on [int] operands. *)
Definition int_add (a b : Z) : Z := to_int (a + b).

(* ================================================================= *)
(** ** <ctype.h>, "C" locale *)

Definition char_code (c : ascii) : Z := Z.of_N (N_of_ascii c).

Definition in_range (lo hi : Z) (c : ascii) : bool :=
  (lo <=? char_code c) && (char_code c <=? hi).

Definition isdigit (c : ascii) : bool := in_range 48 57 c.
Definition isupper (c : ascii) : bool := in_range 65 90 c.
Definition islower (c : ascii) : bool := in_range 97 122 c.
Definition isalpha (c : ascii) : bool := isupper c || islower c.
Definition isspace (c : ascii) : bool := (char_code c =? 32) || in_range 9 13 c.

(* ================================================================= *)
(** ** strtol(s, &rest, 0) *)

(** Value of [c] as a digit in some base up to 36. *)
Definition digit_val (c : ascii) : option Z :=
  if isdigit c then Some (char_code c - 48)
  else if islower c then Some (char_code c - 97 + 10)
  else if isupper c then Some (char_code c - 65 + 10)
  else None.

(** Longest run of digits of [base] at the head of [s]: the accumulated
    value and what follows the run. *)
Fixpoint strtol_digits (base acc : Z) (s : string) : Z * string :=
  match s with
  | String c s' =>
      match digit_val c with
      | Some d => if d <? base then strtol_digits base (acc * base + d) s' else (acc, s)
      | None => (acc, s)
      end
  | EmptyString => (acc, s)
  end.

Fixpoint skip_space (s : string) : string :=
  match s with
  | String c s' => if isspace c then skip_space s' else s
  | EmptyString => s
  end.

Definition is_hex_digit (c : ascii) : bool :=
  match digit_val c with Some d => d <? 16 | None => false end.

(** The subject sequence once white space and sign are gone: base 16 after
    [0x] or [0X] followed by a hexadecimal digit, base 8 after a leading
    [0], base 10 otherwise. *)
Definition strtol_unsigned (s : string) : option (Z * string) :=
  match s with
  | String "0" (String x (String h t)) =>
      if ((x =? "x")%char || (x =? "X")%char) && is_hex_digit h
      then Some (strtol_digits 16 0 (String h t))
      else Some (strtol_digits 8 0 s)
  | String c _ =>
      if (c =? "0")%char then Some (strtol_digits 8 0 s)
      else if isdigit c then Some (strtol_digits 10 0 s)
      else None
  | EmptyString => None
  end.

(** [strtol] with base 0.  [long_max] is [LONG_MAX] of the platform; a
    value out of range is clamped.  With no digits, the result is 0 and
    [rest] is [s] itself. *)
Definition strtol (long_max : Z) (s : string) : Z * string :=
  let s1 := skip_space s in
  let '(neg, s2) :=
    match s1 with
    | String c t =>
        if (c =? "-")%char then (true, t)
        else if (c =? "+")%char then (false, t)
        else (false, s1)
    | EmptyString => (false, s1)
    end in
  match strtol_unsigned s2 with
  | Some (v, rest) =>
      (if neg then Z.max (- v) (- long_max - 1) else Z.min v long_max, rest)
  | None => (0, s)
  end.

(* ================================================================= *)
(** ** printf conversions *)

(** [%u] applied to an [unsigned]. *)
Definition fmt_u (z : Z) : string :=
  NilZero.string_of_uint (N.to_uint (Z.to_N (to_uint z))).

(** [%d] applied to an [int]. *)
Definition fmt_d (z : Z) : string :=
  NilZero.string_of_int (Z.to_int (to_int z)).

(** The first [n] characters of [s], as [snprintf] and a bounded copy keep
    them. *)
Definition truncate (n : nat) (s : string) : string := substring 0 n s.

(* ================================================================= *)
(** ** The packages shut down by [H5_term_library]

    One constructor per [DOWN(F)] of the shutdown loop; [hook_name] is the
    stringification [#F] the macro prints. *)

Inductive term_hook : Type :=
| H5ES | H5L
| H5A_top | H5D_top | H5G_top | H5M_top | H5S_top | H5T_top
| H5F | H5P
| H5A | H5D | H5G | H5M | H5S | H5T
| H5AC | H5Z | H5FD | H5VL
| H5PL | H5E | H5I | H5SL | H5FL | H5CX.

Definition hook_name (F : term_hook) : string :=
  match F with
  | H5ES => "ES" | H5L => "L"
  | H5A_top => "A_top" | H5D_top => "D_top" | H5G_top => "G_top"
  | H5M_top => "M_top" | H5S_top => "S_top" | H5T_top => "T_top"
  | H5F => "F" | H5P => "P"
  | H5A => "A" | H5D => "D" | H5G => "G" | H5M => "M" | H5S => "S" | H5T => "T"
  | H5AC => "AC" | H5Z => "Z" | H5FD => "FD" | H5VL => "VL"
  | H5PL => "PL" | H5E => "E" | H5I => "I" | H5SL => "SL" | H5FL => "FL"
  | H5CX => "CX"
  end.

Definition term_hook_eq_dec (a b : term_hook) : {a = b} + {a <> b}.
Proof. decide equality. Defined.

(** The interface initialisers called by [H5_init_library], in call order. *)
Inductive init_hook : Type :=
| H5E_init | H5FD_init | H5VL_init_phase1 | H5P_init_phase1 | H5L_init
| H5O_init | H5FS_init | H5S_init | H5T_init | H5P_init_phase2
| H5VL_init_phase2.

(** The routines H5.c hands to [atexit]. *)
Inductive atexit_func : Type :=
| atexit_H5TS_term_package
| atexit_H5_term_library.

(** A [FILE *] that is not [NULL]; [NULL] is [None] of [option FILE]. *)
Inductive FILE : Type :=
| stderr
| fdopened (fd : Z).

(* ================================================================= *)
(** ** Build configuration

    The preprocessor symbols H5.c tests and the constants it takes from
    H5public.h, plus [LONG_MAX] of the C implementation. *)

Record build_config : Type := {
  NDEBUG : bool;
  H5_HAVE_PARALLEL : bool;
  H5_HAVE_THREADSAFE_API : bool;
  H5_HAVE_CONCURRENCY : bool;
  H5_VERS_MAJOR : Z;
  H5_VERS_MINOR : Z;
  H5_VERS_RELEASE : Z;
  H5_VERS_SUBRELEASE : string;
  H5_VERS_INFO : string;
  H5build_settings : string;
  LONG_MAX : Z
}.

(* ================================================================= *)
(** ** What H5.c calls and does not define

    Each routine acts on the abstract [World]; a routine that can fail
    returns its status with the new world.  [call_atclose f ctx] is the call
    [( *f)(ctx)] of a registered callback: callbacks act on the world and do
    not re-enter the entry points of this file. *)

Record externals (World Func Ctx : Type) : Type := {
  H5_term_package : term_hook -> World -> Z * World;
  H5_init : init_hook -> World -> herr_t * World;
  call_atclose : Func -> Ctx -> World -> World;
  H5E_user_cb_prepare : World -> herr_t * World;
  H5E_user_cb_restore : World -> herr_t * World;
  H5TS_user_cb_prepare : World -> herr_t * World;
  H5TS_user_cb_restore : World -> herr_t * World;
  H5CX_push : World -> World;
  (** [H5E_get_default_auto_func(&func)]: is [func] non-null afterwards? *)
  H5E_get_default_auto_func : World -> bool;
  (** [H5FL_MALLOC(H5_atclose_node_t)]: did the allocation succeed? *)
  H5FL_MALLOC : World -> bool * World;
  (** [H5MM_malloc(sizeof(H5_debug_open_stream_t))]: the same. *)
  H5MM_malloc : World -> bool * World;
  HDfdopen : Z -> World -> option FILE * World;
  HDsetvbuf : FILE -> World -> World;
  fclose : FILE -> World -> World;
  H5FL_garbage_coll : World -> herr_t * World;
  MPI_Initialized : World -> bool;
  MPI_Finalized : World -> bool;
  (** The three MPI calls return [true] for [MPI_SUCCESS]. *)
  MPI_Comm_create_keyval : World -> bool * World;
  MPI_Comm_set_attr : World -> bool * World;
  MPI_Comm_free_keyval : World -> bool * World;
  getenv : string -> World -> option string
}.

(* ================================================================= *)
(** ** The globals of H5.c *)

(** One entry of [H5_debug_g.pkg]. *)
Record H5_debug_pkg_t : Type := {
  name : string;
  stream : option FILE
}.

(** [H5_debug_t]; [open_stream] is the linked list of opened streams, head
    first. *)
Record H5_debug_t : Type := {
  trace : option FILE;
  ttop : bool;
  ttimes : bool;
  pkg : list H5_debug_pkg_t;
  open_stream : list FILE
}.

(** [H5_atclose_node_t]; the [next] link is the tail of the list that holds
    the node. *)
Record H5_atclose_node_t (Func Ctx : Type) : Type := {
  func : Func;
  ctx : Ctx
}.

(** What a run did, in order: the callbacks invoked and, for every sweep of
    the shutdown loop, the value of [pending] it ended with and the
    [term_package] routines it called with their results. *)
Inductive event (Func Ctx : Type) : Type :=
| EvAtclose (node : H5_atclose_node_t Func Ctx)
| EvSweep (total : Z) (calls : list (term_hook * Z)).

Arguments EvSweep {Func Ctx} total calls.

(** The file-scope variables ([checked] and [disable_version_check] are the
    statics of [H5_check_version]), the process state the file writes to
    (the [atexit] list, the text sent to [stderr]), the world of the
    externals and the record of what ran. *)
Record lib_state (World Func Ctx : Type) : Type := {
  H5_libinit_g : bool;
  H5_libterm_g : bool;
  H5_dont_atexit_g : bool;
  H5_debug_g : H5_debug_t;
  H5_atclose_head : list (H5_atclose_node_t Func Ctx);
  checked : bool;
  disable_version_check : Z;
  atexit_list : list atexit_func;
  stderr_out : list string;
  world : World;
  events : list (event Func Ctx)
}.

Section Setters.
Context {World Func Ctx : Type}.
Let state : Type := lib_state World Func Ctx.

Definition set_libinit (b : bool) (s : state) : state :=
  {| H5_libinit_g := b; H5_libterm_g := H5_libterm_g s;
     H5_dont_atexit_g := H5_dont_atexit_g s; H5_debug_g := H5_debug_g s;
     H5_atclose_head := H5_atclose_head s; checked := checked s;
     disable_version_check := disable_version_check s;
     atexit_list := atexit_list s; stderr_out := stderr_out s;
     world := world s; events := events s |}.

Definition set_libterm (b : bool) (s : state) : state :=
  {| H5_libinit_g := H5_libinit_g s; H5_libterm_g := b;
     H5_dont_atexit_g := H5_dont_atexit_g s; H5_debug_g := H5_debug_g s;
     H5_atclose_head := H5_atclose_head s; checked := checked s;
     disable_version_check := disable_version_check s;
     atexit_list := atexit_list s; stderr_out := stderr_out s;
     world := world s; events := events s |}.

Definition set_dont_atexit (b : bool) (s : state) : state :=
  {| H5_libinit_g := H5_libinit_g s; H5_libterm_g := H5_libterm_g s;
     H5_dont_atexit_g := b; H5_debug_g := H5_debug_g s;
     H5_atclose_head := H5_atclose_head s; checked := checked s;
     disable_version_check := disable_version_check s;
     atexit_list := atexit_list s; stderr_out := stderr_out s;
     world := world s; events := events s |}.

Definition set_debug (d : H5_debug_t) (s : state) : state :=
  {| H5_libinit_g := H5_libinit_g s; H5_libterm_g := H5_libterm_g s;
     H5_dont_atexit_g := H5_dont_atexit_g s; H5_debug_g := d;
     H5_atclose_head := H5_atclose_head s; checked := checked s;
     disable_version_check := disable_version_check s;
     atexit_list := atexit_list s; stderr_out := stderr_out s;
     world := world s; events := events s |}.

Definition set_atclose_head (h : list (H5_atclose_node_t Func Ctx)) (s : state) : state :=
  {| H5_libinit_g := H5_libinit_g s; H5_libterm_g := H5_libterm_g s;
     H5_dont_atexit_g := H5_dont_atexit_g s; H5_debug_g := H5_debug_g s;
     H5_atclose_head := h; checked := checked s;
     disable_version_check := disable_version_check s;
     atexit_list := atexit_list s; stderr_out := stderr_out s;
     world := world s; events := events s |}.

Definition set_checked (b : bool) (s : state) : state :=
  {| H5_libinit_g := H5_libinit_g s; H5_libterm_g := H5_libterm_g s;
     H5_dont_atexit_g := H5_dont_atexit_g s; H5_debug_g := H5_debug_g s;
     H5_atclose_head := H5_atclose_head s; checked := b;
     disable_version_check := disable_version_check s;
     atexit_list := atexit_list s; stderr_out := stderr_out s;
     world := world s; events := events s |}.

Definition set_disable_version_check (v : Z) (s : state) : state :=
  {| H5_libinit_g := H5_libinit_g s; H5_libterm_g := H5_libterm_g s;
     H5_dont_atexit_g := H5_dont_atexit_g s; H5_debug_g := H5_debug_g s;
     H5_atclose_head := H5_atclose_head s; checked := checked s;
     disable_version_check := v;
     atexit_list := atexit_list s; stderr_out := stderr_out s;
     world := world s; events := events s |}.

Definition set_atexit_list (l : list atexit_func) (s : state) : state :=
  {| H5_libinit_g := H5_libinit_g s; H5_libterm_g := H5_libterm_g s;
     H5_dont_atexit_g := H5_dont_atexit_g s; H5_debug_g := H5_debug_g s;
     H5_atclose_head := H5_atclose_head s; checked := checked s;
     disable_version_check := disable_version_check s;
     atexit_list := l; stderr_out := stderr_out s;
     world := world s; events := events s |}.

Definition set_stderr_out (o : list string) (s : state) : state :=
  {| H5_libinit_g := H5_libinit_g s; H5_libterm_g := H5_libterm_g s;
     H5_dont_atexit_g := H5_dont_atexit_g s; H5_debug_g := H5_debug_g s;
     H5_atclose_head := H5_atclose_head s; checked := checked s;
     disable_version_check := disable_version_check s;
     atexit_list := atexit_list s; stderr_out := o;
     world := world s; events := events s |}.

Definition set_world (w : World) (s : state) : state :=
  {| H5_libinit_g := H5_libinit_g s; H5_libterm_g := H5_libterm_g s;
     H5_dont_atexit_g := H5_dont_atexit_g s; H5_debug_g := H5_debug_g s;
     H5_atclose_head := H5_atclose_head s; checked := checked s;
     disable_version_check := disable_version_check s;
     atexit_list := atexit_list s; stderr_out := stderr_out s;
     world := w; events := events s |}.

Definition set_events (e : list (event Func Ctx)) (s : state) : state :=
  {| H5_libinit_g := H5_libinit_g s; H5_libterm_g := H5_libterm_g s;
     H5_dont_atexit_g := H5_dont_atexit_g s; H5_debug_g := H5_debug_g s;
     H5_atclose_head := H5_atclose_head s; checked := checked s;
     disable_version_check := disable_version_check s;
     atexit_list := atexit_list s; stderr_out := stderr_out s;
     world := world s; events := e |}.

(** [fputs(text, stderr)], and [fprintf(stderr, ...)] once formatted. *)
Definition fputs_stderr (text : string) (s : state) : state :=
  set_stderr_out (stderr_out s ++ [text]) s.

(** [atexit(f)]. *)
Definition atexit (f : atexit_func) (s : state) : state :=
  set_atexit_list (atexit_list s ++ [f]) s.

Definition log_event (e : event Func Ctx) (s : state) : state :=
  set_events (events s ++ [e]) s.

(** A call of an external that returns a value. *)
Definition call {A : Type} (f : World -> A * World) (s : state) : A * state :=
  let '(a, w) := f (world s) in (a, set_world w s).

(** A call of an external whose value, if any, is dropped. *)
Definition call_ (f : World -> World) (s : state) : state :=
  set_world (f (world s)) s.

Definition drop {A : Type} (f : World -> A * World) (w : World) : World :=
  snd (f w).
End Setters.

(* ================================================================= *)
(** ** Calls that return or abort *)

Inductive outcome (S A : Type) : Type :=
| Returned (a : A) (s : S)
| Aborted (s : S).

Arguments Returned {S A} a s.
Arguments Aborted {S A} s.

Definition M (S A : Type) : Type := S -> outcome S A.

Definition ret {S A : Type} (a : A) : M S A := fun s => Returned a s.

Definition bind {S A B : Type} (m : M S A) (k : A -> M S B) : M S B :=
  fun s =>
    match m s with
    | Returned a s' => k a s'
    | Aborted s' => Aborted s'
    end.

(** [abort()]. *)
Definition abort {S A : Type} : M S A := fun s => Aborted s.

Definition gets {S A : Type} (f : S -> A) : M S A := fun s => Returned (f s) s.

Definition modify {S : Type} (f : S -> S) : M S unit := fun s => Returned tt (f s).

Definition lift {S A : Type} (f : S -> A * S) : M S A :=
  fun s => let '(a, s') := f s in Returned a s'.

Definition when_ {S : Type} (b : bool) (m : M S unit) : M S unit :=
  if b then m else ret tt.

Declare Scope monad_scope.
Delimit Scope monad_scope with monad.
Notation "x <- m ;; k" := (bind m (fun x => k))
  (at level 61, m at next level, right associativity) : monad_scope.
Notation "m ;; k" := (bind m (fun _ => k))
  (at level 61, right associativity) : monad_scope.
Local Open Scope monad_scope.

(** The state an outcome ends in, and the value returned if any. *)
Definition final_state {S A : Type} (o : outcome S A) : S :=
  match o with Returned _ s => s | Aborted s => s end.

Definition returned {S A : Type} (o : outcome S A) : option A :=
  match o with Returned a _ => Some a | Aborted _ => None end.

(* ================================================================= *)
(** ** Text of the diagnostics *)

Definition nl : string := String (ascii_of_nat 10) EmptyString.

Definition VERSION_MISMATCH_WARNING : string :=
  "Warning! ***HDF5 library version mismatched error***" ++ nl ++
  "The HDF5 header files used to compile this application do not match" ++ nl ++
  "the version used by the HDF5 library to which this application is linked." ++ nl ++
  "Data corruption or segmentation faults may occur if the application continues." ++ nl ++
  "This can happen when an application was compiled by one version of HDF5 but" ++ nl ++
  "linked with a different version of static or shared HDF5 library." ++ nl ++
  "You should recompile the application or check your shared library related" ++ nl ++
  "settings such as 'LD_LIBRARY_PATH'." ++ nl.

Definition RELEASE_MISMATCH_WARNING : string :=
  "Warning! ***HDF5 library release mismatched error***" ++ nl ++
  "The HDF5 header files used to compile this application are not compatible with" ++ nl ++
  "the version used by the HDF5 library to which this application is linked." ++ nl ++
  "Data corruption or segmentation faults may occur if the application continues." ++ nl ++
  "This can happen when an application was compiled by one version of HDF5 but" ++ nl ++
  "linked with an incompatible version of static or shared HDF5 library." ++ nl ++
  "You should recompile the application or check your shared library related" ++ nl ++
  "settings such as 'LD_LIBRARY_PATH'." ++ nl.

(** The second argument of the level-0 [fprintf(stderr, "%s%s", ...)]. *)
Definition disable_hint : string :=
  "You can, at your own risk, disable this warning by setting the environment" ++ nl ++
  "variable 'HDF5_DISABLE_VERSION_CHECK' to a value of '1'." ++ nl ++
  "Setting it to 2 or higher will suppress the warning messages totally." ++ nl.

(** The level-1 format, applied to a warning and the level. *)
Definition continue_notice (warning : string) (level : Z) : string :=
  warning ++ "'HDF5_DISABLE_VERSION_CHECK' " ++
  "environment variable is set to " ++ fmt_d level ++ ", application will" ++ nl ++
  "continue at your own risk." ++ nl.

(** ["Headers are %u.%u.%u, library is %u.%u.%u\n"]. *)
Definition headers_line (majnum minnum relnum lmaj lmin lrel : Z) : string :=
  "Headers are " ++ fmt_u majnum ++ "." ++ fmt_u minnum ++ "." ++ fmt_u relnum ++
  ", library is " ++ fmt_u lmaj ++ "." ++ fmt_u lmin ++ "." ++ fmt_u lrel ++ nl.

Definition version_info_warning : string :=
  "Warning!  Library version information error." ++ nl ++
  "The HDF5 library version information are not " ++
  "consistent in its source code." ++ nl ++ "This is NOT a fatal error " ++
  "but should be corrected.  Setting the environment" ++ nl ++
  "variable 'HDF5_DISABLE_VERSION_CHECK' to a value of 1 " ++
  "will suppress" ++ nl ++ "this warning." ++ nl.

Definition infinite_loop_message : string :=
  "HDF5: infinite loop closing library" ++ nl.

(** [VERS_RELEASE_EXCEPTIONS], of size [VERS_RELEASE_EXCEPTIONS_SIZE] = 1. *)
Definition VERS_RELEASE_EXCEPTIONS : list Z := [0].

(** The names [H5_init_library] stores at [H5_PKG_A] .. [H5_PKG_Z] (lines
    189-208), in the order of the assignments.  The enumeration [H5_pkg_t]
    and its last member [H5_NPKGS] are declared in H5private.h, which is
    not part of the sources at hand: the table [pkg] is taken to hold
    exactly these twenty entries. *)
Definition H5_pkg_names : list string :=
  ["a"; "ac"; "b"; "d"; "e"; "f"; "g"; "hg"; "hl"; "i"; "m"; "mf"; "mm"; "o";
   "p"; "s"; "t"; "v"; "vl"; "z"].

(* ================================================================= *)
(** ** Pieces of [H5__debug_mask] *)

(** The scan [for (i = 0; isalpha( *s); i++, s++)]: the letters passed over
    and the string left at [s]. *)
Fixpoint alpha_run (s : string) : string * string :=
  match s with
  | String c s' =>
      if isalpha c then (String c (fst (alpha_run s')), snd (alpha_run s'))
      else (EmptyString, s)
  | EmptyString => (EmptyString, s)
  end.

(** Where the name starts when the word starts with [c]: after a sign, or
    at [c] itself. *)
Definition after_sign (c : ascii) (s' : string) : string :=
  if (c =? "-")%char || (c =? "+")%char then s' else String c s'.

(** The search [for (i = 0; i < H5_NPKGS; i++)] with its [break]: the table
    with the stream of the first entry named [nm] replaced, or [None] when
    the loop ends with [i >= H5_NPKGS]. *)
Fixpoint set_named_stream (nm : string) (v : option FILE)
    (l : list H5_debug_pkg_t) : option (list H5_debug_pkg_t) :=
  match l with
  | [] => None
  | p :: l' =>
      if (name p =? nm)%string then Some ({| name := name p; stream := v |} :: l')
      else option_map (cons p) (set_named_stream nm v l')
  end.

Lemma alpha_run_rest_le (s : string) :
  (String.length (snd (alpha_run s)) <= String.length s)%nat.
Proof.
  induction s as [|c s IH]; simpl; [lia|].
  destruct (isalpha c); simpl; lia.
Qed.

Lemma word_rest_shorter (c : ascii) (s' : string) :
  isalpha c || (c =? "-")%char || (c =? "+")%char = true ->
  (String.length (snd (alpha_run (after_sign c s'))) < String.length (String c s'))%nat.
Proof.
  intros H. unfold after_sign.
  pose proof (alpha_run_rest_le s') as Hle.
  destruct ((c =? "-")%char || (c =? "+")%char) eqn:Hsign; simpl.
  - lia.
  - rewrite <- orb_assoc, Hsign, orb_false_r in H. rewrite H. simpl. lia.
Qed.

Lemma strtol_digits_rest_le (base : Z) (s : string) (acc : Z) :
  (String.length (snd (strtol_digits base acc s)) <= String.length s)%nat.
Proof.
  revert acc. induction s as [|c s IH]; intros acc; simpl; [lia|].
  destruct (digit_val c) as [d|]; simpl; [|lia].
  destruct (d <? base); simpl; [|lia].
  specialize (IH (acc * base + d)). lia.
Qed.

Lemma isdigit_not_space (c : ascii) : isdigit c = true -> isspace c = false.
Proof.
  unfold isdigit, isspace, in_range. intros H.
  apply andb_true_iff in H. destruct H as [H1 H2].
  apply Z.leb_le in H1. apply Z.leb_le in H2.
  apply orb_false_iff. split.
  - apply Z.eqb_neq. lia.
  - apply andb_false_iff. right. apply Z.leb_gt. lia.
Qed.

Lemma strtol_unsigned_rest_shorter (c : ascii) (s' : string) :
  isdigit c = true ->
  exists p, strtol_unsigned (String c s') = Some p /\
    (String.length (snd p) < String.length (String c s'))%nat.
Proof.
  intros Hd.
  assert (Hstep : forall base, 10 <= base \/ (base = 8 /\ c = "0"%char) ->
            (String.length (snd (strtol_digits base 0 (String c s')))
             < String.length (String c s'))%nat).
  { intros base Hb. cbn [strtol_digits].
    assert (Hv : exists d, digit_val c = Some d /\ (d <? base) = true).
    { unfold digit_val. rewrite Hd. eexists. split; [reflexivity|].
      apply Z.ltb_lt. destruct Hb as [Hb|[-> ->]]; [|reflexivity].
      unfold isdigit, in_range in Hd. apply andb_true_iff in Hd.
      destruct Hd as [_ Hd]. apply Z.leb_le in Hd. lia. }
    destruct Hv as [d [-> ->]].
    pose proof (strtol_digits_rest_le base s' (0 * base + d)).
    cbn [String.length]. lia. }
  assert (Hoct : c = "0"%char ->
            (String.length (snd (strtol_digits 8 0 (String c s')))
             < String.length (String c s'))%nat).
  { intros Hc. apply Hstep. right. split; [reflexivity | exact Hc]. }
  destruct (ascii_dec c "0"%char) as [Hc|Hne].
  - specialize (Hoct Hc). subst c.
    destruct s' as [|x [|h t]].
    + eexists. split; [reflexivity | exact Hoct].
    + eexists. split; [reflexivity | exact Hoct].
    + cbn [strtol_unsigned].
      destruct (((x =? "x")%char || (x =? "X")%char) && is_hex_digit h).
      * eexists. split; [reflexivity|].
        pose proof (strtol_digits_rest_le 16 (String h t) 0).
        cbn [String.length] in *. lia.
      * eexists. split; [reflexivity | exact Hoct].
  - assert (Hu : strtol_unsigned (String c s') = Some (strtol_digits 10 0 (String c s'))).
    { unfold strtol_unsigned.
      destruct c as [[] [] [] [] [] [] [] []]; try discriminate Hd;
        try (exfalso; apply Hne; reflexivity); reflexivity. }
    rewrite Hu. eexists. split; [reflexivity|].
    apply (Hstep 10). left. lia.
Qed.

Lemma strtol_rest_shorter (long_max : Z) (c : ascii) (s' : string) :
  isdigit c = true ->
  (String.length (snd (strtol long_max (String c s'))) < String.length (String c s'))%nat.
Proof.
  intros Hd. unfold strtol.
  cbn [skip_space]. rewrite (isdigit_not_space c Hd).
  assert (Hm : (c =? "-")%char = false /\ (c =? "+")%char = false).
  { destruct c as [[] [] [] [] [] [] [] []]; try discriminate Hd; split; reflexivity. }
  destruct Hm as [-> ->].
  destruct (strtol_unsigned_rest_shorter c s' Hd) as [[v rest] [-> Hlt]].
  exact Hlt.
Qed.

(* ================================================================= *)
(** ** The locals of the shutdown loop *)

(** [int pending], [size_t at] and the text held by [char loop[1024]] in
    [H5_term_library], with the world the [term_package] routines act on
    and the calls made so far in the current sweep. *)
Record term_locals (World : Type) : Type := {
  pending : Z;
  at_ : Z;
  loop : string;
  tl_world : World;
  calls : list (term_hook * Z)
}.

(** [ntries] stops being incremented at 100: the distance left. *)
Definition tries_left (ntries : Z) : nat := Z.to_nat (100 - ntries).

Lemma tries_left_decreases (ntries : Z) :
  ntries < 100 -> (tries_left (ntries + 1) < tries_left ntries)%nat.
Proof. unfold tries_left. lia. Qed.

#[local] Opaque tries_left.

(* ================================================================= *)
(** ** Vocabulary of the properties *)

(** The blocks of the sweep, in order: the unguarded first call, then one
    block per [if (pending == 0)]. *)
Definition guard_blocks : list (list term_hook) :=
  [ [H5ES];
    [H5L; H5A_top; H5D_top; H5G_top; H5M_top; H5S_top; H5T_top];
    [H5F];
    [H5P];
    [H5A; H5D; H5G; H5M; H5S; H5T];
    [H5AC; H5Z; H5FD; H5VL];
    [H5PL]; [H5E]; [H5I]; [H5SL]; [H5FL]; [H5CX] ].

(** The index in [guard_blocks] of the block a routine belongs to. *)
Definition guard_block (F : term_hook) : nat :=
  match F with
  | H5ES => 0
  | H5L | H5A_top | H5D_top | H5G_top | H5M_top | H5S_top | H5T_top => 1
  | H5F => 2
  | H5P => 3
  | H5A | H5D | H5G | H5M | H5S | H5T => 4
  | H5AC | H5Z | H5FD | H5VL => 5
  | H5PL => 6 | H5E => 7 | H5I => 8 | H5SL => 9 | H5FL => 10 | H5CX => 11
  end%nat.

(** The phase of a routine in the list of eight phases the specification
    gives for the shutdown engine (section 4.7): 1 asynchronous operation
    sets; 2 link management; 3 the "top" shutdowns; 4 files; 5 property
    lists; 6 the "bottom" shutdowns; 7 metadata cache and pluggable
    interfaces; 8 plugin framework, errors, identifiers, skip lists, free
    lists, API contexts. *)
Definition spec_phase (F : term_hook) : nat :=
  match F with
  | H5ES => 1
  | H5L => 2
  | H5A_top | H5D_top | H5G_top | H5M_top | H5S_top | H5T_top => 3
  | H5F => 4
  | H5P => 5
  | H5A | H5D | H5G | H5M | H5S | H5T => 6
  | H5AC | H5Z | H5FD | H5VL => 7
  | H5PL | H5E | H5I | H5SL | H5FL | H5CX => 8
  end%nat.

(** The calls of one sweep respect the grouping [group]: a routine was
    called only if every routine of an earlier group was called in the
    sweep and reported 0. *)
Definition gated (group : term_hook -> nat) (cs : list (term_hook * Z)) : Prop :=
  forall q n p, In (q, n) cs -> (group p < group q)%nat -> In (p, 0) cs.

(** A bound on the results under which the 26 additions of a sweep stay
    within [int]: [INT_MAX / 26]. *)
Definition max_reported : Z := 82595524.

(** The callbacks a run invoked, in order. *)
Fixpoint callbacks_invoked {Func Ctx : Type} (ev : list (event Func Ctx)) : list (Func * Ctx) :=
  match ev with
  | [] => []
  | EvAtclose node :: rest => (func node, ctx node) :: callbacks_invoked rest
  | EvSweep _ _ :: rest => callbacks_invoked rest
  end.

(** The sweeps a run made, in order. *)
Fixpoint sweeps_made {Func Ctx : Type} (ev : list (event Func Ctx))
    : list (Z * list (term_hook * Z)) :=
  match ev with
  | [] => []
  | EvAtclose _ :: rest => sweeps_made rest
  | EvSweep total cs :: rest => (total, cs) :: sweeps_made rest
  end.

(** No callback is recorded after a sweep. *)
Fixpoint callbacks_first {Func Ctx : Type} (ev : list (event Func Ctx)) : Prop :=
  match ev with
  | [] => True
  | EvAtclose _ :: rest => callbacks_first rest
  | EvSweep _ _ :: rest => callbacks_invoked rest = []
  end.






(* ================================================================= *)
(** ** A concrete build and concrete externals, to run the model

    The world is a counter of the sweeps started (the [ES] routine, first of
    every sweep, increments it); callbacks and contexts are numbers.  The
    [term_package] routines and the environment are left open. *)

Definition demo_cfg (ndebug : bool) : build_config :=
  {| NDEBUG := ndebug; H5_HAVE_PARALLEL := false; H5_HAVE_THREADSAFE_API := false;
     H5_HAVE_CONCURRENCY := false;
     H5_VERS_MAJOR := 2; H5_VERS_MINOR := 0; H5_VERS_RELEASE := 0;
     H5_VERS_SUBRELEASE := EmptyString;
     H5_VERS_INFO := "HDF5 library version: 2.0.0";
     H5build_settings := "Build settings: demo";
     LONG_MAX := 9223372036854775807 |}.

Definition demo_externals (hooks : term_hook -> nat -> Z) (auto_func : bool)
    (env : string -> option string) : externals nat nat nat :=
  {| H5_term_package := fun F w =>
       (hooks F w, match F with H5ES => Datatypes.S w | _ => w end);
     H5_init := fun _ w => (SUCCEED, w);
     call_atclose := fun _ _ w => w;
     H5E_user_cb_prepare := fun w => (SUCCEED, w);
     H5E_user_cb_restore := fun w => (SUCCEED, w);
     H5TS_user_cb_prepare := fun w => (SUCCEED, w);
     H5TS_user_cb_restore := fun w => (SUCCEED, w);
     H5CX_push := fun w => w;
     H5E_get_default_auto_func := fun _ => auto_func;
     H5FL_MALLOC := fun w => (true, w);
     H5MM_malloc := fun w => (true, w);
     HDfdopen := fun fd w => (Some (fdopened fd), w);
     HDsetvbuf := fun _ w => w;
     fclose := fun _ w => w;
     H5FL_garbage_coll := fun w => (SUCCEED, w);
     MPI_Initialized := fun _ => false;
     MPI_Finalized := fun _ => false;
     MPI_Comm_create_keyval := fun w => (true, w);
     MPI_Comm_set_attr := fun w => (true, w);
     MPI_Comm_free_keyval := fun w => (true, w);
     getenv := fun v _ => env v |}.

(** The state of a process that has not called the library yet. *)
Definition fresh_state {World : Type} (Func Ctx : Type) (w : World) : lib_state World Func Ctx :=
  {| H5_libinit_g := false; H5_libterm_g := false; H5_dont_atexit_g := false;
     H5_debug_g := {| trace := None; ttop := false; ttimes := false; pkg := [];
                      open_stream := [] |};
     H5_atclose_head := []; checked := false; disable_version_check := 0;
     atexit_list := []; stderr_out := []; world := w; events := [] |}.

Definition no_env : string -> option string := fun _ => None.

(** Every package is quiescent at once. *)
Definition hooks_quiet : term_hook -> nat -> Z := fun _ _ => 0.

(** "Phase K always reports pending=1 for 150 consecutive sweeps", with the
    file subsystem as K. *)
Definition hooks_stuck_file : term_hook -> nat -> Z :=
  fun F w => match F with H5F => if (w <=? 150)%nat then 1 else 0 | _ => 0 end.

(** The link package reports work once per sweep; everything else is
    quiescent. *)
Definition hooks_link_busy : term_hook -> nat -> Z :=
  fun F _ => match F with H5L => 1 | _ => 0 end.

(** The link package and the six "top" routines report work during the
    first 60 sweeps; after that only the file package does, forever. *)
Definition hooks_late_file : term_hook -> nat -> Z :=
  fun F w =>
    match F with
    | H5L | H5A_top | H5D_top | H5G_top | H5M_top | H5S_top | H5T_top =>
        if (w <=? 60)%nat then 1 else 0
    | H5F => 1
    | _ => 0
    end.

(** An environment that only sets [HDF5_DISABLE_VERSION_CHECK]. *)
Definition env_version_check (v : string) : string -> option string :=
  fun var => if (var =? "HDF5_DISABLE_VERSION_CHECK")%string then Some v else None.

(** The state [H5open] leaves a fresh process in, under [demo_cfg] and
    [demo_externals] with no environment (see [demo_initialized_reached]). *)
Definition demo_initialized : lib_state nat nat nat :=
  {| H5_libinit_g := true; H5_libterm_g := false; H5_dont_atexit_g := true;
     H5_debug_g :=
       {| trace := None; ttop := false; ttimes := false;
          pkg := map (fun nm => {| name := nm; stream := None |}) H5_pkg_names;
          open_stream := [] |};
     H5_atclose_head := []; checked := true; disable_version_check := 0;
     atexit_list := [atexit_H5_term_library]; stderr_out := []; world := 0%nat;
     events := [] |}.

(** A build like [demo_cfg] with [NDEBUG], of release [release], parallel
    or thread-safe on demand. *)
Definition demo_cfg_with (parallel threadsafe : bool) (release : Z) : build_config :=
  {| NDEBUG := true; H5_HAVE_PARALLEL := parallel; H5_HAVE_THREADSAFE_API := threadsafe;
     H5_HAVE_CONCURRENCY := false;
     H5_VERS_MAJOR := 2; H5_VERS_MINOR := 0; H5_VERS_RELEASE := release;
     H5_VERS_SUBRELEASE := EmptyString;
     H5_VERS_INFO := "HDF5 library version: 2.0." ++ fmt_d release;
     H5build_settings := "Build settings: demo";
     LONG_MAX := 9223372036854775807 |}.

(** The externals [E] with other [init] routines. *)
Definition with_init {World Func Ctx : Type} (E : externals World Func Ctx)
    (init : init_hook -> World -> herr_t * World) : externals World Func Ctx :=
  {| H5_term_package := H5_term_package E;
     H5_init := init;
     call_atclose := call_atclose E;
     H5E_user_cb_prepare := H5E_user_cb_prepare E;
     H5E_user_cb_restore := H5E_user_cb_restore E;
     H5TS_user_cb_prepare := H5TS_user_cb_prepare E;
     H5TS_user_cb_restore := H5TS_user_cb_restore E;
     H5CX_push := H5CX_push E;
     H5E_get_default_auto_func := H5E_get_default_auto_func E;
     H5FL_MALLOC := H5FL_MALLOC E;
     H5MM_malloc := H5MM_malloc E;
     HDfdopen := HDfdopen E;
     HDsetvbuf := HDsetvbuf E;
     fclose := fclose E;
     H5FL_garbage_coll := H5FL_garbage_coll E;
     MPI_Initialized := MPI_Initialized E;
     MPI_Finalized := MPI_Finalized E;
     MPI_Comm_create_keyval := MPI_Comm_create_keyval E;
     MPI_Comm_set_attr := MPI_Comm_set_attr E;
     MPI_Comm_free_keyval := MPI_Comm_free_keyval E;
     getenv := getenv E |}.

(** The externals [E] with MPI initialised, not finalised, and
    [MPI_Comm_set_attr] succeeding or not. *)
Definition with_mpi_running {World Func Ctx : Type} (E : externals World Func Ctx)
    (set_attr_ok : bool) : externals World Func Ctx :=
  {| H5_term_package := H5_term_package E;
     H5_init := H5_init E;
     call_atclose := call_atclose E;
     H5E_user_cb_prepare := H5E_user_cb_prepare E;
     H5E_user_cb_restore := H5E_user_cb_restore E;
     H5TS_user_cb_prepare := H5TS_user_cb_prepare E;
     H5TS_user_cb_restore := H5TS_user_cb_restore E;
     H5CX_push := H5CX_push E;
     H5E_get_default_auto_func := H5E_get_default_auto_func E;
     H5FL_MALLOC := H5FL_MALLOC E;
     H5MM_malloc := H5MM_malloc E;
     HDfdopen := HDfdopen E;
     HDsetvbuf := HDsetvbuf E;
     fclose := fclose E;
     H5FL_garbage_coll := H5FL_garbage_coll E;
     MPI_Initialized := fun _ => true;
     MPI_Finalized := fun _ => false;
     MPI_Comm_create_keyval := fun w => (true, w);
     MPI_Comm_set_attr := fun w => (set_attr_ok, w);
     MPI_Comm_free_keyval := fun w => (true, w);
     getenv := getenv E |}.

(** The datatype interface fails to initialise; the others succeed. *)
Definition datatype_init_fails : init_hook -> nat -> herr_t * nat :=
  fun h w => match h with H5T_init => (FAIL, w) | _ => (SUCCEED, w) end.

(** An initialised library with one callback registered. *)
Definition demo_with_callback : lib_state nat nat nat :=
  set_atclose_head [{| func := 1%nat; ctx := 10%nat |}] demo_initialized.


(** Externals whose world is the list of the callbacks that ran, in the
    order they ran: a callback adds itself and its context at the end.
    Every package is quiescent and nothing else touches the world. *)
Definition recording_externals : externals (list (nat * nat)) nat nat :=
  {| H5_term_package := fun _ w => (0, w);
     H5_init := fun _ w => (SUCCEED, w);
     call_atclose := fun f c w => (w ++ [(f, c)])%list;
     H5E_user_cb_prepare := fun w => (SUCCEED, w);
     H5E_user_cb_restore := fun w => (SUCCEED, w);
     H5TS_user_cb_prepare := fun w => (SUCCEED, w);
     H5TS_user_cb_restore := fun w => (SUCCEED, w);
     H5CX_push := fun w => w;
     H5E_get_default_auto_func := fun _ => true;
     H5FL_MALLOC := fun w => (true, w);
     H5MM_malloc := fun w => (true, w);
     HDfdopen := fun fd w => (Some (fdopened fd), w);
     HDsetvbuf := fun _ w => w;
     fclose := fun _ w => w;
     H5FL_garbage_coll := fun w => (SUCCEED, w);
     MPI_Initialized := fun _ => false;
     MPI_Finalized := fun _ => false;
     MPI_Comm_create_keyval := fun w => (true, w);
     MPI_Comm_set_attr := fun w => (true, w);
     MPI_Comm_free_keyval := fun w => (true, w);
     getenv := fun _ _ => None |}.

(* ================================================================= *)
(** ** The functions of H5.c *)

Section Model.
Context {World Func Ctx : Type}.
Variable cfg : build_config.
Variable X : externals World Func Ctx.

Let state : Type := lib_state World Func Ctx.

(* --------------------------------------------------------------- *)
(** *** [H5_check_version] (H5.c, lines 833-970) *)

(** The [switch (disable_version_check)] of the major/minor test. *)
Definition version_mismatch_switch (majnum minnum relnum : Z) : M state unit :=
  level <- gets (fun st : state => disable_version_check st) ;;
  if level =? 0 then
    modify (fputs_stderr (VERSION_MISMATCH_WARNING ++ disable_hint)) ;;
    modify (fputs_stderr (headers_line majnum minnum relnum
              (H5_VERS_MAJOR cfg) (H5_VERS_MINOR cfg) (H5_VERS_RELEASE cfg))) ;;
    modify (fputs_stderr (H5build_settings cfg)) ;;
    modify (fputs_stderr ("Bye..." ++ nl)) ;;
    abort
  else if level =? 1 then
    modify (fputs_stderr (continue_notice VERSION_MISMATCH_WARNING level)) ;;
    modify (fputs_stderr (headers_line majnum minnum relnum
              (H5_VERS_MAJOR cfg) (H5_VERS_MINOR cfg) (H5_VERS_RELEASE cfg))) ;;
    modify (fputs_stderr (H5build_settings cfg))
  else
    ret tt.

(** The [switch (disable_version_check)] of the release test. *)
Definition release_mismatch_switch (majnum minnum relnum : Z) : M state unit :=
  level <- gets (fun st : state => disable_version_check st) ;;
  if level =? 0 then
    modify (fputs_stderr (RELEASE_MISMATCH_WARNING ++ disable_hint)) ;;
    modify (fputs_stderr (headers_line majnum minnum relnum
              (H5_VERS_MAJOR cfg) (H5_VERS_MINOR cfg) (H5_VERS_RELEASE cfg))) ;;
    modify (fputs_stderr ("Bye..." ++ nl)) ;;
    abort
  else if level =? 1 then
    modify (fputs_stderr (continue_notice RELEASE_MISMATCH_WARNING level)) ;;
    modify (fputs_stderr (headers_line majnum minnum relnum
              (H5_VERS_MAJOR cfg) (H5_VERS_MINOR cfg) (H5_VERS_RELEASE cfg)))
  else
    ret tt.

(** The [for] loop over [VERS_RELEASE_EXCEPTIONS]. *)
Fixpoint release_exceptions_loop (exceptions : list Z)
    (majnum minnum relnum : Z) : M state unit :=
  match exceptions with
  | [] => ret tt
  | e :: rest =>
      when_ ((e =? relnum) || (e =? H5_VERS_RELEASE cfg))
            (release_mismatch_switch majnum minnum relnum) ;;
      release_exceptions_loop rest majnum minnum relnum
  end.

(** The string [snprintf] leaves in [lib_str[256]]. *)
Definition lib_str : string :=
  truncate 255
    ("HDF5 library version: " ++ fmt_d (H5_VERS_MAJOR cfg) ++ "." ++
     fmt_d (H5_VERS_MINOR cfg) ++ "." ++ fmt_d (H5_VERS_RELEASE cfg) ++
     (match H5_VERS_SUBRELEASE cfg with EmptyString => EmptyString | _ => "-" end) ++
     H5_VERS_SUBRELEASE cfg).

(** The second [fprintf] of the consistency warning. *)
Definition version_info_details : string :=
  "Library version information are:" ++ nl ++
  "H5_VERS_MAJOR=" ++ fmt_d (H5_VERS_MAJOR cfg) ++
  ", H5_VERS_MINOR=" ++ fmt_d (H5_VERS_MINOR cfg) ++
  ", H5_VERS_RELEASE=" ++ fmt_d (H5_VERS_RELEASE cfg) ++ ", " ++
  "H5_VERS_SUBRELEASE=" ++ H5_VERS_SUBRELEASE cfg ++ "," ++ nl ++
  "H5_VERS_INFO=" ++ H5_VERS_INFO cfg ++ nl.

(** Does [s && isdigit( *s)] hold of the value of [getenv]? *)
Definition starts_with_digit (s : option string) : bool :=
  match s with
  | Some (String c _) => isdigit c
  | _ => false
  end.

Definition H5_check_version (majnum minnum relnum : Z) : M state herr_t :=
  already <- gets (fun st : state => checked st) ;;
  if already then ret SUCCEED
  else
    s <- gets (fun st : state => getenv X "HDF5_DISABLE_VERSION_CHECK" (world st)) ;;
    when_ (starts_with_digit s)
      (modify (set_disable_version_check
         (to_uint (fst (strtol (LONG_MAX cfg)
                          (match s with Some str => str | None => EmptyString end)))))) ;;
    when_ (negb (H5_VERS_MAJOR cfg =? majnum) || negb (H5_VERS_MINOR cfg =? minnum))
      (version_mismatch_switch majnum minnum relnum) ;;
    when_ (negb (H5_VERS_RELEASE cfg =? relnum))
      (release_exceptions_loop VERS_RELEASE_EXCEPTIONS majnum minnum relnum) ;;
    modify (set_checked true) ;;
    level <- gets (fun st : state => disable_version_check st) ;;
    when_ (level =? 0)
      (when_ (negb (lib_str =? H5_VERS_INFO cfg)%string)
         (modify (fputs_stderr version_info_warning) ;;
          modify (fputs_stderr version_info_details))) ;;
    ret SUCCEED.

(** [H5check_version] (lines 972-984). *)
Definition H5check_version (majnum minnum relnum : Z) : M state herr_t :=
  H5_check_version majnum minnum relnum ;;
  ret SUCCEED.

(* --------------------------------------------------------------- *)
(** *** [H5__debug_mask] (lines 659-741) *)

Definition set_trace (t : option FILE) (d : H5_debug_t) : H5_debug_t :=
  {| trace := t; ttop := ttop d; ttimes := ttimes d; pkg := pkg d;
     open_stream := open_stream d |}.

Definition set_ttop (b : bool) (d : H5_debug_t) : H5_debug_t :=
  {| trace := trace d; ttop := b; ttimes := ttimes d; pkg := pkg d;
     open_stream := open_stream d |}.

Definition set_ttimes (b : bool) (d : H5_debug_t) : H5_debug_t :=
  {| trace := trace d; ttop := ttop d; ttimes := b; pkg := pkg d;
     open_stream := open_stream d |}.

Definition set_pkg (l : list H5_debug_pkg_t) (d : H5_debug_t) : H5_debug_t :=
  {| trace := trace d; ttop := ttop d; ttimes := ttimes d; pkg := l;
     open_stream := open_stream d |}.

Definition set_open_stream (l : list FILE) (d : H5_debug_t) : H5_debug_t :=
  {| trace := trace d; ttop := ttop d; ttimes := ttimes d; pkg := pkg d;
     open_stream := l |}.

(** The chain "Trace, all, or one?" applied to the name in [pkg_name]. *)
Definition debug_word (clear : bool) (pkg_name : string)
    (cur_stream : option FILE) (st : state) : state :=
  let d := H5_debug_g st in
  let target := if clear then None else cur_stream in
  if (pkg_name =? "trace")%string then
    set_debug (set_trace target d) st
  else if (pkg_name =? "ttop")%string then
    set_debug (set_ttop (negb clear) (set_trace cur_stream d)) st
  else if (pkg_name =? "ttimes")%string then
    set_debug (set_ttimes (negb clear) (set_trace cur_stream d)) st
  else if (pkg_name =? "all")%string then
    set_debug
      (set_pkg (map (fun p => {| name := name p; stream := target |}) (pkg d)) d) st
  else
    match set_named_stream pkg_name target (pkg d) with
    | Some l => set_debug (set_pkg l d) st
    | None => fputs_stderr ("HDF5_DEBUG: ignored " ++ pkg_name ++ nl) st
    end.

(** The [while (s && *s)] loop, entered with [s] not null. *)
Equations? debug_mask_loop (s : string) (cur_stream : option FILE) (st : state) : state
  by wf (String.length s) lt :=
  debug_mask_loop EmptyString cur_stream st := st;
  debug_mask_loop (String c s') cur_stream st
    with inspect (isalpha c || (c =? "-")%char || (c =? "+")%char) := {
    | exist _ true Hword =>
        debug_mask_loop (snd (alpha_run (after_sign c s'))) cur_stream
          (debug_word (c =? "-")%char
             (truncate 31 (fst (alpha_run (after_sign c s')))) cur_stream st)
    | exist _ false _ with inspect (isdigit c) := {
      | exist _ true Hdigit =>
          let rest := snd (strtol (LONG_MAX cfg) (String c s')) in
          let fd := to_int (fst (strtol (LONG_MAX cfg) (String c s'))) in
          match call (HDfdopen X fd) st with
          | (Some f, st1) =>
              match call (H5MM_malloc X) (call_ (HDsetvbuf X f) st1) with
              | (true, st2) =>
                  debug_mask_loop rest (Some f)
                    (set_debug
                       (set_open_stream (f :: open_stream (H5_debug_g st2))
                          (H5_debug_g st2)) st2)
              | (false, st2) => call_ (fclose X f) st2
              end
          | (None, st1) => debug_mask_loop rest None st1
          end
      | exist _ false _ => debug_mask_loop s' cur_stream st } }.
Proof.
  - apply word_rest_shorter. exact Hword.
  - apply strtol_rest_shorter. exact Hdigit.
  - apply strtol_rest_shorter. exact Hdigit.
Qed.

Definition H5__debug_mask (s : option string) (st : state) : state :=
  match s with
  | Some str => debug_mask_loop str (Some stderr) st
  | None => st
  end.

(* --------------------------------------------------------------- *)
(** *** [H5_term_library] (lines 301-488) *)

(** [sprintf(loop + at, ...)] followed by [at += strlen(loop + at)]:
    [at] is where the text in [loop] ends, so the text grows by what is
    printed. *)
Definition sprintf_at (text : string) (l : term_locals World) : term_locals World :=
  {| pending := pending l; at_ := at_ l + Z.of_nat (String.length text);
     loop := loop l ++ text; tl_world := tl_world l; calls := calls l |}.

(** The macro [DOWN(F)]: the value [n] of [H5##F##_term_package()], and
    the locals once the name or the dots are printed. *)
Definition DOWN (F : term_hook) (l : term_locals World) : Z * term_locals World :=
  let '(n, w) := H5_term_package X F (tl_world l) in
  let l1 := {| pending := pending l; at_ := at_ l; loop := loop l;
               tl_world := w; calls := calls l ++ [(F, n)] |} in
  if negb (n =? 0) && (at_ l + 8 <? 1024) then
    (n, sprintf_at ((if at_ l =? 0 then EmptyString else ",") ++ hook_name F) l1)
  else if (0 <? n) && (at_ l + 5 <? 1024) then
    (n, sprintf_at "..." l1)
  else
    (n, l1).

(** The statement [pending += DOWN(F);]. *)
Definition pending_plus_DOWN (F : term_hook) (l : term_locals World) : term_locals World :=
  let '(n, l') := DOWN F l in
  {| pending := int_add (pending l') n; at_ := at_ l'; loop := loop l';
     tl_world := tl_world l'; calls := calls l' |}.

(** [if (pending == 0) { body }]. *)
Definition if_pending_zero (body : term_locals World -> term_locals World)
    (l : term_locals World) : term_locals World :=
  if pending l =? 0 then body l else l.

(** [pending = 0;] at the head of the sweep; no call made yet. *)
Definition sweep_start (l : term_locals World) : term_locals World :=
  {| pending := 0; at_ := at_ l; loop := loop l; tl_world := tl_world l; calls := [] |}.

(** The body of the [do ... while], one sweep (lines 366-451). *)
Definition sweep (l0 : term_locals World) : term_locals World :=
  let l := sweep_start l0 in
  let l := pending_plus_DOWN H5ES l in
  let l :=
    if_pending_zero (fun l =>
      let l := pending_plus_DOWN H5L l in
      let l := pending_plus_DOWN H5A_top l in
      let l := pending_plus_DOWN H5D_top l in
      let l := pending_plus_DOWN H5G_top l in
      let l := pending_plus_DOWN H5M_top l in
      let l := pending_plus_DOWN H5S_top l in
      pending_plus_DOWN H5T_top l) l in
  let l := if_pending_zero (pending_plus_DOWN H5F) l in
  let l := if_pending_zero (pending_plus_DOWN H5P) l in
  let l :=
    if_pending_zero (fun l =>
      let l := pending_plus_DOWN H5A l in
      let l := pending_plus_DOWN H5D l in
      let l := pending_plus_DOWN H5G l in
      let l := pending_plus_DOWN H5M l in
      let l := pending_plus_DOWN H5S l in
      pending_plus_DOWN H5T l) l in
  if_pending_zero (fun l =>
    let l := pending_plus_DOWN H5AC l in
    let l := pending_plus_DOWN H5Z l in
    let l := pending_plus_DOWN H5FD l in
    let l := pending_plus_DOWN H5VL l in
    let l := if_pending_zero (pending_plus_DOWN H5PL) l in
    let l := if_pending_zero (pending_plus_DOWN H5E) l in
    let l := if_pending_zero (pending_plus_DOWN H5I) l in
    let l := if_pending_zero (pending_plus_DOWN H5SL) l in
    let l := if_pending_zero (pending_plus_DOWN H5FL) l in
    if_pending_zero (pending_plus_DOWN H5CX) l) l.

(** [do { sweep } while (pending && ntries++ < 100);] entered with the
    given [ntries].  [done] collects, for every sweep, the value of
    [pending] it ends with and the calls it made. *)
Equations? shutdown_loop (ntries : Z) (l : term_locals World)
    (done : list (Z * list (term_hook * Z)))
    : term_locals World * list (Z * list (term_hook * Z))
  by wf (tries_left ntries) lt :=
  shutdown_loop ntries l done :=
    let l' := sweep l in
    let done' := (done ++ [(pending l', calls l')])%list in
    if pending l' =? 0 then (l', done')
    else
      match Z_lt_dec ntries 100 with
      | left Hlt => shutdown_loop (ntries + 1) l' done'
      | right _ => (l', done')
      end.
Proof. apply tries_left_decreases. exact Hlt. Qed.

(** [H5_user_cb_prepare] (lines 1246-1265). *)
Definition H5_user_cb_prepare (w : World) : herr_t * World :=
  let '(r, w1) := H5E_user_cb_prepare X w in
  if r <? 0 then (FAIL, w1)
  else if H5_HAVE_CONCURRENCY cfg then
    let '(r2, w2) := H5TS_user_cb_prepare X w1 in
    if r2 <? 0 then (FAIL, w2) else (SUCCEED, w2)
  else (SUCCEED, w1).

(** [H5_user_cb_restore] (lines 1276-1295). *)
Definition H5_user_cb_restore (w : World) : herr_t * World :=
  let '(r, w1) := H5E_user_cb_restore X w in
  if r <? 0 then (FAIL, w1)
  else if H5_HAVE_CONCURRENCY cfg then
    let '(r2, w2) := H5TS_user_cb_restore X w1 in
    if r2 <? 0 then (FAIL, w2) else (SUCCEED, w2)
  else (SUCCEED, w1).

(** Modelled from the spec: the macros [H5_BEFORE_USER_CB_NOCHECK] and
    [H5_AFTER_USER_CB_NOCHECK] of H5private.h, which is not part of the
    sources at hand.  They bracket the call of user code with
    [H5_user_cb_prepare] and [H5_user_cb_restore]; the NOCHECK pair drops
    both statuses. *)
Definition user_callback (node : H5_atclose_node_t Func Ctx) (w : World) : World :=
  drop H5_user_cb_restore
    (call_atclose X (func node) (ctx node) (drop H5_user_cb_prepare w)).

(** The walk [while (curr_atclose)] (lines 333-348): call, advance,
    free. *)
Fixpoint atclose_walk (curr_atclose : list (H5_atclose_node_t Func Ctx))
    (st : state) : state :=
  match curr_atclose with
  | [] => st
  | node :: next =>
      atclose_walk next (log_event (EvAtclose node) (call_ (user_callback node) st))
  end.

(** The [if (H5_atclose_head)] block (lines 328-352). *)
Definition run_atclose (st : state) : state :=
  match H5_atclose_head st with
  | [] => st
  | head => set_atclose_head [] (atclose_walk head st)
  end.

(** "Free open debugging streams" (lines 466-473). *)
Definition close_debug_streams (st : state) : state :=
  set_debug (set_open_stream [] (H5_debug_g st))
    (fold_left (fun st' f => call_ (fclose X f) st') (open_stream (H5_debug_g st)) st).

(** The locals when the [do ... while] is entered: [at] is 0, nothing
    has been printed into [loop]. *)
Definition initial_locals (w : World) : term_locals World :=
  {| pending := 0; at_ := 0; loop := EmptyString; tl_world := w; calls := [] |}.

Definition log_sweeps (done : list (Z * list (term_hook * Z))) (st : state) : state :=
  set_events (events st ++ map (fun r => EvSweep (fst r) (snd r)) done) st.

Definition H5_term_library : M state unit :=
  init <- gets (fun st : state => H5_libinit_g st) ;;
  if negb init then ret tt
  else
    modify (set_libterm true) ;;
    modify (call_ (H5CX_push X)) ;;
    func_set <- gets (fun st : state => H5E_get_default_auto_func X (world st)) ;;
    modify run_atclose ;;
    r <- gets (fun st : state => shutdown_loop 0 (initial_locals (world st)) []) ;;
    modify (set_world (tl_world (fst r))) ;;
    modify (log_sweeps (snd r)) ;;
    when_ (negb (pending (fst r) =? 0))
      (when_ func_set
         (modify (fputs_stderr infinite_loop_message) ;;
          modify (fputs_stderr ("      " ++ loop (fst r) ++ nl)) ;;
          if NDEBUG cfg then ret tt else abort)) ;;
    modify close_debug_streams ;;
    modify (set_libterm false) ;;
    modify (set_libinit false) ;;
    ret tt.

(* --------------------------------------------------------------- *)
(** *** [H5_init_library] (lines 137-288) *)

(** The block under [H5_HAVE_PARALLEL] (lines 157-183): [false] when an
    MPI call fails and control goes to [done] with [FAIL]. *)
Definition mpi_attach : M state bool :=
  w <- gets (fun st : state => world st) ;;
  if MPI_Initialized X w && negb (MPI_Finalized X w) then
    ok1 <- lift (call (MPI_Comm_create_keyval X)) ;;
    if negb ok1 then ret false
    else
      ok2 <- lift (call (MPI_Comm_set_attr X)) ;;
      if negb ok2 then ret false
      else lift (call (MPI_Comm_free_keyval X))
  else ret true.

(** [H5_debug_g] after the [memset] and the twenty assignments of names
    (lines 188-208). *)
Definition cleared_debug : H5_debug_t :=
  {| trace := None; ttop := false; ttimes := false;
     pkg := map (fun nm => {| name := nm; stream := None |}) H5_pkg_names;
     open_stream := [] |}.

(** The chain of [if (H5x_init() < 0) HGOTO_ERROR(...)] (lines 257-280):
    the first failure ends it with [FAIL]. *)
Fixpoint init_interfaces (hooks : list init_hook) : M state herr_t :=
  match hooks with
  | [] => ret SUCCEED
  | h :: rest =>
      r <- lift (call (H5_init X h)) ;;
      if r <? 0 then ret FAIL else init_interfaces rest
  end.

Definition interface_order : list init_hook :=
  [H5E_init; H5FD_init; H5VL_init_phase1; H5P_init_phase1; H5L_init; H5O_init;
   H5FS_init; H5S_init; H5T_init; H5P_init_phase2; H5VL_init_phase2].

Definition H5_init_library : M state herr_t :=
  st <- gets (fun st : state => st) ;;
  if H5_libinit_g st || H5_libterm_g st then ret SUCCEED
  else
    H5_check_version (H5_VERS_MAJOR cfg) (H5_VERS_MINOR cfg) (H5_VERS_RELEASE cfg) ;;
    modify (set_libinit true) ;;
    mpi_ok <- (if H5_HAVE_PARALLEL cfg then mpi_attach else ret true) ;;
    if negb mpi_ok then ret FAIL
    else
      modify (set_debug cleared_debug) ;;
      dont_atexit <- gets (fun st : state => H5_dont_atexit_g st) ;;
      when_ (negb dont_atexit)
        (when_ (H5_HAVE_THREADSAFE_API cfg) (modify (atexit atexit_H5TS_term_package)) ;;
         modify (atexit atexit_H5_term_library) ;;
         modify (set_dont_atexit true)) ;;
      r <- init_interfaces interface_order ;;
      if r <? 0 then ret FAIL
      else
        modify (H5__debug_mask (Some "-all")) ;;
        env <- gets (fun st : state => getenv X "HDF5_DEBUG" (world st)) ;;
        modify (H5__debug_mask env) ;;
        ret SUCCEED.

(** [H5__init_package] (lines 107-121). *)
Definition H5__init_package : M state herr_t :=
  st <- gets (fun st : state => st) ;;
  if negb (H5_libinit_g st) && negb (H5_libterm_g st) then
    r <- H5_init_library ;;
    if r <? 0 then ret FAIL else ret SUCCEED
  else ret SUCCEED.

(* --------------------------------------------------------------- *)
(** *** Public entry points *)

(** Modelled from the spec: the macro [FUNC_ENTER_API] of H5private.h,
    which is not part of the sources at hand.  "Any public entry point
    first asks the Lifecycle State Machine to ensure initialization": the
    test is the one [H5__init_package] makes, and a failed initialisation
    makes the entry point return its error value. *)
Definition FUNC_ENTER_API : M state herr_t := H5__init_package.

(** [H5open] (lines 998-1009): "all work is done by FUNC_ENTER()". *)
Definition H5open : M state herr_t :=
  r <- FUNC_ENTER_API ;;
  if r <? 0 then ret FAIL else ret SUCCEED.

(** [H5close] (lines 1058-1071); it does not initialise the library. *)
Definition H5close : M state herr_t :=
  H5_term_library ;;
  ret SUCCEED.

(** [H5dont_atexit] (lines 510-523); it does not initialise the library. *)
Definition H5dont_atexit : M state herr_t :=
  already <- gets (fun st : state => H5_dont_atexit_g st) ;;
  if already then ret FAIL
  else modify (set_dont_atexit true) ;; ret SUCCEED.

(** [H5atclose] (lines 1021-1047); a null [func] is [None]. *)
Definition H5atclose (f : option Func) (c : Ctx) : M state herr_t :=
  r <- FUNC_ENTER_API ;;
  if r <? 0 then ret FAIL
  else
    match f with
    | None => ret FAIL
    | Some fn =>
        allocated <- lift (call (H5FL_MALLOC X)) ;;
        if negb allocated then ret FAIL
        else
          modify (fun st : state =>
                    set_atclose_head ({| func := fn; ctx := c |} :: H5_atclose_head st) st) ;;
          ret SUCCEED
    end.

(** [H5garbage_collect] (lines 542-555). *)
Definition H5garbage_collect : M state herr_t :=
  r <- FUNC_ENTER_API ;;
  if r <? 0 then ret FAIL
  else
    g <- lift (call (H5FL_garbage_coll X)) ;;
    if g <? 0 then ret FAIL else ret SUCCEED.

(** [H5is_library_terminating] (lines 1220-1235), called with a non-null
    pointer: the value stored through it. *)
Definition H5is_library_terminating : M state (herr_t * bool) :=
  t <- gets (fun st : state => H5_libterm_g st) ;;
  ret (SUCCEED, t).

(* --------------------------------------------------------------- *)
(** *** Sequences of calls made by an application *)

Inductive api_call : Type :=
| Call_H5open
| Call_H5close
| Call_H5dont_atexit
| Call_H5atclose (f : option Func) (c : Ctx)
| Call_H5check_version (majnum minnum relnum : Z)
| Call_H5garbage_collect.

Definition run_call (c : api_call) : M state herr_t :=
  match c with
  | Call_H5open => H5open
  | Call_H5close => H5close
  | Call_H5dont_atexit => H5dont_atexit
  | Call_H5atclose f c => H5atclose f c
  | Call_H5check_version a b r => H5check_version a b r
  | Call_H5garbage_collect => H5garbage_collect
  end.

(** The calls one after the other, whatever they return; the values
    returned, in order. *)
Fixpoint run_calls (cs : list api_call) : M state (list herr_t) :=
  match cs with
  | [] => ret []
  | c :: rest =>
      r <- run_call c ;;
      rs <- run_calls rest ;;
      ret (r :: rs)
  end.

(** [H5atclose] applied to each callback in turn, stopping at the first
    registration that does not return [SUCCEED >= 0]: [Some] of the state
    reached when every registration succeeded. *)
Fixpoint register_all (cbs : list (Func * Ctx)) (st : state) : option state :=
  match cbs with
  | [] => Some st
  | (f, c) :: rest =>
      match H5atclose (Some f) c st with
      | Returned r st' => if 0 <=? r then register_all rest st' else None
      | Aborted _ => None
      end
  end.

(** [n] calls of [H5_init_library] in a row from [st]: the last outcome. *)
Fixpoint init_times (n : nat) (st : state) : outcome state herr_t :=
  match n with
  | O => Returned SUCCEED st
  | S O => H5_init_library st
  | S n' =>
      match H5_init_library st with
      | Returned _ st' => init_times n' st'
      | Aborted st' => Aborted st'
      end
  end.

(* --------------------------------------------------------------- *)
(** *** The sweep as a list of guarded blocks

    Every [if (pending == 0)] of the sweep guards a run of [DOWN]s.  The
    nested guards of the last block can be read as a sequence, since a
    guard that fails leaves [pending] as it is and the guards after it
    fail too ([sweep_as_blocks] below). *)

Definition run_hooks (Fs : list term_hook) (l : term_locals World) : term_locals World :=
  fold_left (fun l' F => pending_plus_DOWN F l') Fs l.

Definition guarded_block (Fs : list term_hook) (l : term_locals World) : term_locals World :=
  if_pending_zero (run_hooks Fs) l.

Definition run_blocks (bs : list (list term_hook)) (l : term_locals World) : term_locals World :=
  fold_left (fun l' Fs => guarded_block Fs l') bs l.

(** Every [term_package] routine reports a value between 0 and
    [max_reported]. *)
Definition hooks_bounded : Prop :=
  forall F w, 0 <= fst (H5_term_package X F w) <= max_reported.


(** How far the calls of a sweep got through the blocks [pre]: all of
    them were made and reported 0, or the calls stopped after the block
    of index [k], the first to report work. *)
Definition block_inv (pre : list (list term_hook)) (l : term_locals World) : Prop :=
  (pending l = 0 /\ map fst (calls l) = List.concat pre /\
   Forall (fun c => snd c = 0) (calls l))
  \/
  (pending l <> 0 /\
   exists k zeros last,
     (k < List.length pre)%nat /\ calls l = (zeros ++ last)%list /\
     map fst zeros = List.concat (firstn k pre) /\
     Forall (fun c => snd c = 0) zeros /\
     map fst last = nth k pre []).


(** What [H5_term_library] does at [st] once past its first test, up to
    the end of the shutdown loop: the state after the callbacks, and the
    locals and the sweeps the loop ends with. *)
Definition before_sweeps (st : state) : state :=
  run_atclose (call_ (H5CX_push X) (set_libterm true st)).

Definition term_loop_result (st : state)
    : term_locals World * list (Z * list (term_hook * Z)) :=
  shutdown_loop 0 (initial_locals (world (before_sweeps st))) [].

(** Is [func] non-null when [H5_term_library] runs at [st]? *)
Definition diagnostics_enabled (st : state) : bool :=
  H5E_get_default_auto_func X (world (call_ (H5CX_push X) (set_libterm true st))).

(** The level [switch (disable_version_check)] sees when the check runs
    at [st]: the number read from the environment if there is one, else
    what the static holds. *)
Definition override_level (st : state) : Z :=
  let s := getenv X "HDF5_DISABLE_VERSION_CHECK" (world st) in
  if starts_with_digit s then
    to_uint (fst (strtol (LONG_MAX cfg)
                    (match s with Some str => str | None => EmptyString end)))
  else disable_version_check st.

(** What is left to do once the shutdown loop has ended (lines
    465-479). *)
Definition finish_term (st : state) : state :=
  set_libinit false (set_libterm false (close_debug_streams st)).

(** The state when the shutdown loop has ended. *)
Definition after_sweeps (st : state) : state :=
  log_sweeps (snd (term_loop_result st))
    (set_world (tl_world (fst (term_loop_result st))) (before_sweeps st)).

(** The state once the two lines of lines 457-458 are printed. *)
Definition reported_failure (st : state) : state :=
  fputs_stderr ("      " ++ loop (fst (term_loop_result st)) ++ nl)
    (fputs_stderr infinite_loop_message (after_sweeps st)).

(* --------------------------------------------------------------- *)
(** *** Relating the state before and after a call *)

(** Every call of [m] ends, returning or aborting, in a state related by
    [R] to the one it started in. *)
Definition respects (R : state -> state -> Prop) {A : Type} (m : M state A) : Prop :=
  forall s, R s (final_state (m s)).

(** The same, and [m] always returns. *)
Definition returns (R : state -> state -> Prop) {A : Type} (m : M state A) : Prop :=
  forall s, exists a s', m s = Returned a s' /\ R s s'.

(** The part of the state that only [H5_init_library], [H5_term_library]
    and [H5atclose] write, unchanged; the opt-out flag, once set, still
    set. *)
Definition steady (s s' : state) : Prop :=
  H5_libinit_g s' = H5_libinit_g s /\
  H5_libterm_g s' = H5_libterm_g s /\
  H5_atclose_head s' = H5_atclose_head s /\
  events s' = events s /\
  (H5_dont_atexit_g s = true -> H5_dont_atexit_g s' = true).

(** [H5_dont_atexit_g] is never reset. *)
Definition keeps_dont_atexit (s s' : state) : Prop :=
  H5_dont_atexit_g s = true -> H5_dont_atexit_g s' = true.

(** Lines 157-288 of [H5_init_library]: what follows
    [H5_INIT_GLOBAL = true]. *)
Definition init_after_flag : M state herr_t :=
  mpi_ok <- (if H5_HAVE_PARALLEL cfg then mpi_attach else ret true) ;;
  if negb mpi_ok then ret FAIL
  else
    modify (set_debug cleared_debug) ;;
    dont_atexit <- gets (fun st : state => H5_dont_atexit_g st) ;;
    when_ (negb dont_atexit)
      (when_ (H5_HAVE_THREADSAFE_API cfg) (modify (atexit atexit_H5TS_term_package)) ;;
       modify (atexit atexit_H5_term_library) ;;
       modify (set_dont_atexit true)) ;;
    r <- init_interfaces interface_order ;;
    if r <? 0 then ret FAIL
    else
      modify (H5__debug_mask (Some "-all")) ;;
      env <- gets (fun st : state => getenv X "HDF5_DEBUG" (world st)) ;;
      modify (H5__debug_mask env) ;;
      ret SUCCEED.

(** Lines 257-286: from the first interface on. *)
Definition init_after_atexit : M state herr_t :=
  r <- init_interfaces interface_order ;;
  if r <? 0 then ret FAIL
  else
    modify (H5__debug_mask (Some "-all")) ;;
    env <- gets (fun st : state => getenv X "HDF5_DEBUG" (world st)) ;;
    modify (H5__debug_mask env) ;;
    ret SUCCEED.

(** Lines 216-231: the [atexit] block. *)
Definition register_atexit_hooks (st : state) : state :=
  if H5_dont_atexit_g st then st
  else
    set_dont_atexit true
      (atexit atexit_H5_term_library
         (if H5_HAVE_THREADSAFE_API cfg then atexit atexit_H5TS_term_package st else st)).

(** The state of [H5_check_version] once the environment is read (lines
    850-858). *)
Definition after_getenv (st : state) : state :=
  if starts_with_digit (getenv X "HDF5_DISABLE_VERSION_CHECK" (world st))
  then set_disable_version_check (override_level st) st
  else st.

(** [s'] differs from [s] at most by text added to [stderr]; the
    override level is the same. *)
Definition appends (s s' : state) : Prop :=
  disable_version_check s' = disable_version_check s /\
  exists more, stderr_out s' = (stderr_out s ++ more)%list.

(* --------------------------------------------------------------- *)
(** *** More functions of H5.c *)

(** [H5get_libversion] (lines 780-797).  An argument says whether the
    pointer is non-null; what the call stores through a non-null pointer
    is [Some] of the value, and nothing is stored when the entry fails. *)
Definition H5get_libversion (majnum minnum relnum : bool)
    : M state (herr_t * (option Z * option Z * option Z)) :=
  r <- FUNC_ENTER_API ;;
  if r <? 0 then ret (FAIL, (None, None, None))
  else
    ret (SUCCEED,
         (if majnum then Some (H5_VERS_MAJOR cfg) else None,
          if minnum then Some (H5_VERS_MINOR cfg) else None,
          if relnum then Some (H5_VERS_RELEASE cfg) else None)).

(** [H5__mpi_delete_cb] (lines 755-761), the attribute callback of
    parallel builds: the value returned is [MPI_SUCCESS]. *)
Definition MPI_SUCCESS : Z := 0.

Definition H5__mpi_delete_cb : M state Z :=
  H5_term_library ;;
  ret MPI_SUCCESS.

(* --------------------------------------------------------------- *)
(** *** What a call leaves alone, field by field *)

(** The observation [p] of the state does not depend on what [set]
    writes. *)
Definition ignores {A B : Type} (set : B -> state -> state) (p : state -> A) : Prop :=
  forall v st, p (set v st) = p st.

(** [p] is the same in [s'] as in [s]. *)
Definition same {A : Type} (p : state -> A) (s s' : state) : Prop := p s' = p s.

(** The routines [H5_init_library] passes to [atexit] when the
    application has not opted out, in the order of the calls (lines
    216-231). *)
Definition exit_routines : list atexit_func :=
  ((if H5_HAVE_THREADSAFE_API cfg then [atexit_H5TS_term_package] else [])
     ++ [atexit_H5_term_library])%list.

(** How the opt-out flag and the list of exit routines can differ between
    two states: not at all; or the flag went from false to true, the
    routines being registered meanwhile or not. *)
Definition exit_step (s s' : state) : Prop :=
  (H5_dont_atexit_g s' = H5_dont_atexit_g s /\ atexit_list s' = atexit_list s)
  \/
  (H5_dont_atexit_g s = false /\ H5_dont_atexit_g s' = true /\
   (atexit_list s' = atexit_list s \/
    atexit_list s' = (atexit_list s ++ exit_routines)%list)).

(** While the flag is false no exit routine is registered, and no routine
    is registered twice. *)
Definition exit_inv (s : state) : Prop :=
  (H5_dont_atexit_g s = false -> atexit_list s = []) /\ NoDup (atexit_list s).

(** Between calls: no termination is in progress, and while the library
    is not initialised the registry of callbacks is empty and no debug
    stream is open. *)
Definition lifecycle_inv (s : state) : Prop :=
  H5_libterm_g s = false /\
  (H5_libinit_g s = false ->
   H5_atclose_head s = [] /\ open_stream (H5_debug_g s) = []).

(** No character of [s] is a decimal digit. *)
Fixpoint no_digit (s : string) : bool :=
  match s with
  | EmptyString => true
  | String c s' => negb (isdigit c) && no_digit s'
  end.

(** Every character of [s] is a letter. *)
Fixpoint all_alpha (s : string) : bool :=
  match s with
  | EmptyString => true
  | String c s' => isalpha c && all_alpha s'
  end.

(** The sum of the values the calls of a sweep reported. *)
Definition total_reported (cs : list (term_hook * Z)) : Z :=
  fold_right Z.add 0 (map snd cs).

(** The opt-out flag with the exit routines registered so far. *)
Definition exit_view (s : state) : bool * list atexit_func :=
  (H5_dont_atexit_g s, atexit_list s).

(** The three MPI calls of lines 157-183 made from the world [w]: does
    one of them fail? *)
Definition mpi_call_fails (w : World) : bool :=
  let '(ok1, w1) := MPI_Comm_create_keyval X w in
  if negb ok1 then true
  else
    let '(ok2, w2) := MPI_Comm_set_attr X w1 in
    if negb ok2 then true
    else negb (fst (MPI_Comm_free_keyval X w2)).

(** The [term_package] routines in the order a sweep calls them when
    every one reports 0 (lines 366-451). *)
Definition teardown_order : list term_hook :=
  [H5ES; H5L; H5A_top; H5D_top; H5G_top; H5M_top; H5S_top; H5T_top; H5F; H5P;
   H5A; H5D; H5G; H5M; H5S; H5T; H5AC; H5Z; H5FD; H5VL; H5PL; H5E; H5I; H5SL;
   H5FL; H5CX].

(** [at] is the length of the text in [loop], and is at most 1021: the
    text with its terminating NUL fits the 1024 bytes of the array. *)
Definition loop_in_bounds (l : term_locals World) : Prop :=
  at_ l = Z.of_nat (String.length (loop l)) /\ at_ l <= 1021.

(** [pending] is the sum of what the calls made so far reported, and the
    additions have not overflowed. *)
Definition sum_inv (l : term_locals World) : Prop :=
  pending l = total_reported (calls l) /\
  0 <= pending l <= Z.of_nat (List.length (calls l)) * max_reported.

(** A stream left as it was, cleared, or set to [cur]. *)
Definition stream_from (cur old new : option FILE) : Prop :=
  new = old \/ new = None \/ new = cur.

(** The debug configuration [d'] differs from [d] at most by streams set
    to null or to [cur], and by the flags [ttop] and [ttimes]: no stream
    was opened, no package added, removed or renamed. *)
Definition reassigned (cur : option FILE) (d d' : H5_debug_t) : Prop :=
  open_stream d' = open_stream d /\
  stream_from cur (trace d) (trace d') /\
  Forall2 (fun p q => name q = name p /\ stream_from cur (stream p) (stream q))
    (pkg d) (pkg d').

(** The same of two states, the world of the externals being untouched
    and the life cycle as it was. *)
Definition mask_step (cur : option FILE) (st st' : state) : Prop :=
  world st' = world st /\ reassigned cur (H5_debug_g st) (H5_debug_g st').

(** Does the public function enter the library through [FUNC_ENTER_API],
    which initialises it, rather than through [FUNC_ENTER_API_NOINIT]? *)
Definition initialises (c : api_call) : bool :=
  match c with
  | Call_H5open | Call_H5atclose _ _ | Call_H5garbage_collect => true
  | Call_H5close | Call_H5dont_atexit | Call_H5check_version _ _ _ => false
  end.

(** Every stream the debug configuration [d] sends output to, other than
    [stderr], is on the list of opened streams, which [H5_term_library]
    closes. *)
Definition streams_tracked (d : H5_debug_t) : Prop :=
  (forall f, trace d = Some f -> f = stderr \/ In f (open_stream d)) /\
  (forall p f, In p (pkg d) -> stream p = Some f -> f = stderr \/ In f (open_stream d)).

(** The same of the stream the loop of [H5__debug_mask] currently assigns. *)
Definition current_tracked (cur : option FILE) (d : H5_debug_t) : Prop :=
  forall f, cur = Some f -> f = stderr \/ In f (open_stream d).

(** The callbacks [cbs] invoked one after the other from the world [w],
    first to last, each inside the bracket of [user_callback]. *)
Definition invoke_callbacks (cbs : list (Func * Ctx)) (w : World) : World :=
  fold_left (fun w' cb => user_callback {| func := fst cb; ctx := snd cb |} w') cbs w.

(* =============================================================== *)
(** ** Properties *)

(* --------------------------------------------------------------- *)
(** *** Termination, step by step *)

Lemma H5_term_library_run (s : state) :
  H5_libinit_g s = true ->
  H5_term_library s =
    if negb (pending (fst (term_loop_result s)) =? 0) && diagnostics_enabled s then
      if NDEBUG cfg then Returned tt (finish_term (reported_failure s))
      else Aborted (reported_failure s)
    else Returned tt (finish_term (after_sweeps s)).
Proof.
  intros Hinit.
  unfold H5_term_library, bind, gets, modify, when_, ret, abort.
  rewrite Hinit. cbn [negb].
  unfold reported_failure, after_sweeps, finish_term, term_loop_result,
    diagnostics_enabled, before_sweeps.
  destruct (pending _ =? 0); cbn [negb andb].
  - reflexivity.
  - destruct (H5E_get_default_auto_func X _); [|reflexivity].
    destruct (NDEBUG cfg); reflexivity.
Qed.

Lemma H5_term_library_skip (s : state) :
  H5_libinit_g s = false ->
  H5_term_library s = Returned tt s.
Proof.
  intros Hinit. unfold H5_term_library, bind, gets. rewrite Hinit. reflexivity.
Qed.

(** C5.  Calling the termination routine when the library is not
    initialised does nothing: the call returns with the state exactly as
    it was -- the flags, the atclose registry, the debug configuration,
    the world of the packages and the record of callbacks and
    [term_package] calls are all unchanged, so no callback and no
    [term_package] routine ran. *)
Theorem term_library_uninitialized_noop (s : state) :
  H5_libinit_g s = false ->
  H5_term_library s = Returned tt s /\
  events (final_state (H5_term_library s)) = events s.
Proof.
  intros Hinit. rewrite (H5_term_library_skip s Hinit). split; reflexivity.
Qed.

Lemma H5close_run (s : state) :
  H5close s =
    match H5_term_library s with
    | Returned _ s' => Returned SUCCEED s'
    | Aborted s' => Aborted s'
    end.
Proof. unfold H5close, bind, ret. destruct (H5_term_library s); reflexivity. Qed.

(* --------------------------------------------------------------- *)
(** *** The monad and the relations *)

Section Frames.
Variable R : state -> state -> Prop.
Hypothesis R_refl : forall s, R s s.
Hypothesis R_trans : forall a b c, R a b -> R b c -> R a c.

Lemma returns_ret {A : Type} (a : A) : returns R (ret a).
Proof. intros s. exists a, s. split; [reflexivity | apply R_refl]. Qed.

Lemma returns_gets {A : Type} (f : state -> A) : returns R (gets f).
Proof. intros s. exists (f s), s. split; [reflexivity | apply R_refl]. Qed.

Lemma returns_modify (f : state -> state) :
  (forall s, R s (f s)) -> returns R (modify f).
Proof. intros Hf s. exists tt, (f s). split; [reflexivity | apply Hf]. Qed.

Lemma returns_lift {A : Type} (f : state -> A * state) :
  (forall s, R s (snd (f s))) -> returns R (lift f).
Proof.
  intros Hf s. unfold lift. specialize (Hf s).
  destruct (f s) as [a s']. exists a, s'. split; [reflexivity | exact Hf].
Qed.

Lemma returns_bind {A B : Type} (m : M state A) (k : A -> M state B) :
  returns R m -> (forall a, returns R (k a)) -> returns R (bind m k).
Proof.
  intros Hm Hk s. unfold bind.
  destruct (Hm s) as [a [s1 [-> H1]]].
  destruct (Hk a s1) as [b [s2 [-> H2]]].
  exists b, s2. split; [reflexivity | exact (R_trans H1 H2)].
Qed.

Lemma returns_when (b : bool) (m : M state unit) :
  returns R m -> returns R (when_ b m).
Proof. intros Hm. destruct b; [exact Hm | apply returns_ret]. Qed.

Lemma returns_respects {A : Type} (m : M state A) : returns R m -> respects R m.
Proof. intros Hm s. destruct (Hm s) as [a [s' [-> H]]]. exact H. Qed.

Lemma respects_abort {A : Type} : respects R (@abort state A).
Proof. intros s. apply R_refl. Qed.

Lemma respects_bind {A B : Type} (m : M state A) (k : A -> M state B) :
  respects R m -> (forall a, respects R (k a)) -> respects R (bind m k).
Proof.
  intros Hm Hk s. unfold bind. specialize (Hm s).
  destruct (m s) as [a s1|s1]; cbn [final_state] in *.
  - exact (R_trans Hm (Hk a s1)).
  - exact Hm.
Qed.

Lemma respects_when (b : bool) (m : M state unit) :
  respects R m -> respects R (when_ b m).
Proof. intros Hm. destruct b; [exact Hm | apply returns_respects, returns_ret]. Qed.
End Frames.

Lemma steady_refl (s : state) : steady s s.
Proof. unfold steady. intuition. Qed.

Lemma steady_trans (a b c : state) : steady a b -> steady b c -> steady a c.
Proof. unfold steady. intuition congruence. Qed.

Lemma keeps_refl (s : state) : keeps_dont_atexit s s.
Proof. unfold keeps_dont_atexit. intuition. Qed.

Lemma keeps_trans (a b c : state) :
  keeps_dont_atexit a b -> keeps_dont_atexit b c -> keeps_dont_atexit a c.
Proof. unfold keeps_dont_atexit. intuition. Qed.

Lemma steady_keeps (s s' : state) : steady s s' -> keeps_dont_atexit s s'.
Proof. unfold steady, keeps_dont_atexit. intuition. Qed.

(* --------------------------------------------------------------- *)
(** *** What initialisation leaves alone *)

Ltac steady_step :=
  unfold steady; cbn; intuition congruence.

Lemma debug_word_steady (clear : bool) (nm : string) (cur : option FILE) (st : state) :
  steady st (debug_word clear nm cur st).
Proof.
  unfold debug_word.
  repeat match goal with |- context [if ?b then _ else _] => destruct b end;
    try destruct (set_named_stream _ _ _); steady_step.
Qed.

Lemma call_steady {A : Type} (f : World -> A * World) (st : state) :
  steady st (snd (call f st)).
Proof. unfold call. destruct (f (world st)). steady_step. Qed.

Lemma call__steady (f : World -> World) (st : state) : steady st (call_ f st).
Proof. steady_step. Qed.

Lemma debug_mask_loop_steady (s : string) (cur : option FILE) (st : state) :
  steady st (debug_mask_loop s cur st).
Proof.
  funelim (debug_mask_loop s cur st).
  - apply steady_refl.
  - eapply steady_trans; [apply debug_word_steady | eassumption].
  - match goal with
    | |- context [call (HDfdopen X ?fd) ?st0] =>
        pose proof (call_steady (HDfdopen X fd) st0) as Hopen;
        destruct (call (HDfdopen X fd) st0) as [o st1]
    end.
    cbn [snd] in Hopen. destruct o as [f|].
    + pose proof (call_steady (H5MM_malloc X) (call_ (HDsetvbuf X f) st1)) as Halloc.
      pose proof (call__steady (HDsetvbuf X f) st1) as Hbuf.
      destruct (call (H5MM_malloc X) (call_ (HDsetvbuf X f) st1)) as [b st2].
      cbn [snd] in Halloc.
      assert (Hst2 : steady st st2)
        by (eapply steady_trans; [exact Hopen|];
            eapply steady_trans; [exact Hbuf | exact Halloc]).
      destruct b.
      * eapply steady_trans; [exact Hst2|].
        eapply steady_trans; [|match goal with IH : _ |- _ => apply (IH None st f true st2) end].
        steady_step.
      * eapply steady_trans; [exact Hst2 | apply call__steady].
    + eapply steady_trans;
        [exact Hopen | match goal with IH : _ |- _ => apply (IH None st1) end].
  - assumption.
Qed.

Lemma H5__debug_mask_steady (s : option string) (st : state) :
  steady st (H5__debug_mask s st).
Proof.
  destruct s as [str|]; [apply debug_mask_loop_steady | apply steady_refl].
Qed.

Lemma returns_lift_call {A : Type} (f : World -> A * World) :
  returns steady (lift (call f)).
Proof. apply returns_lift. intros s. apply call_steady. Qed.

Lemma init_interfaces_steady (hooks : list init_hook) :
  returns steady (init_interfaces hooks).
Proof.
  induction hooks as [|h rest IH]; cbn [init_interfaces].
  - apply returns_ret; apply steady_refl.
  - apply (returns_bind steady_trans); [apply returns_lift_call|].
    intros r. destruct (r <? 0); [apply returns_ret; apply steady_refl | exact IH].
Qed.

Lemma mpi_attach_steady : returns steady mpi_attach.
Proof.
  unfold mpi_attach.
  apply (returns_bind steady_trans); [apply returns_gets; apply steady_refl|].
  intros w. destruct (MPI_Initialized X w && negb (MPI_Finalized X w)).
  - apply (returns_bind steady_trans); [apply returns_lift_call|].
    intros ok1. destruct ok1; cbn [negb]; [|apply returns_ret; apply steady_refl].
    apply (returns_bind steady_trans); [apply returns_lift_call|].
    intros ok2. destruct ok2; cbn [negb]; [|apply returns_ret; apply steady_refl].
    apply returns_lift_call.
  - apply returns_ret; apply steady_refl.
Qed.

Lemma init_after_atexit_steady : returns steady init_after_atexit.
Proof.
  unfold init_after_atexit.
  apply (returns_bind steady_trans); [apply init_interfaces_steady|].
  intros r. destruct (r <? 0); [apply returns_ret; apply steady_refl|].
  apply (returns_bind steady_trans);
    [apply returns_modify; intros s; apply H5__debug_mask_steady|].
  intros _.
  apply (returns_bind steady_trans); [apply returns_gets; apply steady_refl|].
  intros env.
  apply (returns_bind steady_trans);
    [apply returns_modify; intros s; apply H5__debug_mask_steady|].
  intros _. apply returns_ret; apply steady_refl.
Qed.

Lemma fputs_stderr_steady (text : string) (st : state) : steady st (fputs_stderr text st).
Proof. steady_step. Qed.

Lemma version_mismatch_switch_steady (a b c : Z) :
  respects steady (version_mismatch_switch a b c).
Proof.
  unfold version_mismatch_switch.
  apply (respects_bind steady_trans);
    [apply returns_respects, returns_gets, steady_refl|].
  intros level. destruct (level =? 0); [|destruct (level =? 1)].
  - repeat (apply (respects_bind steady_trans);
              [apply returns_respects, returns_modify, fputs_stderr_steady | intros _]).
    apply respects_abort, steady_refl.
  - repeat (apply (respects_bind steady_trans);
              [apply returns_respects, returns_modify, fputs_stderr_steady | intros _]).
    apply returns_respects, returns_modify, fputs_stderr_steady.
  - apply returns_respects, returns_ret, steady_refl.
Qed.

Lemma release_mismatch_switch_steady (a b c : Z) :
  respects steady (release_mismatch_switch a b c).
Proof.
  unfold release_mismatch_switch.
  apply (respects_bind steady_trans);
    [apply returns_respects, returns_gets, steady_refl|].
  intros level. destruct (level =? 0); [|destruct (level =? 1)].
  - repeat (apply (respects_bind steady_trans);
              [apply returns_respects, returns_modify, fputs_stderr_steady | intros _]).
    apply respects_abort, steady_refl.
  - repeat (apply (respects_bind steady_trans);
              [apply returns_respects, returns_modify, fputs_stderr_steady | intros _]).
    apply returns_respects, returns_modify, fputs_stderr_steady.
  - apply returns_respects, returns_ret, steady_refl.
Qed.

Lemma release_exceptions_loop_steady (ex : list Z) (a b c : Z) :
  respects steady (release_exceptions_loop ex a b c).
Proof.
  induction ex as [|e rest IH]; cbn [release_exceptions_loop].
  - apply returns_respects, returns_ret, steady_refl.
  - apply (respects_bind steady_trans); [|intros _; exact IH].
    apply (respects_when steady_refl), release_mismatch_switch_steady.
Qed.

(** The end of [H5_check_version], from [checked = true] on. *)
Lemma check_version_end_steady :
  returns steady
    (modify (set_checked true) ;;
     level <- gets (fun st : state => disable_version_check st) ;;
     when_ (level =? 0)
       (when_ (negb (lib_str =? H5_VERS_INFO cfg)%string)
          (modify (fputs_stderr version_info_warning) ;;
           modify (fputs_stderr version_info_details))) ;;
     ret SUCCEED).
Proof.
  apply (returns_bind steady_trans); [apply returns_modify; intros s; steady_step|].
  intros _. apply (returns_bind steady_trans); [apply returns_gets, steady_refl|].
  intros level. apply (returns_bind steady_trans); [|intros _; apply returns_ret, steady_refl].
  apply (returns_when steady_refl), (returns_when steady_refl).
  apply (returns_bind steady_trans); [|intros _];
    apply returns_modify, fputs_stderr_steady.
Qed.

Lemma read_level_steady (s : option string) :
  returns steady
    (when_ (starts_with_digit s)
       (modify (set_disable_version_check
          (to_uint (fst (strtol (LONG_MAX cfg)
                           (match s with Some str => str | None => EmptyString end))))))).
Proof. apply (returns_when steady_refl), returns_modify. intros st. steady_step. Qed.

Lemma H5_check_version_steady (a b c : Z) : respects steady (H5_check_version a b c).
Proof.
  unfold H5_check_version.
  apply (respects_bind steady_trans);
    [apply returns_respects, returns_gets, steady_refl|].
  intros already. destruct already; [apply returns_respects, returns_ret, steady_refl|].
  apply (respects_bind steady_trans);
    [apply returns_respects, returns_gets, steady_refl|].
  intros s.
  apply (respects_bind steady_trans);
    [apply returns_respects, read_level_steady | intros _].
  apply (respects_bind steady_trans);
    [apply (respects_when steady_refl), version_mismatch_switch_steady | intros _].
  apply (respects_bind steady_trans);
    [apply (respects_when steady_refl), release_exceptions_loop_steady | intros _].
  apply returns_respects, check_version_end_steady.
Qed.

(** With the library's own numbers nothing mismatches and the check
    returns. *)
Lemma H5_check_version_own :
  returns steady
    (H5_check_version (H5_VERS_MAJOR cfg) (H5_VERS_MINOR cfg) (H5_VERS_RELEASE cfg)).
Proof.
  unfold H5_check_version.
  apply (returns_bind steady_trans); [apply returns_gets, steady_refl|].
  intros already. destruct already; [apply returns_ret, steady_refl|].
  apply (returns_bind steady_trans); [apply returns_gets, steady_refl|].
  intros s.
  apply (returns_bind steady_trans); [apply read_level_steady | intros _].
  rewrite !Z.eqb_refl. cbn [negb orb when_].
  apply (returns_bind steady_trans); [apply returns_ret, steady_refl | intros _].
  apply (returns_bind steady_trans); [apply returns_ret, steady_refl | intros _].
  apply check_version_end_steady.
Qed.

Lemma init_after_flag_run (s : state) :
  init_after_flag s =
    match (if H5_HAVE_PARALLEL cfg then mpi_attach else ret true) s with
    | Returned ok s1 =>
        if ok then init_after_atexit (register_atexit_hooks (set_debug cleared_debug s1))
        else Returned FAIL s1
    | Aborted s1 => Aborted s1
    end.
Proof.
  unfold init_after_flag, init_after_atexit, register_atexit_hooks.
  unfold bind at 1.
  destruct ((if H5_HAVE_PARALLEL cfg then mpi_attach else ret true) s) as [ok s1|s1];
    [|reflexivity].
  destruct ok; cbn [negb]; [|reflexivity].
  unfold bind at 1. unfold modify at 1. unfold bind at 1. unfold gets at 1.
  cbn [H5_dont_atexit_g set_debug].
  destruct (H5_dont_atexit_g s1); cbn [negb when_].
  - reflexivity.
  - destruct (H5_HAVE_THREADSAFE_API cfg); reflexivity.
Qed.

Lemma register_atexit_hooks_steady (st : state) : steady st (register_atexit_hooks st).
Proof.
  unfold register_atexit_hooks.
  destruct (H5_dont_atexit_g st) eqn:E; [apply steady_refl|].
  destruct (H5_HAVE_THREADSAFE_API cfg); steady_step.
Qed.

Lemma register_atexit_hooks_sets (st : state) :
  H5_dont_atexit_g (register_atexit_hooks st) = true.
Proof.
  unfold register_atexit_hooks.
  destruct (H5_dont_atexit_g st) eqn:E; [exact E | reflexivity].
Qed.

Lemma init_after_flag_spec (s : state) :
  exists r s', init_after_flag s = Returned r s' /\ steady s s' /\
               (0 <= r -> H5_dont_atexit_g s' = true).
Proof.
  rewrite init_after_flag_run.
  assert (Hmpi : returns steady (if H5_HAVE_PARALLEL cfg then mpi_attach else ret true)).
  { destruct (H5_HAVE_PARALLEL cfg); [apply mpi_attach_steady | apply returns_ret, steady_refl]. }
  destruct (Hmpi s) as [ok [s1 [-> H1]]].
  destruct ok.
  - destruct (init_after_atexit_steady
                (register_atexit_hooks (set_debug cleared_debug s1)))
      as [r [s2 [-> H2]]].
    exists r, s2. split; [reflexivity|]. split.
    + eapply steady_trans; [exact H1|].
      eapply steady_trans; [|exact H2].
      eapply steady_trans; [|apply register_atexit_hooks_steady]. steady_step.
    + intros _. destruct H2 as (_ & _ & _ & _ & Hflag).
      apply Hflag, register_atexit_hooks_sets.
  - exists FAIL, s1. split; [reflexivity|]. split; [exact H1|].
    unfold FAIL. lia.
Qed.

Lemma H5_init_library_noop (s : state) :
  H5_libinit_g s || H5_libterm_g s = true ->
  H5_init_library s = Returned SUCCEED s.
Proof.
  intros Hg. unfold H5_init_library, bind, gets. rewrite Hg. reflexivity.
Qed.

(** A call of [H5_init_library] that finds the library neither
    initialised nor terminating returns, with the library marked
    initialised; a successful one leaves the opt-out flag set. *)
Lemma H5_init_library_runs (s : state) :
  H5_libinit_g s || H5_libterm_g s = false ->
  exists r s', H5_init_library s = Returned r s' /\
    H5_libinit_g s' = true /\
    H5_libterm_g s' = H5_libterm_g s /\
    H5_atclose_head s' = H5_atclose_head s /\
    events s' = events s /\
    keeps_dont_atexit s s' /\
    (0 <= r -> H5_dont_atexit_g s' = true).
Proof.
  intros Hg.
  assert (Hrun : H5_init_library s =
            (H5_check_version (H5_VERS_MAJOR cfg) (H5_VERS_MINOR cfg) (H5_VERS_RELEASE cfg) ;;
             modify (set_libinit true) ;; init_after_flag) s).
  { unfold H5_init_library. unfold bind at 1. unfold gets at 1. rewrite Hg. reflexivity. }
  rewrite Hrun. unfold bind at 1.
  destruct (H5_check_version_own s) as [r0 [s1 [-> H1]]].
  unfold bind, modify.
  destruct (init_after_flag_spec (set_libinit true s1)) as [r [s2 [-> [H2 Hflag]]]].
  exists r, s2. split; [reflexivity|].
  unfold steady in H1, H2. cbn in H2. unfold keeps_dont_atexit.
  intuition congruence.
Qed.

Lemma init_times_noop (n : nat) (s : state) :
  H5_libinit_g s || H5_libterm_g s = true ->
  init_times (S n) s = Returned SUCCEED s.
Proof.
  intros Hg. induction n as [|n IH].
  - apply H5_init_library_noop, Hg.
  - change (init_times (S (S n)) s)
      with (match H5_init_library s with
            | Returned _ st' => init_times (S n) st'
            | Aborted st' => Aborted st'
            end).
    rewrite (H5_init_library_noop s Hg). exact IH.
Qed.

(** C4.  A call of [H5_init_library] that finds the library initialised,
    or in the course of termination, returns [SUCCEED] and changes
    nothing.  Consequently, two or more calls in a row end in the very
    state the first call ends in: the first call returns (it never
    aborts), and every later one returns [SUCCEED] without effect. *)
Theorem init_library_idempotent (s : state) (n : nat) :
  (H5_libinit_g s || H5_libterm_g s = true ->
   H5_init_library s = Returned SUCCEED s) /\
  (exists r s', H5_init_library s = Returned r s' /\
                init_times (S (S n)) s = Returned SUCCEED s').
Proof.
  split; [apply H5_init_library_noop|].
  change (init_times (S (S n)) s)
    with (match H5_init_library s with
          | Returned _ st' => init_times (S n) st'
          | Aborted st' => Aborted st'
          end).
  destruct (H5_libinit_g s || H5_libterm_g s) eqn:Hg.
  - exists SUCCEED, s. rewrite (H5_init_library_noop s Hg).
    split; [reflexivity | apply init_times_noop, Hg].
  - destruct (H5_init_library_runs s Hg) as [r [s' [-> [Hinit _]]]].
    exists r, s'. split; [reflexivity|].
    apply init_times_noop. rewrite Hinit. reflexivity.
Qed.

(* --------------------------------------------------------------- *)
(** *** Entering a public function *)

Lemma FUNC_ENTER_API_spec (s : state) :
  exists r s', FUNC_ENTER_API s = Returned r s' /\
    H5_libterm_g s' = H5_libterm_g s /\
    H5_atclose_head s' = H5_atclose_head s /\
    events s' = events s /\
    keeps_dont_atexit s s' /\
    (0 <= r -> H5_libterm_g s = false -> H5_libinit_g s' = true).
Proof.
  unfold FUNC_ENTER_API, H5__init_package.
  unfold bind at 1. unfold gets at 1.
  destruct (H5_libinit_g s) eqn:Hi; cbn [negb andb].
  - exists SUCCEED, s.
    repeat apply conj; try reflexivity; try apply keeps_refl; auto.
  - destruct (H5_libterm_g s) eqn:Ht; cbn [negb].
    + exists SUCCEED, s.
      repeat apply conj; try reflexivity; try apply keeps_refl; congruence.
    + assert (Hg : H5_libinit_g s || H5_libterm_g s = false) by (rewrite Hi, Ht; reflexivity).
      destruct (H5_init_library_runs s Hg)
        as [r [s' [Hrun (Hinit & Hterm & Hhead & Hev & Hkeep & _)]]].
      unfold bind. rewrite Hrun.
      exists (if r <? 0 then FAIL else SUCCEED), s'.
      split; [destruct (r <? 0); reflexivity|].
      repeat apply conj; try assumption; congruence.
Qed.

(* --------------------------------------------------------------- *)
(** *** The callbacks *)

Lemma atclose_walk_fields (curr : list (H5_atclose_node_t Func Ctx)) (st : state) :
  H5_libinit_g (atclose_walk curr st) = H5_libinit_g st /\
  H5_libterm_g (atclose_walk curr st) = H5_libterm_g st /\
  H5_dont_atexit_g (atclose_walk curr st) = H5_dont_atexit_g st /\
  H5_debug_g (atclose_walk curr st) = H5_debug_g st /\
  stderr_out (atclose_walk curr st) = stderr_out st /\
  events (atclose_walk curr st) = (events st ++ map (@EvAtclose Func Ctx) curr)%list.
Proof.
  revert st. induction curr as [|node next IH]; intros st; cbn [atclose_walk map].
  - rewrite app_nil_r. repeat split.
  - destruct (IH (log_event (EvAtclose node) (call_ (user_callback node) st)))
      as (H1 & H2 & H3 & H4 & H5 & H6).
    rewrite H1, H2, H3, H4, H5, H6. cbn. rewrite <- app_assoc. repeat split.
Qed.

Lemma run_atclose_fields (st : state) :
  H5_libinit_g (run_atclose st) = H5_libinit_g st /\
  H5_libterm_g (run_atclose st) = H5_libterm_g st /\
  H5_dont_atexit_g (run_atclose st) = H5_dont_atexit_g st /\
  H5_debug_g (run_atclose st) = H5_debug_g st /\
  stderr_out (run_atclose st) = stderr_out st /\
  events (run_atclose st) =
    (events st ++ map (@EvAtclose Func Ctx) (H5_atclose_head st))%list /\
  H5_atclose_head (run_atclose st) = [].
Proof.
  unfold run_atclose. destruct (H5_atclose_head st) as [|node next] eqn:Hh.
  - cbn [map]. rewrite app_nil_r. repeat split. exact Hh.
  - destruct (atclose_walk_fields (node :: next) st) as (H1 & H2 & H3 & H4 & H5 & H6).
    cbn [H5_libinit_g H5_libterm_g H5_dont_atexit_g H5_debug_g stderr_out events
         H5_atclose_head set_atclose_head].
    repeat split; assumption.
Qed.

Lemma close_debug_streams_fields (st : state) :
  H5_libinit_g (close_debug_streams st) = H5_libinit_g st /\
  H5_libterm_g (close_debug_streams st) = H5_libterm_g st /\
  H5_dont_atexit_g (close_debug_streams st) = H5_dont_atexit_g st /\
  H5_atclose_head (close_debug_streams st) = H5_atclose_head st /\
  stderr_out (close_debug_streams st) = stderr_out st /\
  events (close_debug_streams st) = events st.
Proof.
  unfold close_debug_streams.
  cbn [H5_libinit_g H5_libterm_g H5_dont_atexit_g H5_atclose_head stderr_out events
       set_debug].
  generalize (open_stream (H5_debug_g st)). intros l. revert st.
  induction l as [|f l IH]; intros st; cbn [fold_left].
  - repeat split.
  - destruct (IH (call_ (fclose X f) st)) as (H1 & H2 & H3 & H4 & H5 & H6).
    rewrite H1, H2, H3, H4, H5, H6. repeat split.
Qed.

Lemma before_sweeps_fields (s : state) :
  H5_dont_atexit_g (before_sweeps s) = H5_dont_atexit_g s /\
  stderr_out (before_sweeps s) = stderr_out s /\
  events (before_sweeps s) =
    (events s ++ map (@EvAtclose Func Ctx) (H5_atclose_head s))%list /\
  H5_atclose_head (before_sweeps s) = [].
Proof.
  unfold before_sweeps.
  destruct (run_atclose_fields (call_ (H5CX_push X) (set_libterm true s)))
    as (_ & _ & H3 & _ & H5 & H6 & H7).
  rewrite H3, H5, H6, H7. repeat split.
Qed.

Lemma after_sweeps_fields (s : state) :
  H5_dont_atexit_g (after_sweeps s) = H5_dont_atexit_g s /\
  stderr_out (after_sweeps s) = stderr_out s /\
  events (after_sweeps s) =
    (events s ++ map (@EvAtclose Func Ctx) (H5_atclose_head s)
       ++ map (fun r => EvSweep (fst r) (snd r)) (snd (term_loop_result s)))%list /\
  H5_atclose_head (after_sweeps s) = [].
Proof.
  unfold after_sweeps, log_sweeps.
  destruct (before_sweeps_fields s) as (H1 & H2 & H3 & H4).
  cbn [H5_dont_atexit_g stderr_out events H5_atclose_head set_events set_world].
  rewrite H1, H2, H3, H4, <- app_assoc. repeat split.
Qed.

(** The state [H5_term_library] ends in when it finds the library
    initialised, returning or aborting: the callbacks it called, the
    sweeps it made, the registry empty, the opt-out flag as it was. *)
Lemma H5_term_library_final (s : state) :
  H5_libinit_g s = true ->
  events (final_state (H5_term_library s)) =
    (events s ++ map (@EvAtclose Func Ctx) (H5_atclose_head s)
       ++ map (fun r => EvSweep (fst r) (snd r)) (snd (term_loop_result s)))%list /\
  H5_atclose_head (final_state (H5_term_library s)) = [] /\
  H5_dont_atexit_g (final_state (H5_term_library s)) = H5_dont_atexit_g s.
Proof.
  intros Hinit. rewrite (H5_term_library_run s Hinit).
  destruct (after_sweeps_fields s) as (H1 & _ & H3 & H4).
  assert (Hrep : events (reported_failure s) = events (after_sweeps s) /\
                 H5_atclose_head (reported_failure s) = H5_atclose_head (after_sweeps s) /\
                 H5_dont_atexit_g (reported_failure s) = H5_dont_atexit_g (after_sweeps s))
    by (repeat split).
  destruct Hrep as (R1 & R2 & R3).
  assert (Hfin : forall st : state,
             events (finish_term st) = events st /\
             H5_atclose_head (finish_term st) = H5_atclose_head st /\
             H5_dont_atexit_g (finish_term st) = H5_dont_atexit_g st).
  { intros st. unfold finish_term.
    destruct (close_debug_streams_fields st) as (_ & _ & F3 & F4 & _ & F6).
    cbn [events H5_atclose_head H5_dont_atexit_g set_libinit set_libterm].
    rewrite F3, F4, F6. repeat split. }
  destruct (negb (pending (fst (term_loop_result s)) =? 0) && diagnostics_enabled s);
    [destruct (NDEBUG cfg)|]; cbn [final_state];
    try (destruct (Hfin (reported_failure s)) as (F1 & F2 & F3); rewrite F1, F2, F3);
    try (destruct (Hfin (after_sweeps s)) as (F1 & F2 & F3); rewrite F1, F2, F3);
    rewrite ?R1, ?R2, ?R3, H1, H3, H4; repeat split.
Qed.

Lemma callbacks_invoked_app (a b : list (event Func Ctx)) :
  callbacks_invoked (a ++ b) = (callbacks_invoked a ++ callbacks_invoked b)%list.
Proof.
  induction a as [|e a IH]; [reflexivity|].
  destruct e; cbn [callbacks_invoked app]; rewrite IH; reflexivity.
Qed.

Lemma callbacks_invoked_atclose (nodes : list (H5_atclose_node_t Func Ctx)) :
  callbacks_invoked (map (@EvAtclose Func Ctx) nodes) =
  map (fun node => (func node, ctx node)) nodes.
Proof. induction nodes as [|n l IH]; cbn; [|rewrite IH]; reflexivity. Qed.

Lemma callbacks_invoked_sweeps (done : list (Z * list (term_hook * Z))) :
  callbacks_invoked (map (fun r => @EvSweep Func Ctx (fst r) (snd r)) done) = [].
Proof. induction done as [|r l IH]; cbn; [|rewrite IH]; reflexivity. Qed.

Lemma sweeps_made_app (a b : list (event Func Ctx)) :
  sweeps_made (a ++ b) = (sweeps_made a ++ sweeps_made b)%list.
Proof.
  induction a as [|e a IH]; [reflexivity|].
  destruct e; cbn [sweeps_made app]; rewrite IH; reflexivity.
Qed.

Lemma sweeps_made_atclose (nodes : list (H5_atclose_node_t Func Ctx)) :
  sweeps_made (map (@EvAtclose Func Ctx) nodes) = [].
Proof. induction nodes as [|n l IH]; cbn; [|rewrite IH]; reflexivity. Qed.

Lemma sweeps_made_sweeps (done : list (Z * list (term_hook * Z))) :
  sweeps_made (map (fun r => @EvSweep Func Ctx (fst r) (snd r)) done) = done.
Proof.
  induction done as [|r l IH]; cbn; [reflexivity|].
  rewrite IH. destruct r; reflexivity.
Qed.

Lemma H5atclose_success (f : Func) (c : Ctx) (s s' : state) (r : herr_t) :
  H5atclose (Some f) c s = Returned r s' ->
  0 <= r ->
  H5_atclose_head s' = {| func := f; ctx := c |} :: H5_atclose_head s /\
  events s' = events s /\
  H5_libterm_g s' = H5_libterm_g s /\
  (H5_libterm_g s = false -> H5_libinit_g s' = true).
Proof.
  unfold H5atclose. unfold bind at 1.
  destruct (FUNC_ENTER_API_spec s) as [r0 [s1 [-> (Ht & Hh & He & _ & Hi)]]].
  destruct (r0 <? 0) eqn:Hr0.
  - unfold ret. intros [= <- <-]. unfold FAIL. lia.
  - unfold bind at 1. unfold lift.
    pose proof (call_steady (H5FL_MALLOC X) s1) as Hs.
    destruct (call (H5FL_MALLOC X) s1) as [ok s2]. cbn [snd] in Hs.
    destruct Hs as (S1 & S2 & S3 & S4 & _).
    destruct ok; cbn [negb].
    + unfold bind, modify, ret. intros [= <- <-] _.
      cbn [H5_atclose_head events H5_libterm_g H5_libinit_g set_atclose_head].
      apply Z.ltb_ge in Hr0.
      repeat apply conj; try congruence.
      intros Hterm. rewrite S1. auto.
    + unfold ret. intros [= <- <-]. unfold FAIL. lia.
Qed.

Lemma register_all_spec (cbs : list (Func * Ctx)) (s0 s1 : state) :
  register_all cbs s0 = Some s1 ->
  H5_libterm_g s0 = false ->
  H5_atclose_head s1 =
    (rev (map (fun cb => {| func := fst cb; ctx := snd cb |}) cbs)
       ++ H5_atclose_head s0)%list /\
  events s1 = events s0 /\
  (cbs <> [] -> H5_libinit_g s1 = true).
Proof.
  revert s0. induction cbs as [|[f c] rest IH]; intros s0 Hreg Hterm.
  - cbn in Hreg. injection Hreg as <-. repeat apply conj; [reflexivity..|congruence].
  - cbn [register_all] in Hreg.
    destruct (H5atclose (Some f) c s0) as [r s'|s'] eqn:Hcall; [|discriminate].
    destruct (0 <=? r) eqn:Hr; [|discriminate].
    apply Z.leb_le in Hr.
    destruct (H5atclose_success f c s0 Hcall Hr) as (Hh & He & Ht & Hi).
    destruct (IH s' Hreg) as (IH1 & IH2 & IH3); [congruence|].
    cbn [map rev fst snd]. rewrite IH1, Hh, IH2, He, <- app_assoc.
    repeat apply conj; [reflexivity..|].
    intros _. destruct rest as [|cb rest'].
    + cbn in Hreg. injection Hreg as <-. auto.
    + apply IH3. discriminate.
Qed.

(** The walk applies the callbacks to the world, one after the other,
    first node first. *)
Lemma atclose_walk_world (nodes : list (H5_atclose_node_t Func Ctx)) (st : state) :
  world (atclose_walk nodes st) =
    fold_left (fun w node => user_callback node w) nodes (world st).
Proof.
  revert st. induction nodes as [|n l IH]; intros st; [reflexivity|].
  cbn [atclose_walk fold_left]. rewrite IH. reflexivity.
Qed.

(** The world the shutdown loop is entered with: the one left by
    [H5CX_push] and then by the callbacks of the registry, head first. *)
Lemma before_sweeps_world (s : state) :
  world (before_sweeps s) =
    fold_left (fun w node => user_callback node w) (H5_atclose_head s)
      (H5CX_push X (world s)).
Proof.
  unfold before_sweeps, run_atclose.
  cbn [H5_atclose_head call_ set_world set_libterm].
  destruct (H5_atclose_head s) as [|n l]; [reflexivity|].
  cbn [world set_atclose_head]. rewrite atclose_walk_world. reflexivity.
Qed.

Lemma close_debug_streams_world (st : state) :
  world (close_debug_streams st) =
    fold_left (fun w f => fclose X f w) (open_stream (H5_debug_g st)) (world st).
Proof.
  unfold close_debug_streams. cbn [world set_debug].
  generalize (open_stream (H5_debug_g st)). intros l. revert st.
  induction l as [|f l IH]; intros st; cbn [fold_left]; [reflexivity|].
  rewrite IH. reflexivity.
Qed.

(** The world a call of [H5_term_library] on an initialised library ends
    in: the one the shutdown loop left, after the [fclose] of the opened
    debug streams when the call returns. *)
Lemma H5_term_library_world (s : state) :
  H5_libinit_g s = true ->
  world (final_state (H5_term_library s)) =
    match returned (H5_term_library s) with
    | Some _ =>
        fold_left (fun w f => fclose X f w) (open_stream (H5_debug_g s))
          (tl_world (fst (term_loop_result s)))
    | None => tl_world (fst (term_loop_result s))
    end.
Proof.
  intros Hinit. rewrite (H5_term_library_run s Hinit).
  assert (Hafter : world (after_sweeps s) = tl_world (fst (term_loop_result s)) /\
                   H5_debug_g (after_sweeps s) = H5_debug_g s).
  { unfold after_sweeps, log_sweeps. cbn [world H5_debug_g set_events set_world].
    split; [reflexivity|]. unfold before_sweeps.
    destruct (run_atclose_fields (call_ (H5CX_push X) (set_libterm true s)))
      as (_ & _ & _ & H & _).
    rewrite H. reflexivity. }
  destruct Hafter as [Hw Hd].
  assert (Hrep : world (reported_failure s) = tl_world (fst (term_loop_result s)) /\
                 H5_debug_g (reported_failure s) = H5_debug_g s).
  { unfold reported_failure. cbn [world H5_debug_g fputs_stderr set_stderr_out].
    split; assumption. }
  destruct Hrep as [Rw Rd].
  assert (Hfin : forall st : state,
             world (finish_term st) =
               fold_left (fun w f => fclose X f w) (open_stream (H5_debug_g st)) (world st)).
  { intros st. unfold finish_term. cbn [world set_libinit set_libterm].
    apply close_debug_streams_world. }
  destruct (negb (pending (fst (term_loop_result s)) =? 0) && diagnostics_enabled s);
    [destruct (NDEBUG cfg)|]; cbn [final_state returned].
  - rewrite Hfin, Rw, Rd. reflexivity.
  - exact Rw.
  - rewrite Hfin, Hw, Hd. reflexivity.
Qed.

(** C3.  From a state with an empty registry (and no termination in
    progress), after the registrations [C1 .. Cn] have all succeeded, a
    call of [H5_term_library] invokes exactly the callbacks [Cn .. C1],
    each once, most recent first, and leaves the registry empty --
    whether the call then returns or aborts in the shutdown loop.  The
    callbacks are run for real: the world the shutdown loop is entered
    with is the one obtained from [H5CX_push] by calling [Cn], ...,
    [C1] in this order, each inside the bracket of [user_callback], and
    the world the termination ends in is the one the shutdown loop makes
    of it (followed, when the call returns, by the [fclose] of the opened
    debug streams). *)
Theorem atclose_lifo (cbs : list (Func * Ctx)) (s0 s1 : state) :
  H5_libterm_g s0 = false ->
  H5_atclose_head s0 = [] ->
  register_all cbs s0 = Some s1 ->
  callbacks_invoked (events (final_state (H5_term_library s1))) =
    (callbacks_invoked (events s0) ++ rev cbs)%list /\
  H5_atclose_head (final_state (H5_term_library s1)) = [] /\
  (cbs <> [] -> H5_libinit_g s1 = true) /\
  (H5_libinit_g s1 = true ->
   world (before_sweeps s1) = invoke_callbacks (rev cbs) (H5CX_push X (world s1)) /\
   world (final_state (H5_term_library s1)) =
     match returned (H5_term_library s1) with
     | Some _ =>
         fold_left (fun w f => fclose X f w) (open_stream (H5_debug_g s1))
           (tl_world
              (fst (shutdown_loop 0
                      (initial_locals
                         (invoke_callbacks (rev cbs) (H5CX_push X (world s1)))) [])))
     | None =>
         tl_world
           (fst (shutdown_loop 0
                   (initial_locals
                      (invoke_callbacks (rev cbs) (H5CX_push X (world s1)))) []))
     end).
Proof.
  intros Hterm Hempty Hreg.
  destruct (register_all_spec cbs s0 Hreg Hterm) as (Hhead & Hev & Hinit).
  rewrite Hempty, app_nil_r in Hhead.
  assert (Hworld : world (before_sweeps s1)
                   = invoke_callbacks (rev cbs) (H5CX_push X (world s1))).
  { rewrite before_sweeps_world, Hhead, <- map_rev. unfold invoke_callbacks.
    generalize (H5CX_push X (world s1)). generalize (rev cbs).
    induction l as [|cb l IH]; intros w; [reflexivity|].
    cbn [map fold_left]. apply IH. }
  assert (Hlog : callbacks_invoked (events (final_state (H5_term_library s1))) =
                   (callbacks_invoked (events s0) ++ rev cbs)%list /\
                 H5_atclose_head (final_state (H5_term_library s1)) = []).
  { destruct cbs as [|cb rest].
    - cbn in Hreg. injection Hreg as <-.
      destruct (H5_libinit_g s0) eqn:Hi.
      + destruct (H5_term_library_final s0 Hi) as (E1 & E2 & _).
        rewrite E1, E2, Hempty. cbn [map app rev].
        rewrite callbacks_invoked_app, callbacks_invoked_sweeps. split; reflexivity.
      + rewrite (H5_term_library_skip s0 Hi). cbn [final_state rev].
        rewrite app_nil_r. split; [reflexivity | exact Hempty].
    - assert (Hi : H5_libinit_g s1 = true) by (apply Hinit; discriminate).
      destruct (H5_term_library_final s1 Hi) as (E1 & E2 & _).
      rewrite E1, E2, Hhead, Hev.
      rewrite !callbacks_invoked_app, callbacks_invoked_atclose, callbacks_invoked_sweeps.
      rewrite app_nil_r, <- map_rev, map_map.
      split; [|reflexivity]. f_equal.
      rewrite <- (map_id (rev (cb :: rest))) at 2.
      apply map_ext. intros [f c]. reflexivity. }
  destruct Hlog as [Hlog Hhd].
  split; [exact Hlog|]. split; [exact Hhd|]. split; [exact Hinit|].
  intros Hi. split; [exact Hworld|].
  rewrite (H5_term_library_world s1 Hi). unfold term_loop_result.
  rewrite Hworld. reflexivity.
Qed.

(* --------------------------------------------------------------- *)
(** *** The opt-out flag *)

Lemma FUNC_ENTER_API_keeps : returns keeps_dont_atexit FUNC_ENTER_API.
Proof.
  intros s. destruct (FUNC_ENTER_API_spec s) as [r [s' [Hrun (_ & _ & _ & Hk & _)]]].
  exists r, s'. split; assumption.
Qed.

Lemma H5_term_library_keeps : respects keeps_dont_atexit H5_term_library.
Proof.
  intros s. unfold keeps_dont_atexit. destruct (H5_libinit_g s) eqn:Hi.
  - destruct (H5_term_library_final s Hi) as (_ & _ & ->). auto.
  - rewrite (H5_term_library_skip s Hi). auto.
Qed.

Lemma run_call_keeps (c : api_call) : respects keeps_dont_atexit (run_call c).
Proof.
  destruct c as [| | |f c|a b r|]; cbn [run_call].
  - unfold H5open. apply (respects_bind keeps_trans).
    + apply returns_respects, FUNC_ENTER_API_keeps.
    + intros r. destruct (r <? 0); apply returns_respects, returns_ret, keeps_refl.
  - unfold H5close. apply (respects_bind keeps_trans).
    + apply H5_term_library_keeps.
    + intros _. apply returns_respects, returns_ret, keeps_refl.
  - unfold H5dont_atexit. apply (respects_bind keeps_trans).
    + apply returns_respects, returns_gets, keeps_refl.
    + intros already. destruct already.
      * apply returns_respects, returns_ret, keeps_refl.
      * apply (respects_bind keeps_trans).
        -- apply returns_respects, returns_modify. intros s _. reflexivity.
        -- intros _. apply returns_respects, returns_ret, keeps_refl.
  - unfold H5atclose. apply (respects_bind keeps_trans).
    + apply returns_respects, FUNC_ENTER_API_keeps.
    + intros r. destruct (r <? 0); [apply returns_respects, returns_ret, keeps_refl|].
      destruct f as [fn|]; [|apply returns_respects, returns_ret, keeps_refl].
      apply (respects_bind keeps_trans).
      * apply returns_respects, returns_lift. intros s.
        apply steady_keeps, call_steady.
      * intros ok. destruct ok; cbn [negb];
          [|apply returns_respects, returns_ret, keeps_refl].
        apply (respects_bind keeps_trans).
        -- apply returns_respects, returns_modify. intros s H. exact H.
        -- intros _. apply returns_respects, returns_ret, keeps_refl.
  - unfold H5check_version. apply (respects_bind keeps_trans).
    + intros s. apply steady_keeps, H5_check_version_steady.
    + intros _. apply returns_respects, returns_ret, keeps_refl.
  - unfold H5garbage_collect. apply (respects_bind keeps_trans).
    + apply returns_respects, FUNC_ENTER_API_keeps.
    + intros r. destruct (r <? 0); [apply returns_respects, returns_ret, keeps_refl|].
      apply (respects_bind keeps_trans).
      * apply returns_respects, returns_lift. intros s.
        apply steady_keeps, call_steady.
      * intros g. destruct (g <? 0); apply returns_respects, returns_ret, keeps_refl.
Qed.

Lemma run_calls_keeps (cs : list api_call) : respects keeps_dont_atexit (run_calls cs).
Proof.
  induction cs as [|c rest IH]; cbn [run_calls].
  - apply returns_respects, returns_ret, keeps_refl.
  - apply (respects_bind keeps_trans); [apply run_call_keeps|].
    intros r. apply (respects_bind keeps_trans); [exact IH|].
    intros rs. apply returns_respects, returns_ret, keeps_refl.
Qed.

(** C10.  Once a call of [H5_init_library] that found the library neither
    initialised nor terminating has returned success, the opt-out flag
    [H5_dont_atexit_g] is set -- initialisation sets it itself, in the
    block that registers the exit routine when the application had not
    opted out -- and it stays set through any later calls of the public
    functions: every later call of [H5dont_atexit] returns [FAIL] and
    changes nothing. *)
Theorem dont_atexit_fails_after_init
    (s s1 s2 : state) (r : herr_t) (cs : list api_call) (rs : list herr_t) :
  H5_libinit_g s = false ->
  H5_libterm_g s = false ->
  H5_init_library s = Returned r s1 ->
  0 <= r ->
  run_calls cs s1 = Returned rs s2 ->
  H5_dont_atexit_g s1 = true /\
  H5dont_atexit s2 = Returned FAIL s2.
Proof.
  intros Hi Ht Hinit Hr Hcalls.
  assert (Hg : H5_libinit_g s || H5_libterm_g s = false) by (rewrite Hi, Ht; reflexivity).
  destruct (H5_init_library_runs s Hg) as [r' [s' [Hrun (_ & _ & _ & _ & _ & Hflag)]]].
  rewrite Hinit in Hrun. injection Hrun as <- <-.
  specialize (Hflag Hr). split; [exact Hflag|].
  pose proof (run_calls_keeps cs s1) as Hk. rewrite Hcalls in Hk.
  cbn [final_state] in Hk. specialize (Hk Hflag).
  unfold H5dont_atexit, bind, gets. rewrite Hk. reflexivity.
Qed.

(* --------------------------------------------------------------- *)
(** *** The version check *)

Lemma after_getenv_fields (s : state) :
  disable_version_check (after_getenv s) = override_level s /\
  stderr_out (after_getenv s) = stderr_out s /\
  checked (after_getenv s) = checked s.
Proof.
  unfold after_getenv, override_level.
  destruct (starts_with_digit _); repeat split.
Qed.

Lemma H5_check_version_run (a b c : Z) (s : state) :
  checked s = false ->
  H5_check_version a b c s =
    (when_ (negb (H5_VERS_MAJOR cfg =? a) || negb (H5_VERS_MINOR cfg =? b))
       (version_mismatch_switch a b c) ;;
     when_ (negb (H5_VERS_RELEASE cfg =? c))
       (release_exceptions_loop VERS_RELEASE_EXCEPTIONS a b c) ;;
     modify (set_checked true) ;;
     level <- gets (fun st : state => disable_version_check st) ;;
     when_ (level =? 0)
       (when_ (negb (lib_str =? H5_VERS_INFO cfg)%string)
          (modify (fputs_stderr version_info_warning) ;;
           modify (fputs_stderr version_info_details))) ;;
     ret SUCCEED) (after_getenv s).
Proof.
  intros Hc. unfold H5_check_version.
  unfold bind at 1. unfold gets at 1. rewrite Hc.
  unfold bind at 1. unfold gets at 1.
  unfold bind at 1. unfold after_getenv, override_level.
  destruct (starts_with_digit (getenv X "HDF5_DISABLE_VERSION_CHECK" (world s)));
    reflexivity.
Qed.

Lemma appends_refl (s : state) : appends s s.
Proof. split; [reflexivity|]. exists []. rewrite app_nil_r. reflexivity. Qed.

Lemma appends_trans (a b c : state) : appends a b -> appends b c -> appends a c.
Proof.
  intros [H1 [m1 E1]] [H2 [m2 E2]]. split; [congruence|].
  exists (m1 ++ m2)%list. rewrite E2, E1, app_assoc. reflexivity.
Qed.

Lemma release_switch_warns (a b c : Z) (st : state) :
  disable_version_check st = 1 ->
  exists st', release_mismatch_switch a b c st = Returned tt st' /\ appends st st'.
Proof.
  intros Hl. unfold release_mismatch_switch, bind, gets, modify. rewrite Hl.
  cbn [Z.eqb Pos.eqb]. eexists. split; [reflexivity|].
  split; [reflexivity|]. cbn [stderr_out fputs_stderr set_stderr_out].
  rewrite <- app_assoc. eexists. reflexivity.
Qed.

Lemma release_switch_silent (a b c : Z) (st : state) :
  (disable_version_check st =? 0) = false ->
  (disable_version_check st =? 1) = false ->
  release_mismatch_switch a b c st = Returned tt st.
Proof.
  intros H0 H1. unfold release_mismatch_switch, bind, gets. rewrite H0, H1. reflexivity.
Qed.

Lemma release_loop_warns (ex : list Z) (a b c : Z) (st : state) :
  disable_version_check st = 1 ->
  exists st', release_exceptions_loop ex a b c st = Returned tt st' /\ appends st st'.
Proof.
  revert st. induction ex as [|e rest IH]; intros st Hl; cbn [release_exceptions_loop].
  - exists st. split; [reflexivity | apply appends_refl].
  - unfold bind.
    assert (Hstep : exists st1,
               when_ ((e =? c) || (e =? H5_VERS_RELEASE cfg))
                 (release_mismatch_switch a b c) st = Returned tt st1 /\ appends st st1).
    { destruct ((e =? c) || (e =? H5_VERS_RELEASE cfg)); cbn [when_].
      - apply release_switch_warns, Hl.
      - exists st. split; [reflexivity | apply appends_refl]. }
    destruct Hstep as [st1 [-> H1]].
    destruct (IH st1) as [st2 [-> H2]]; [destruct H1; congruence|].
    exists st2. split; [reflexivity | exact (appends_trans H1 H2)].
Qed.

Lemma release_loop_silent (ex : list Z) (a b c : Z) (st : state) :
  (disable_version_check st =? 0) = false ->
  (disable_version_check st =? 1) = false ->
  release_exceptions_loop ex a b c st = Returned tt st.
Proof.
  intros H0 H1. induction ex as [|e rest IH]; cbn [release_exceptions_loop];
    [reflexivity|].
  unfold bind.
  destruct ((e =? c) || (e =? H5_VERS_RELEASE cfg)); cbn [when_].
  - rewrite (release_switch_silent a b c st H0 H1). exact IH.
  - exact IH.
Qed.

(** C7.  When the check runs (it has not run yet in the process) and the
    major or minor number differs from the library's, what happens is
    decided by the override level -- the number read from
    [HDF5_DISABLE_VERSION_CHECK], or 0 when the variable is not set:
    - level 0: the mismatch warning, the two version triples and the
      build settings are printed, then ["Bye..."], and the process is
      aborted;
    - level 1: the warning, the version triples and the build settings
      are printed and the check returns [SUCCEED];
    - level 2 or more: the check returns [SUCCEED] and nothing at all is
      printed. *)
Theorem version_mismatch_by_level (s : state) (majnum minnum relnum : Z) :
  checked s = false ->
  H5_VERS_MAJOR cfg <> majnum \/ H5_VERS_MINOR cfg <> minnum ->
  (getenv X "HDF5_DISABLE_VERSION_CHECK" (world s) = None ->
   disable_version_check s = 0 -> override_level s = 0) /\
  (override_level s = 0 ->
   exists s', H5_check_version majnum minnum relnum s = Aborted s' /\
     stderr_out s' =
       (stderr_out s ++
        [(VERSION_MISMATCH_WARNING ++ disable_hint)%string;
         headers_line majnum minnum relnum
           (H5_VERS_MAJOR cfg) (H5_VERS_MINOR cfg) (H5_VERS_RELEASE cfg);
         H5build_settings cfg;
         ("Bye..." ++ nl)%string])%list) /\
  (override_level s = 1 ->
   exists s' more, H5_check_version majnum minnum relnum s = Returned SUCCEED s' /\
     stderr_out s' =
       (stderr_out s ++
        [continue_notice VERSION_MISMATCH_WARNING 1;
         headers_line majnum minnum relnum
           (H5_VERS_MAJOR cfg) (H5_VERS_MINOR cfg) (H5_VERS_RELEASE cfg);
         H5build_settings cfg] ++ more)%list) /\
  (2 <= override_level s ->
   exists s', H5_check_version majnum minnum relnum s = Returned SUCCEED s' /\
     stderr_out s' = stderr_out s).
Proof.
  intros Hc Hmis.
  assert (Hneq : negb (H5_VERS_MAJOR cfg =? majnum) || negb (H5_VERS_MINOR cfg =? minnum)
                 = true).
  { apply orb_true_iff. destruct Hmis as [H|H]; [left|right];
      apply negb_true_iff, Z.eqb_neq; exact H. }
  destruct (after_getenv_fields s) as (Hlvl & Hout & _).
  split; [|split; [|split]].
  - intros Henv Hz. unfold override_level. rewrite Henv. exact Hz.
  - intros H0. rewrite (H5_check_version_run majnum minnum relnum s Hc), Hneq.
    unfold bind at 1. cbn [when_].
    unfold version_mismatch_switch, bind, gets, modify, abort.
    rewrite Hlvl, H0. cbn [Z.eqb].
    eexists. split; [reflexivity|].
    cbn [stderr_out fputs_stderr set_stderr_out]. rewrite Hout, <- !app_assoc.
    reflexivity.
  - intros H1. rewrite (H5_check_version_run majnum minnum relnum s Hc), Hneq.
    unfold bind at 1. cbn [when_].
    unfold version_mismatch_switch. unfold bind at 1. unfold gets at 1.
    rewrite Hlvl, H1. cbn [Z.eqb Pos.eqb].
    unfold bind at 1. unfold modify at 1.
    unfold bind at 1. unfold modify at 1. unfold modify at 1.
    set (s2 := fputs_stderr (H5build_settings cfg) _).
    assert (Hl2 : disable_version_check s2 = 1) by (cbn; rewrite Hlvl; exact H1).
    assert (Ho2 : stderr_out s2 =
              (stderr_out s ++
               [continue_notice VERSION_MISMATCH_WARNING 1;
                headers_line majnum minnum relnum
                  (H5_VERS_MAJOR cfg) (H5_VERS_MINOR cfg) (H5_VERS_RELEASE cfg);
                H5build_settings cfg])%list).
    { cbn. rewrite Hout, <- !app_assoc. reflexivity. }
    unfold bind at 1.
    assert (Hrel : exists s3,
               when_ (negb (H5_VERS_RELEASE cfg =? relnum))
                 (release_exceptions_loop VERS_RELEASE_EXCEPTIONS majnum minnum relnum) s2
               = Returned tt s3 /\ appends s2 s3).
    { destruct (negb (H5_VERS_RELEASE cfg =? relnum)); cbn [when_].
      - apply release_loop_warns, Hl2.
      - exists s2. split; [reflexivity | apply appends_refl]. }
    destruct Hrel as [s3 [-> [Hl3 [more Ho3]]]].
    unfold bind, modify, gets. cbn [disable_version_check set_checked].
    rewrite Hl3, Hl2. cbn [Z.eqb when_]. unfold ret.
    eexists. exists more. split; [reflexivity|].
    cbn [stderr_out set_checked]. rewrite Ho3, Ho2, <- app_assoc. reflexivity.
  - intros H2. rewrite (H5_check_version_run majnum minnum relnum s Hc), Hneq.
    assert (Hz0 : (disable_version_check (after_getenv s) =? 0) = false)
      by (apply Z.eqb_neq; lia).
    assert (Hz1 : (disable_version_check (after_getenv s) =? 1) = false)
      by (apply Z.eqb_neq; lia).
    unfold bind at 1. cbn [when_].
    unfold version_mismatch_switch. unfold bind at 1. unfold gets at 1.
    rewrite Hz0, Hz1. unfold ret at 1.
    unfold bind at 1.
    assert (Hrel : when_ (negb (H5_VERS_RELEASE cfg =? relnum))
               (release_exceptions_loop VERS_RELEASE_EXCEPTIONS majnum minnum relnum)
               (after_getenv s) = Returned tt (after_getenv s)).
    { destruct (negb (H5_VERS_RELEASE cfg =? relnum)); cbn [when_];
        [apply release_loop_silent; assumption | reflexivity]. }
    rewrite Hrel.
    unfold bind, modify, gets. cbn [disable_version_check set_checked].
    rewrite Hz0. cbn [when_]. unfold ret.
    eexists. split; [reflexivity|]. cbn [stderr_out set_checked]. exact Hout.
Qed.

(* --------------------------------------------------------------- *)
(** *** The debug mask *)

Lemma debug_mask_all_trace_ttop_run (st : state) :
  H5__debug_mask (Some "-all trace ttop") st =
    set_debug
      {| trace := Some stderr; ttop := true; ttimes := ttimes (H5_debug_g st);
         pkg := map (fun p => {| name := name p; stream := None |}) (pkg (H5_debug_g st));
         open_stream := open_stream (H5_debug_g st) |}
      st.
Proof.
  unfold H5__debug_mask.
  repeat (simp debug_mask_loop; cbn).
  reflexivity.
Qed.

(** C8.  Whatever the debug configuration was, [H5__debug_mask] applied
    to ["-all trace ttop"] leaves the stream of every package null, the
    trace stream set to [stderr] and [ttop] true; the names of the
    packages, [ttimes], the opened streams and the rest of the state are
    as before, and nothing is printed. *)
Theorem debug_mask_all_trace_ttop (st : state) :
  Forall (fun p => stream p = None)
    (pkg (H5_debug_g (H5__debug_mask (Some "-all trace ttop") st))) /\
  trace (H5_debug_g (H5__debug_mask (Some "-all trace ttop") st)) = Some stderr /\
  ttop (H5_debug_g (H5__debug_mask (Some "-all trace ttop") st)) = true /\
  map name (pkg (H5_debug_g (H5__debug_mask (Some "-all trace ttop") st))) =
    map name (pkg (H5_debug_g st)) /\
  ttimes (H5_debug_g (H5__debug_mask (Some "-all trace ttop") st)) =
    ttimes (H5_debug_g st) /\
  stderr_out (H5__debug_mask (Some "-all trace ttop") st) = stderr_out st.
Proof.
  rewrite debug_mask_all_trace_ttop_run.
  cbn [H5_debug_g set_debug pkg trace ttop ttimes stderr_out].
  repeat apply conj; try reflexivity.
  - apply Forall_forall. intros p Hin. apply in_map_iff in Hin.
    destruct Hin as [q [<- _]]. reflexivity.
  - rewrite map_map. reflexivity.
Qed.

(* --------------------------------------------------------------- *)
(** *** One sweep *)

Lemma if_pending_zero_skip (body : term_locals World -> term_locals World)
    (l : term_locals World) :
  (pending l =? 0) = false -> if_pending_zero body l = l.
Proof. intros E. unfold if_pending_zero. rewrite E. reflexivity. Qed.

Lemma if_pending_zero_enter (body : term_locals World -> term_locals World)
    (l : term_locals World) :
  (pending l =? 0) = true -> if_pending_zero body l = body l.
Proof. intros E. unfold if_pending_zero. rewrite E. reflexivity. Qed.

(** The sweep is the sequence of its guarded blocks. *)
Lemma sweep_as_blocks (l : term_locals World) :
  sweep l = run_blocks guard_blocks (sweep_start l).
Proof.
  unfold sweep, run_blocks, guard_blocks. cbv zeta. cbn [fold_left].
  change (guarded_block [H5ES] (sweep_start l))
    with (pending_plus_DOWN H5ES (sweep_start l)).
  change (guarded_block [H5F]) with (if_pending_zero (pending_plus_DOWN H5F)).
  change (guarded_block [H5P]) with (if_pending_zero (pending_plus_DOWN H5P)).
  change (guarded_block [H5PL]) with (if_pending_zero (pending_plus_DOWN H5PL)).
  change (guarded_block [H5E]) with (if_pending_zero (pending_plus_DOWN H5E)).
  change (guarded_block [H5I]) with (if_pending_zero (pending_plus_DOWN H5I)).
  change (guarded_block [H5SL]) with (if_pending_zero (pending_plus_DOWN H5SL)).
  change (guarded_block [H5FL]) with (if_pending_zero (pending_plus_DOWN H5FL)).
  change (guarded_block [H5CX]) with (if_pending_zero (pending_plus_DOWN H5CX)).
  unfold guarded_block, run_hooks. cbn [fold_left].
  match goal with |- if_pending_zero _ ?x = _ => generalize x end.
  intros l5. destruct (pending l5 =? 0) eqn:E.
  - rewrite !(fun body => if_pending_zero_enter body l5 E). reflexivity.
  - rewrite !(fun body => if_pending_zero_skip body l5 E). reflexivity.
Qed.

Lemma int_add_small (a b : Z) :
  0 <= a -> 0 <= b -> a + b <= INT_MAX -> int_add a b = a + b.
Proof.
  unfold int_add, to_int, INT_MAX. intros Ha Hb Hab.
  rewrite Z.mod_small; lia.
Qed.

Lemma pending_plus_DOWN_calls (F : term_hook) (l : term_locals World) :
  calls (pending_plus_DOWN F l) =
    (calls l ++ [(F, fst (H5_term_package X F (tl_world l)))])%list /\
  pending (pending_plus_DOWN F l) =
    int_add (pending l) (fst (H5_term_package X F (tl_world l))).
Proof.
  unfold pending_plus_DOWN, DOWN.
  destruct (H5_term_package X F (tl_world l)) as [n w]. cbn [fst].
  destruct (negb (n =? 0) && (at_ l + 8 <? 1024));
    [|destruct ((0 <? n) && (at_ l + 5 <? 1024))]; split; reflexivity.
Qed.

(** A run of [DOWN]s entered with [pending] small enough: the calls made,
    one per routine and in order, and [pending] zero afterwards exactly
    when it was zero before and every call reported 0. *)
Lemma run_hooks_spec (Fs : list term_hook) (l : term_locals World) :
  hooks_bounded ->
  0 <= pending l ->
  pending l + Z.of_nat (List.length Fs) * max_reported <= INT_MAX ->
  exists rs,
    calls (run_hooks Fs l) = (calls l ++ rs)%list /\
    map fst rs = Fs /\
    0 <= pending (run_hooks Fs l) <=
      pending l + Z.of_nat (List.length Fs) * max_reported /\
    (pending (run_hooks Fs l) = 0 <->
     pending l = 0 /\ Forall (fun c => snd c = 0) rs).
Proof.
  intros Hb. revert l. induction Fs as [|F Fs IH]; intros l Hp Hmax.
  - exists []. cbn. rewrite app_nil_r.
    split; [reflexivity|]. split; [reflexivity|]. split; [lia|].
    split; [intros H; split; [exact H | constructor] | intros [H _]; exact H].
  - cbn [run_hooks fold_left]. fold (run_hooks Fs (pending_plus_DOWN F l)).
    destruct (pending_plus_DOWN_calls F l) as [Hc Hpend].
    set (n := fst (H5_term_package X F (tl_world l))) in *.
    assert (Hn : 0 <= n <= max_reported) by apply Hb.
    cbn [List.length] in Hmax. rewrite Nat2Z.inj_succ in Hmax.
    assert (Hadd : pending (pending_plus_DOWN F l) = pending l + n).
    { rewrite Hpend. apply int_add_small; unfold max_reported in *; lia. }
    destruct (IH (pending_plus_DOWN F l)) as [rs (Hcs & Hfst & Hrange & Hzero)];
      [lia | lia |].
    exists ((F, n) :: rs).
    split; [rewrite Hcs, Hc, <- app_assoc; reflexivity|].
    split; [cbn; rewrite Hfst; reflexivity|].
    split; [cbn [List.length]; rewrite Nat2Z.inj_succ; lia|].
    split.
    + intros H. apply Hzero in H. destruct H as [H1 H2].
      split; [lia|]. constructor; [cbn; lia | exact H2].
    + intros [H1 H2]. apply Hzero. inversion H2; subst. cbn in *.
      split; [lia | assumption].
Qed.

Lemma firstn_app_short {A : Type} (k : nat) (a b : list A) :
  (k <= List.length a)%nat -> firstn k (a ++ b) = firstn k a.
Proof.
  intros Hk. rewrite firstn_app.
  replace (k - List.length a)%nat with 0%nat by lia.
  cbn. apply app_nil_r.
Qed.

Lemma guarded_block_inv (pre : list (list term_hook)) (b : list term_hook)
    (l : term_locals World) :
  hooks_bounded ->
  (List.length b <= 26)%nat ->
  block_inv pre l ->
  block_inv (pre ++ [b]) (guarded_block b l).
Proof.
  intros Hb Hlen [(Hp & Hfst & Hz)|(Hp & k & zeros & last & Hk & Hc & Hzf & Hzz & Hl)].
  - unfold guarded_block. rewrite if_pending_zero_enter by (apply Z.eqb_eq; exact Hp).
    destruct (run_hooks_spec b l Hb) as [rs (Hcs & Hrs & Hrange & Hzero)];
      [lia | unfold max_reported, INT_MAX; lia |].
    destruct (Z.eq_dec (pending (run_hooks b l)) 0) as [E|E].
    + left. pose proof E as E0. apply Hzero in E. destruct E as [_ E].
      split; [exact E0|]. split.
      * rewrite Hcs, map_app, Hfst, Hrs, concat_app. cbn. rewrite app_nil_r. reflexivity.
      * rewrite Hcs. apply Forall_app. split; assumption.
    + right. split; [exact E|].
      exists (List.length pre), (calls l), rs. repeat apply conj.
      * rewrite length_app. cbn. lia.
      * exact Hcs.
      * rewrite firstn_app_short, firstn_all by lia. exact Hfst.
      * exact Hz.
      * rewrite Hrs, app_nth2, Nat.sub_diag by lia. reflexivity.
  - unfold guarded_block. rewrite if_pending_zero_skip by (apply Z.eqb_neq; exact Hp).
    right. split; [exact Hp|].
    exists k, zeros, last. repeat apply conj; try assumption.
    + rewrite length_app. lia.
    + rewrite firstn_app_short by lia. exact Hzf.
    + rewrite app_nth1 by exact Hk. exact Hl.
Qed.

Lemma run_blocks_inv (bs pre : list (list term_hook)) (l : term_locals World) :
  hooks_bounded ->
  Forall (fun b => (List.length b <= 26)%nat) bs ->
  block_inv pre l ->
  block_inv (pre ++ bs) (run_blocks bs l).
Proof.
  intros Hb. revert pre l. induction bs as [|b bs IH]; intros pre l Hlen Hinv.
  - rewrite app_nil_r. exact Hinv.
  - inversion Hlen as [|? ? Hb1 Hbs]; subst.
    cbn [run_blocks fold_left]. fold (run_blocks bs (guarded_block b l)).
    replace (pre ++ b :: bs)%list with ((pre ++ [b]) ++ bs)%list
      by (rewrite <- app_assoc; reflexivity).
    apply IH; [exact Hbs|]. apply guarded_block_inv; assumption.
Qed.

Lemma sweep_block_inv (l : term_locals World) :
  hooks_bounded -> block_inv guard_blocks (sweep l).
Proof.
  intros Hb. rewrite sweep_as_blocks.
  change (block_inv ([] ++ guard_blocks) (run_blocks guard_blocks (sweep_start l))).
  apply run_blocks_inv.
  - exact Hb.
  - unfold guard_blocks. repeat constructor; cbn; lia.
  - left. repeat apply conj; [reflexivity | reflexivity | constructor].
Qed.

Lemma in_concat_firstn {A : Type} (x : A) (bs : list (list A)) (k : nat) :
  In x (List.concat (firstn k bs)) <-> exists j, (j < k)%nat /\ In x (nth j bs []).
Proof.
  revert k. induction bs as [|b bs IH]; intros k.
  - rewrite firstn_nil. cbn. split; [contradiction|].
    intros [j [_ H]]. destruct j; exact H.
  - destruct k as [|k].
    + cbn. split; [contradiction | intros [j [H _]]; lia].
    + cbn [firstn List.concat]. rewrite in_app_iff, IH. split.
      * intros [H|[j [Hj H]]].
        -- exists 0%nat. split; [lia | exact H].
        -- exists (S j). split; [lia | exact H].
      * intros [[|j] [Hj H]].
        -- left. exact H.
        -- right. exists j. split; [lia | exact H].
Qed.

Lemma guard_block_member (F : term_hook) :
  In F (nth (guard_block F) guard_blocks []).
Proof. destruct F; cbn; tauto. Qed.

Lemma member_guard_block (k : nat) (F : term_hook) :
  In F (nth k guard_blocks []) -> guard_block F = k.
Proof.
  unfold guard_blocks.
  do 12 (destruct k as [|k];
         [cbn; intros H;
          repeat (destruct H as [<-|H]; [reflexivity|]); contradiction|]).
  destruct k; contradiction.
Qed.

Lemma in_first_blocks (k : nat) (F : term_hook) :
  In F (List.concat (firstn k guard_blocks)) <-> (guard_block F < k)%nat.
Proof.
  rewrite in_concat_firstn. split.
  - intros [j [Hj H]]. apply member_guard_block in H. lia.
  - intros H. exists (guard_block F). split; [exact H | apply guard_block_member].
Qed.

Lemma zero_call_of_name (F : term_hook) (cs : list (term_hook * Z)) :
  Forall (fun c => snd c = 0) cs -> In F (map fst cs) -> In (F, 0) cs.
Proof.
  intros Hz Hin. apply in_map_iff in Hin. destruct Hin as [[F' n] [<- Hin]].
  rewrite Forall_forall in Hz. specialize (Hz _ Hin). cbn in Hz. subst n. exact Hin.
Qed.

Lemma block_inv_gated (l : term_locals World) :
  block_inv guard_blocks l -> gated guard_block (calls l).
Proof.
  intros [(_ & Hfst & Hz)|(_ & k & zeros & last & Hk & Hc & Hzf & Hzz & Hl)]
    q n p Hq Hlt.
  - apply zero_call_of_name; [exact Hz|].
    rewrite Hfst, <- (firstn_all guard_blocks). apply in_first_blocks.
    cbn. destruct p; cbn; lia.
  - assert (Hqk : (guard_block q <= k)%nat).
    { rewrite Hc in Hq. apply in_app_iff in Hq. destruct Hq as [Hq|Hq].
      - apply (in_map fst) in Hq. rewrite Hzf in Hq. cbn [fst] in Hq.
        apply in_first_blocks in Hq. lia.
      - apply (in_map fst) in Hq. rewrite Hl in Hq. cbn [fst] in Hq.
        apply member_guard_block in Hq. lia. }
    rewrite Hc. apply in_app_iff. left.
    apply zero_call_of_name; [exact Hzz|].
    rewrite Hzf. apply in_first_blocks. lia.
Qed.

(* --------------------------------------------------------------- *)
(** *** The shutdown loop *)

(** One turn of the [do ... while]: the sweep, then the test
    [pending && ntries++ < 100]. *)
Lemma shutdown_loop_step (ntries : Z) (l : term_locals World)
    (done : list (Z * list (term_hook * Z))) :
  shutdown_loop ntries l done =
    if pending (sweep l) =? 0
    then (sweep l, (done ++ [(pending (sweep l), calls (sweep l))])%list)
    else if ntries <? 100
         then shutdown_loop (ntries + 1) (sweep l)
                (done ++ [(pending (sweep l), calls (sweep l))])%list
         else (sweep l, (done ++ [(pending (sweep l), calls (sweep l))])%list).
Proof.
  rewrite shutdown_loop_equation_1. cbv zeta.
  destruct (pending (sweep l) =? 0); [reflexivity|].
  destruct (Z_lt_dec ntries 100) as [H|H]; destruct (Z.ltb_spec ntries 100);
    try lia; reflexivity.
Qed.

(** The sweeps the loop adds to [done]: at least one, at most
    [101 - ntries]; the last one is the one [pending] comes from; and
    when the loop ends with [pending] non-zero it has made all of its
    [101 - ntries] sweeps. *)
Lemma shutdown_loop_sweeps (k : nat) (ntries : Z) (l : term_locals World)
    (done : list (Z * list (term_hook * Z))) :
  Z.to_nat (100 - ntries) = k ->
  ntries <= 100 ->
  exists new,
    snd (shutdown_loop ntries l done) = (done ++ new)%list /\
    (1 <= List.length new <= S k)%nat /\
    fst (last new (0, [])) = pending (fst (shutdown_loop ntries l done)) /\
    (pending (fst (shutdown_loop ntries l done)) <> 0 -> List.length new = S k).
Proof.
  revert ntries l done. induction k as [|k IH]; intros ntries l done Hk Hle;
    rewrite shutdown_loop_step.
  - destruct (pending (sweep l) =? 0) eqn:Hp.
    + apply Z.eqb_eq in Hp.
      exists [(pending (sweep l), calls (sweep l))]. cbn.
      repeat apply conj; try reflexivity; lia.
    + destruct (Z.ltb_spec ntries 100); [lia|].
      exists [(pending (sweep l), calls (sweep l))]. cbn.
      repeat apply conj; try reflexivity; lia.
  - destruct (pending (sweep l) =? 0) eqn:Hp.
    + apply Z.eqb_eq in Hp.
      exists [(pending (sweep l), calls (sweep l))]. cbn.
      repeat apply conj; try reflexivity; lia.
    + destruct (Z.ltb_spec ntries 100); [|lia].
      destruct (IH (ntries + 1) (sweep l)
                  (done ++ [(pending (sweep l), calls (sweep l))])%list)
        as [new (Hs & Hlen & Hlast & Hfull)]; [lia | lia |].
      exists ((pending (sweep l), calls (sweep l)) :: new).
      repeat apply conj.
      * rewrite Hs, <- app_assoc. reflexivity.
      * cbn [List.length]. lia.
      * cbn [List.length]. lia.
      * rewrite <- Hlast. destruct new as [|x new]; [cbn in Hlen; lia | reflexivity].
      * intros H1. cbn [List.length]. rewrite (Hfull H1). reflexivity.
Qed.

Lemma term_loop_sweeps (s : state) :
  (1 <= List.length (snd (term_loop_result s)) <= 101)%nat /\
  fst (last (snd (term_loop_result s)) (0, [])) = pending (fst (term_loop_result s)) /\
  (pending (fst (term_loop_result s)) <> 0 ->
   List.length (snd (term_loop_result s)) = 101%nat).
Proof.
  unfold term_loop_result.
  destruct (shutdown_loop_sweeps (k := 100) (ntries := 0)
              (initial_locals (world (before_sweeps s))) [])
    as [new (Hs & Hlen & Hlast & Hfull)]; [reflexivity | lia |].
  cbn [app] in Hs. rewrite Hs. repeat apply conj; try lia; assumption.
Qed.

(** Whatever holds of the calls of every sweep holds of every sweep the
    loop records. *)
Lemma shutdown_loop_each (P : list (term_hook * Z) -> Prop) (k : nat) (ntries : Z)
    (l : term_locals World) (done : list (Z * list (term_hook * Z))) :
  Z.to_nat (100 - ntries) = k ->
  (forall l', P (calls (sweep l'))) ->
  Forall (fun r => P (snd r)) done ->
  Forall (fun r => P (snd r)) (snd (shutdown_loop ntries l done)).
Proof.
  intros Hk HP. revert ntries l done Hk.
  assert (Hsnoc : forall l0 done0, Forall (fun r => P (snd r)) done0 ->
            Forall (fun r => P (snd r))
              (done0 ++ [(pending (sweep l0), calls (sweep l0))])%list).
  { intros l0 done0 Hd. apply Forall_app. split; [exact Hd|].
    constructor; [apply HP | constructor]. }
  induction k as [|k IH]; intros ntries l done Hk Hdone;
    rewrite shutdown_loop_step;
    destruct (pending (sweep l) =? 0); cbn [snd]; try (apply Hsnoc; exact Hdone);
    destruct (Z.ltb_spec ntries 100); cbn [snd]; try (apply Hsnoc; exact Hdone).
  - lia.
  - apply IH; [lia | apply Hsnoc; exact Hdone].
Qed.

(** C1, as the code has it.  When every [term_package] routine reports a
    value between 0 and [max_reported], the calls of a sweep respect the
    blocks delimited by the tests [if (pending == 0)]: a routine is called
    only if every routine of every earlier block was called in the same
    sweep and reported 0.  This holds of the sweep taken alone and of every
    sweep a call of [H5_term_library] makes.  The blocks are
    [guard_blocks]: the link routine and the six "top" routines form one
    block, and each of the last six routines is a block of its own. *)
Theorem sweep_gated_by_blocks (l : term_locals World) (s : state) :
  hooks_bounded ->
  gated guard_block (calls (sweep l)) /\
  Forall (fun r => gated guard_block (snd r)) (snd (term_loop_result s)).
Proof.
  intros Hb.
  assert (Hsweep : forall l', gated guard_block (calls (sweep l')))
    by (intros l'; apply block_inv_gated, sweep_block_inv, Hb).
  split; [apply Hsweep|].
  unfold term_loop_result.
  apply (@shutdown_loop_each (gated guard_block) 100 0); [reflexivity | exact Hsweep|].
  constructor.
Qed.

Lemma forallb_last {A : Type} (f : A -> bool) (l : list A) (d : A) :
  l <> [] -> forallb f l = true -> f (last l d) = true.
Proof.
  intros Hne Hall. rewrite forallb_forall in Hall. apply Hall.
  destruct l as [|x l]; [contradiction|].
  clear Hne Hall. revert x. induction l as [|y l IH]; intros x.
  - left. reflexivity.
  - right. apply (IH y).
Qed.

Lemma finish_term_stderr (st : state) : stderr_out (finish_term st) = stderr_out st.
Proof.
  unfold finish_term. cbn [stderr_out set_libinit set_libterm].
  apply close_debug_streams_fields.
Qed.

(** What [H5_term_library] prints when it finds the library
    initialised: the two lines of the convergence failure when the loop
    ended with work pending and reporting is on, nothing otherwise. *)
Lemma H5_term_library_stderr (s : state) :
  H5_libinit_g s = true ->
  stderr_out (final_state (H5_term_library s)) =
    if negb (pending (fst (term_loop_result s)) =? 0) && diagnostics_enabled s
    then (stderr_out s ++
          [infinite_loop_message;
           ("      " ++ loop (fst (term_loop_result s)) ++ nl)%string])%list
    else stderr_out s.
Proof.
  intros Hinit. rewrite (H5_term_library_run s Hinit).
  destruct (after_sweeps_fields s) as (_ & Hout & _).
  assert (Hrep : stderr_out (reported_failure s) =
            (stderr_out s ++
             [infinite_loop_message;
              ("      " ++ loop (fst (term_loop_result s)) ++ nl)%string])%list).
  { unfold reported_failure. cbn [stderr_out fputs_stderr set_stderr_out].
    rewrite Hout, <- app_assoc. reflexivity. }
  destruct (negb (pending (fst (term_loop_result s)) =? 0) && diagnostics_enabled s);
    [destruct (NDEBUG cfg)|]; cbn [final_state]; rewrite ?finish_term_stderr; assumption.
Qed.

(** C2, as the code has it.  In a termination run in which [pending] is
    positive at the end of every sweep, the shutdown loop makes exactly
    101 sweeps -- the first one and the 100 retries that
    [ntries++ < 100] allows -- and stops; these are the sweeps the run
    records.  The failure is then reported on [stderr], in two lines,
    when error reporting is on ([func] non-null), and not otherwise. *)
Theorem shutdown_stops_after_101_sweeps (s : state) :
  H5_libinit_g s = true ->
  forallb (fun r => 0 <? fst r) (snd (term_loop_result s)) = true ->
  List.length (snd (term_loop_result s)) = 101%nat /\
  sweeps_made (events (final_state (H5_term_library s))) =
    (sweeps_made (events s) ++ snd (term_loop_result s))%list /\
  pending (fst (term_loop_result s)) <> 0 /\
  stderr_out (final_state (H5_term_library s)) =
    (if diagnostics_enabled s
     then (stderr_out s ++
           [infinite_loop_message;
            ("      " ++ loop (fst (term_loop_result s)) ++ nl)%string])%list
     else stderr_out s).
Proof.
  intros Hinit Hall.
  destruct (term_loop_sweeps s) as (Hlen & Hlast & Hfull).
  assert (Hp : pending (fst (term_loop_result s)) <> 0).
  { rewrite <- Hlast.
    assert (Hne : snd (term_loop_result s) <> []).
    { intros E. rewrite E in Hlen. cbn in Hlen. lia. }
    pose proof (forallb_last (fun r => 0 <? fst r) (0, []) Hne Hall) as H.
    apply Z.ltb_lt in H. lia. }
  split; [exact (Hfull Hp)|]. split; [|split; [exact Hp|]].
  - destruct (H5_term_library_final s Hinit) as (Hev & _).
    rewrite Hev, !sweeps_made_app, sweeps_made_atclose, sweeps_made_sweeps.
    reflexivity.
  - rewrite (H5_term_library_stderr s Hinit).
    apply Z.eqb_neq in Hp. rewrite Hp. reflexivity.
Qed.

(* --------------------------------------------------------------- *)
(** *** The names printed into [loop] *)


Lemma string_length_app (a b : string) :
  String.length (a ++ b) = (String.length a + String.length b)%nat.
Proof. induction a as [|x a IH]; cbn; [|rewrite IH]; reflexivity. Qed.












Lemma finish_term_flags (st : state) :
  H5_libinit_g (finish_term st) = false /\ H5_libterm_g (finish_term st) = false.
Proof. split; reflexivity. Qed.

Lemma reported_failure_flags (s : state) :
  H5_libinit_g s = true ->
  H5_libinit_g (reported_failure s) = true /\ H5_libterm_g (reported_failure s) = true.
Proof.
  intros Hinit. unfold reported_failure, after_sweeps, log_sweeps, before_sweeps.
  cbn [H5_libinit_g H5_libterm_g fputs_stderr set_stderr_out set_events set_world].
  destruct (run_atclose_fields (call_ (H5CX_push X) (set_libterm true s)))
    as (H1 & H2 & _).
  rewrite H1, H2. cbn. split; [exact Hinit | reflexivity].
Qed.


(** C9, as the code has it.  [H5close] never returns a failure: a call
    that returns has returned [SUCCEED].  It always returns when the
    library is not initialised, when the shutdown loop converged, in a
    build with [NDEBUG], or with error reporting off -- also when the
    shutdown loop did not converge: [H5_term_library] returns no status
    and the failure is not visible in the value returned.  But it does
    not return for every state: in a build without [NDEBUG], when the
    library is initialised, the shutdown loop ends with work pending and
    error reporting is on, the process is aborted inside
    [H5_term_library], with both flags still set. *)
Theorem H5close_never_fails (s : state) :
  ((exists s', H5close s = Returned SUCCEED s') \/
   (NDEBUG cfg = false /\
    pending (fst (term_loop_result s)) <> 0 /\
    diagnostics_enabled s = true /\
    exists s', H5close s = Aborted s')) /\
  (NDEBUG cfg = true \/ diagnostics_enabled s = false ->
   exists s', H5close s = Returned SUCCEED s') /\
  (H5_libinit_g s = false \/ pending (fst (term_loop_result s)) = 0 ->
   exists s', H5close s = Returned SUCCEED s') /\
  (H5_libinit_g s = true ->
   NDEBUG cfg = false ->
   pending (fst (term_loop_result s)) <> 0 ->
   diagnostics_enabled s = true ->
   exists s', H5close s = Aborted s' /\
              H5_libinit_g s' = true /\ H5_libterm_g s' = true).
Proof.
  rewrite H5close_run.
  destruct (H5_libinit_g s) eqn:Hinit.
  - rewrite (H5_term_library_run s Hinit).
    destruct (pending (fst (term_loop_result s)) =? 0) eqn:Hp; cbn [negb andb].
    + apply Z.eqb_eq in Hp.
      split; [left; eexists; reflexivity|].
      split; [intros _; eexists; reflexivity|].
      split; [intros _; eexists; reflexivity|].
      intros _ _ Hne. contradiction.
    + apply Z.eqb_neq in Hp.
      destruct (diagnostics_enabled s) eqn:Hd; [destruct (NDEBUG cfg) eqn:Hn|].
      * split; [left; eexists; reflexivity|].
        split; [intros _; eexists; reflexivity|].
        split; [intros [H|H]; [discriminate | contradiction]|].
        intros _ H. discriminate.
      * split.
        { right. split; [reflexivity|]. split; [exact Hp|]. split; [reflexivity|].
          eexists. reflexivity. }
        split; [intros [H|H]; discriminate|].
        split; [intros [H|H]; [discriminate | contradiction]|].
        intros _ _ _ _. eexists. split; [reflexivity|].
        apply reported_failure_flags, Hinit.
      * split; [left; eexists; reflexivity|].
        split; [intros _; eexists; reflexivity|].
        split; [intros _; eexists; reflexivity|].
        intros _ _ _ H. discriminate.
  - rewrite (H5_term_library_skip s Hinit).
    split; [left; eexists; reflexivity|].
    split; [intros _; eexists; reflexivity|].
    split; [intros _; eexists; reflexivity|].
    intros H. discriminate.
Qed.

(* --------------------------------------------------------------- *)
(** *** What a call leaves alone, field by field *)

Section Same.
Context {A : Type}.
Variable p : state -> A.

Lemma same_refl (s : state) : same p s s.
Proof. reflexivity. Qed.

Lemma same_trans (a b c : state) : same p a b -> same p b c -> same p a c.
Proof. unfold same. congruence. Qed.

Lemma call_same {B : Type} (f : World -> B * World) (st : state) :
  ignores set_world p -> same p st (snd (call f st)).
Proof. intros Hw. unfold call. destruct (f (world st)). apply Hw. Qed.

Lemma call__same (f : World -> World) (st : state) :
  ignores set_world p -> same p st (call_ f st).
Proof. intros Hw. apply Hw. Qed.

Lemma fputs_stderr_same (text : string) (st : state) :
  ignores set_stderr_out p -> same p st (fputs_stderr text st).
Proof. intros Hs. apply Hs. Qed.

Lemma returns_lift_call_same {B : Type} (f : World -> B * World) :
  ignores set_world p -> returns (same p) (lift (call f)).
Proof. intros Hw. apply returns_lift. intros s. apply call_same, Hw. Qed.

Lemma atclose_walk_same (curr : list (H5_atclose_node_t Func Ctx)) (st : state) :
  ignores set_world p -> ignores set_events p ->
  same p st (atclose_walk curr st).
Proof.
  intros Hw He. revert st. induction curr as [|node next IH]; intros st;
    cbn [atclose_walk]; [reflexivity|].
  eapply same_trans; [|apply IH].
  unfold log_event, call_. eapply same_trans; [apply Hw | apply He].
Qed.

Lemma run_atclose_same (st : state) :
  ignores set_world p -> ignores set_events p -> ignores set_atclose_head p ->
  same p st (run_atclose st).
Proof.
  intros Hw He Hh. unfold run_atclose.
  destruct (H5_atclose_head st) as [|node next]; [reflexivity|].
  eapply same_trans; [apply atclose_walk_same; assumption | apply Hh].
Qed.

Lemma close_debug_streams_same (st : state) :
  ignores set_world p -> ignores set_debug p ->
  same p st (close_debug_streams st).
Proof.
  intros Hw Hd. unfold close_debug_streams.
  eapply same_trans; [|apply Hd].
  generalize (open_stream (H5_debug_g st)). intros l. revert st.
  induction l as [|f l IH]; intros st; cbn [fold_left]; [reflexivity|].
  eapply same_trans; [apply call__same, Hw | apply IH].
Qed.

(** [H5_term_library] writes the two flags, the registry, the record of
    events, the debug configuration, [stderr] and the world of the
    packages; whatever does not depend on these is as it was, whether the
    call returns or aborts. *)
Lemma H5_term_library_same :
  ignores set_libinit p -> ignores set_libterm p -> ignores set_world p ->
  ignores set_events p -> ignores set_atclose_head p ->
  ignores set_stderr_out p -> ignores set_debug p ->
  respects (same p) H5_term_library.
Proof.
  intros Hi Ht Hw He Hh Hs Hd s.
  destruct (H5_libinit_g s) eqn:Hinit;
    [|rewrite (H5_term_library_skip s Hinit); reflexivity].
  rewrite (H5_term_library_run s Hinit).
  assert (Hbefore : same p s (before_sweeps s)).
  { unfold before_sweeps.
    eapply same_trans; [|apply run_atclose_same; assumption].
    eapply same_trans; [apply Ht | apply call__same, Hw]. }
  assert (Hafter : same p s (after_sweeps s)).
  { unfold after_sweeps, log_sweeps.
    eapply same_trans; [exact Hbefore|].
    eapply same_trans; [apply Hw | apply He]. }
  assert (Hrep : same p s (reported_failure s)).
  { unfold reported_failure.
    eapply same_trans; [exact Hafter|].
    eapply same_trans; apply fputs_stderr_same, Hs. }
  assert (Hfin : forall st, same p st (finish_term st)).
  { intros st. unfold finish_term.
    eapply same_trans; [apply close_debug_streams_same; assumption|].
    eapply same_trans; [apply Ht | apply Hi]. }
  destruct (negb (pending (fst (term_loop_result s)) =? 0) && diagnostics_enabled s);
    [destruct (NDEBUG cfg)|]; cbn [final_state].
  - eapply same_trans; [exact Hrep | apply Hfin].
  - exact Hrep.
  - eapply same_trans; [exact Hafter | apply Hfin].
Qed.
End Same.

(** X1.  [H5_term_library] leaves the process-wide bookkeeping alone:
    whether it returns or aborts, the exit routines registered with
    [atexit], the opt-out flag, the "version already checked" flag and the
    override level are what they were before the call. *)
Theorem term_library_keeps_bookkeeping (s : state) :
  atexit_list (final_state (H5_term_library s)) = atexit_list s /\
  H5_dont_atexit_g (final_state (H5_term_library s)) = H5_dont_atexit_g s /\
  checked (final_state (H5_term_library s)) = checked s /\
  disable_version_check (final_state (H5_term_library s)) = disable_version_check s.
Proof.
  repeat apply conj;
    apply (H5_term_library_same (p := _)); intros v st; reflexivity.
Qed.

(** X2.  Termination is idempotent: when a call of [H5_term_library] has
    returned, a second call returns at once and changes nothing.  So the
    exit routine registered with [atexit] does nothing after an explicit
    [H5close], and nothing after the MPI attribute callback
    [H5__mpi_delete_cb] of parallel builds has run the termination. *)
Theorem term_library_idempotent (s s' : state) :
  H5_term_library s = Returned tt s' ->
  H5_term_library s' = Returned tt s' /\
  H5close s' = Returned SUCCEED s' /\
  H5__mpi_delete_cb s' = Returned MPI_SUCCESS s'.
Proof.
  intros Hrun.
  assert (Hinit : H5_libinit_g s' = false).
  { destruct (H5_libinit_g s) eqn:Hi.
    - rewrite (H5_term_library_run s Hi) in Hrun.
      destruct (negb (pending (fst (term_loop_result s)) =? 0) && diagnostics_enabled s);
        [destruct (NDEBUG cfg)|]; try discriminate;
        injection Hrun as <-; apply finish_term_flags.
    - rewrite (H5_term_library_skip s Hi) in Hrun. injection Hrun as <-. exact Hi. }
  pose proof (H5_term_library_skip s' Hinit) as Hskip.
  split; [exact Hskip|].
  unfold H5close, H5__mpi_delete_cb, bind, ret. rewrite Hskip. split; reflexivity.
Qed.

Section SameInit.
Context {A : Type}.
Variable p : state -> A.
Hypothesis p_world : ignores set_world p.

Lemma init_interfaces_same (hooks : list init_hook) :
  returns (same p) (init_interfaces hooks).
Proof.
  induction hooks as [|h rest IH]; cbn [init_interfaces].
  - apply returns_ret, same_refl.
  - apply (returns_bind (@same_trans _ p)); [apply returns_lift_call_same, p_world|].
    intros r. destruct (r <? 0); [apply returns_ret, same_refl | exact IH].
Qed.

Lemma mpi_attach_same : returns (same p) mpi_attach.
Proof.
  unfold mpi_attach.
  apply (returns_bind (@same_trans _ p)); [apply returns_gets, same_refl|].
  intros w. destruct (MPI_Initialized X w && negb (MPI_Finalized X w)).
  - apply (returns_bind (@same_trans _ p)); [apply returns_lift_call_same, p_world|].
    intros ok1. destruct ok1; cbn [negb]; [|apply returns_ret, same_refl].
    apply (returns_bind (@same_trans _ p)); [apply returns_lift_call_same, p_world|].
    intros ok2. destruct ok2; cbn [negb]; [|apply returns_ret, same_refl].
    apply returns_lift_call_same, p_world.
  - apply returns_ret, same_refl.
Qed.

Hypothesis p_debug : ignores set_debug p.
Hypothesis p_stderr : ignores set_stderr_out p.

Lemma debug_word_same (clear : bool) (nm : string) (cur : option FILE) (st : state) :
  same p st (debug_word clear nm cur st).
Proof.
  unfold debug_word.
  repeat match goal with |- context [if ?b then _ else _] => destruct b end;
    try destruct (set_named_stream _ _ _);
    first [apply p_debug | apply fputs_stderr_same, p_stderr].
Qed.

Lemma debug_mask_loop_same (s : string) (cur : option FILE) (st : state) :
  same p st (debug_mask_loop s cur st).
Proof.
  funelim (debug_mask_loop s cur st).
  - apply same_refl.
  - eapply same_trans; [apply debug_word_same | eassumption].
  - match goal with
    | |- context [call (HDfdopen X ?fd) ?st0] =>
        pose proof (call_same (p := p) (HDfdopen X fd) st0 p_world) as Hopen;
        destruct (call (HDfdopen X fd) st0) as [o st1]
    end.
    cbn [snd] in Hopen. destruct o as [f|].
    + pose proof (call_same (p := p) (H5MM_malloc X) (call_ (HDsetvbuf X f) st1) p_world)
        as Halloc.
      pose proof (call__same (p := p) (HDsetvbuf X f) st1 p_world) as Hbuf.
      destruct (call (H5MM_malloc X) (call_ (HDsetvbuf X f) st1)) as [b st2].
      cbn [snd] in Halloc.
      assert (Hst2 : same p st st2)
        by (eapply same_trans; [exact Hopen|];
            eapply same_trans; [exact Hbuf | exact Halloc]).
      destruct b.
      * eapply same_trans; [exact Hst2|].
        eapply same_trans; [|match goal with IH : _ |- _ => apply (IH None st f true st2) end].
        apply p_debug.
      * eapply same_trans; [exact Hst2 | apply call__same, p_world].
    + eapply same_trans;
        [exact Hopen | match goal with IH : _ |- _ => apply (IH None st1) end].
  - assumption.
Qed.

Lemma H5__debug_mask_same (s : option string) (st : state) :
  same p st (H5__debug_mask s st).
Proof.
  destruct s as [str|]; [apply debug_mask_loop_same | apply same_refl].
Qed.

Lemma init_after_atexit_same : returns (same p) init_after_atexit.
Proof.
  unfold init_after_atexit.
  apply (returns_bind (@same_trans _ p)); [apply init_interfaces_same|].
  intros r. destruct (r <? 0); [apply returns_ret, same_refl|].
  apply (returns_bind (@same_trans _ p));
    [apply returns_modify; intros s; apply H5__debug_mask_same|].
  intros _.
  apply (returns_bind (@same_trans _ p)); [apply returns_gets, same_refl|].
  intros env.
  apply (returns_bind (@same_trans _ p));
    [apply returns_modify; intros s; apply H5__debug_mask_same|].
  intros _. apply returns_ret, same_refl.
Qed.
End SameInit.

Section SameCheck.
Context {A : Type}.
Variable p : state -> A.
Hypothesis p_stderr : ignores set_stderr_out p.

Lemma version_mismatch_switch_same (a b c : Z) :
  respects (same p) (version_mismatch_switch a b c).
Proof.
  unfold version_mismatch_switch.
  apply (respects_bind (@same_trans _ p));
    [apply returns_respects, returns_gets, same_refl|].
  intros level. destruct (level =? 0); [|destruct (level =? 1)].
  - repeat (apply (respects_bind (@same_trans _ p));
              [apply returns_respects, returns_modify; intros s;
               apply fputs_stderr_same, p_stderr | intros _]).
    apply respects_abort, same_refl.
  - repeat (apply (respects_bind (@same_trans _ p));
              [apply returns_respects, returns_modify; intros s;
               apply fputs_stderr_same, p_stderr | intros _]).
    apply returns_respects, returns_modify. intros s. apply fputs_stderr_same, p_stderr.
  - apply returns_respects, returns_ret, same_refl.
Qed.

Lemma release_mismatch_switch_same (a b c : Z) :
  respects (same p) (release_mismatch_switch a b c).
Proof.
  unfold release_mismatch_switch.
  apply (respects_bind (@same_trans _ p));
    [apply returns_respects, returns_gets, same_refl|].
  intros level. destruct (level =? 0); [|destruct (level =? 1)].
  - repeat (apply (respects_bind (@same_trans _ p));
              [apply returns_respects, returns_modify; intros s;
               apply fputs_stderr_same, p_stderr | intros _]).
    apply respects_abort, same_refl.
  - repeat (apply (respects_bind (@same_trans _ p));
              [apply returns_respects, returns_modify; intros s;
               apply fputs_stderr_same, p_stderr | intros _]).
    apply returns_respects, returns_modify. intros s. apply fputs_stderr_same, p_stderr.
  - apply returns_respects, returns_ret, same_refl.
Qed.

Lemma release_exceptions_loop_same (ex : list Z) (a b c : Z) :
  respects (same p) (release_exceptions_loop ex a b c).
Proof.
  induction ex as [|e rest IH]; cbn [release_exceptions_loop].
  - apply returns_respects, returns_ret, same_refl.
  - apply (respects_bind (@same_trans _ p)); [|intros _; exact IH].
    apply (respects_when (@same_refl _ p)), release_mismatch_switch_same.
Qed.

Hypothesis p_checked : ignores set_checked p.
Hypothesis p_level : ignores set_disable_version_check p.

Lemma check_version_end_same :
  returns (same p)
    (modify (set_checked true) ;;
     level <- gets (fun st : state => disable_version_check st) ;;
     when_ (level =? 0)
       (when_ (negb (lib_str =? H5_VERS_INFO cfg)%string)
          (modify (fputs_stderr version_info_warning) ;;
           modify (fputs_stderr version_info_details))) ;;
     ret SUCCEED).
Proof.
  apply (returns_bind (@same_trans _ p)); [apply returns_modify; intros s; apply p_checked|].
  intros _. apply (returns_bind (@same_trans _ p)); [apply returns_gets, same_refl|].
  intros level.
  apply (returns_bind (@same_trans _ p)); [|intros _; apply returns_ret, same_refl].
  apply (returns_when (@same_refl _ p)), (returns_when (@same_refl _ p)).
  apply (returns_bind (@same_trans _ p)); [|intros _];
    apply returns_modify; intros s; apply fputs_stderr_same, p_stderr.
Qed.

Lemma read_level_same (s : option string) :
  returns (same p)
    (when_ (starts_with_digit s)
       (modify (set_disable_version_check
          (to_uint (fst (strtol (LONG_MAX cfg)
                           (match s with Some str => str | None => EmptyString end))))))).
Proof. apply (returns_when (@same_refl _ p)), returns_modify. intros st. apply p_level. Qed.

(** [H5_check_version] writes its two statics and [stderr], nothing
    else. *)
Lemma H5_check_version_same (a b c : Z) : respects (same p) (H5_check_version a b c).
Proof.
  unfold H5_check_version.
  apply (respects_bind (@same_trans _ p));
    [apply returns_respects, returns_gets, same_refl|].
  intros already. destruct already; [apply returns_respects, returns_ret, same_refl|].
  apply (respects_bind (@same_trans _ p));
    [apply returns_respects, returns_gets, same_refl|].
  intros s.
  apply (respects_bind (@same_trans _ p));
    [apply returns_respects, read_level_same | intros _].
  apply (respects_bind (@same_trans _ p));
    [apply (respects_when (@same_refl _ p)), version_mismatch_switch_same | intros _].
  apply (respects_bind (@same_trans _ p));
    [apply (respects_when (@same_refl _ p)), release_exceptions_loop_same | intros _].
  apply returns_respects, check_version_end_same.
Qed.

Lemma H5_check_version_own_same :
  returns (same p)
    (H5_check_version (H5_VERS_MAJOR cfg) (H5_VERS_MINOR cfg) (H5_VERS_RELEASE cfg)).
Proof.
  unfold H5_check_version.
  apply (returns_bind (@same_trans _ p)); [apply returns_gets, same_refl|].
  intros already. destruct already; [apply returns_ret, same_refl|].
  apply (returns_bind (@same_trans _ p)); [apply returns_gets, same_refl|].
  intros s.
  apply (returns_bind (@same_trans _ p)); [apply read_level_same | intros _].
  rewrite !Z.eqb_refl. cbn [negb orb when_].
  apply (returns_bind (@same_trans _ p)); [apply returns_ret, same_refl | intros _].
  apply (returns_bind (@same_trans _ p)); [apply returns_ret, same_refl | intros _].
  apply check_version_end_same.
Qed.
End SameCheck.

(* --------------------------------------------------------------- *)
(** *** Initialisation, step by step *)

Lemma bind_returned {A B : Type} (m : M state A) (k : A -> M state B)
    (s s' : state) (b : B) :
  bind m k s = Returned b s' ->
  exists a s1, m s = Returned a s1 /\ k a s1 = Returned b s'.
Proof.
  unfold bind. destruct (m s) as [a s1|s1]; [|discriminate].
  intros H. exists a, s1. split; [reflexivity | exact H].
Qed.

(** A call of [H5_init_library] that finds the library neither
    initialised nor terminating: the version check returns in [s1]; the
    MPI block, run with the library marked initialised, ends in [s2]; when
    it fails the call returns [FAIL] there, and otherwise goes on from
    [s2] with the debug configuration cleared and the exit routines
    registered. *)
Lemma H5_init_library_steps (s : state) :
  H5_libinit_g s || H5_libterm_g s = false ->
  exists r0 s1 ok s2,
    H5_check_version (H5_VERS_MAJOR cfg) (H5_VERS_MINOR cfg) (H5_VERS_RELEASE cfg) s
      = Returned r0 s1 /\
    (if H5_HAVE_PARALLEL cfg then mpi_attach else ret true) (set_libinit true s1)
      = Returned ok s2 /\
    H5_init_library s =
      if ok then init_after_atexit (register_atexit_hooks (set_debug cleared_debug s2))
      else Returned FAIL s2.
Proof.
  intros Hg.
  assert (Hrun : H5_init_library s =
            (H5_check_version (H5_VERS_MAJOR cfg) (H5_VERS_MINOR cfg) (H5_VERS_RELEASE cfg) ;;
             modify (set_libinit true) ;; init_after_flag) s).
  { unfold H5_init_library. unfold bind at 1. unfold gets at 1. rewrite Hg. reflexivity. }
  destruct (H5_check_version_own s) as [r0 [s1 [E1 _]]].
  assert (Hmpi : returns steady (if H5_HAVE_PARALLEL cfg then mpi_attach else ret true)).
  { destruct (H5_HAVE_PARALLEL cfg); [apply mpi_attach_steady | apply returns_ret, steady_refl]. }
  destruct (Hmpi (set_libinit true s1)) as [ok [s2 [E2 _]]].
  exists r0, s1, ok, s2. split; [exact E1|]. split; [exact E2|].
  rewrite Hrun. unfold bind at 1. rewrite E1.
  unfold bind, modify. rewrite init_after_flag_run, E2. reflexivity.
Qed.

(** What initialisation does not depend on: anything but the flags
    [H5_libinit_g] and [H5_dont_atexit_g], the exit routines, the statics
    of the version check, the debug configuration, [stderr] and the
    world. *)
Lemma H5_init_library_same {A : Type} (p : state -> A) :
  ignores set_libinit p -> ignores set_dont_atexit p -> ignores set_atexit_list p ->
  ignores set_checked p -> ignores set_disable_version_check p ->
  ignores set_debug p -> ignores set_stderr_out p -> ignores set_world p ->
  returns (same p) H5_init_library.
Proof.
  intros Hi Hf Ha Hc Hl Hd Hs Hw s.
  destruct (H5_libinit_g s || H5_libterm_g s) eqn:Hg.
  - rewrite (H5_init_library_noop s Hg). exists SUCCEED, s. split; reflexivity.
  - destruct (H5_init_library_steps s Hg) as (r0 & s1 & ok & s2 & E1 & E2 & ->).
    assert (H1 : same p s s1).
    { destruct (H5_check_version_own_same Hs Hc Hl s) as [r [s1' [E H]]].
      rewrite E in E1. injection E1 as _ <-. exact H. }
    assert (H2 : same p s s2).
    { assert (Hmpi : returns (same p) (if H5_HAVE_PARALLEL cfg then mpi_attach else ret true)).
      { destruct (H5_HAVE_PARALLEL cfg);
          [apply mpi_attach_same, Hw | apply returns_ret, same_refl]. }
      destruct (Hmpi (set_libinit true s1)) as [ok' [s2' [E H]]].
      rewrite E in E2. injection E2 as _ <-.
      eapply same_trans; [exact H1|]. eapply same_trans; [apply Hi | exact H]. }
    destruct ok.
    + destruct (init_after_atexit_same Hw Hd Hs
                  (register_atexit_hooks (set_debug cleared_debug s2)))
        as [r [s3 [E H3]]].
      exists r, s3. split; [exact E|].
      eapply same_trans; [exact H2|]. eapply same_trans; [|exact H3].
      eapply same_trans; [apply Hd|].
      unfold register_atexit_hooks.
      destruct (H5_dont_atexit_g (set_debug cleared_debug s2)); [reflexivity|].
      eapply same_trans; [|apply Hf]. unfold atexit.
      eapply same_trans; [|apply Ha].
      destruct (H5_HAVE_THREADSAFE_API cfg); [apply Ha | reflexivity].
    + exists FAIL, s2. split; [reflexivity | exact H2].
Qed.

(** Entering a public function either finds the library initialised (or
    terminating) and does nothing, or runs [H5_init_library], which leaves
    the library marked initialised. *)
Lemma FUNC_ENTER_API_cases (s : state) :
  exists r s', FUNC_ENTER_API s = Returned r s' /\
    ((H5_libinit_g s || H5_libterm_g s = true /\ r = SUCCEED /\ s' = s) \/
     (H5_libinit_g s || H5_libterm_g s = false /\ H5_libinit_g s' = true /\
      exists r0, H5_init_library s = Returned r0 s' /\
                 r = if r0 <? 0 then FAIL else SUCCEED)).
Proof.
  unfold FUNC_ENTER_API, H5__init_package.
  unfold bind at 1. unfold gets at 1.
  destruct (H5_libinit_g s || H5_libterm_g s) eqn:Hg.
  - assert (E : negb (H5_libinit_g s) && negb (H5_libterm_g s) = false).
    { destruct (H5_libinit_g s), (H5_libterm_g s); try reflexivity; discriminate. }
    rewrite E. exists SUCCEED, s. split; [reflexivity|]. left. repeat split.
  - assert (E : negb (H5_libinit_g s) && negb (H5_libterm_g s) = true).
    { destruct (H5_libinit_g s), (H5_libterm_g s); try reflexivity; discriminate. }
    rewrite E.
    destruct (H5_init_library_runs s Hg) as [r [s' [Hrun (Hinit & _)]]].
    unfold bind. rewrite Hrun.
    exists (if r <? 0 then FAIL else SUCCEED), s'.
    split; [destruct (r <? 0); reflexivity|].
    right. split; [reflexivity|]. split; [exact Hinit|].
    exists r. split; reflexivity.
Qed.

Lemma FUNC_ENTER_API_same {A : Type} (p : state -> A) :
  ignores set_libinit p -> ignores set_dont_atexit p -> ignores set_atexit_list p ->
  ignores set_checked p -> ignores set_disable_version_check p ->
  ignores set_debug p -> ignores set_stderr_out p -> ignores set_world p ->
  returns (same p) FUNC_ENTER_API.
Proof.
  intros Hi Hf Ha Hc Hl Hd Hs Hw s.
  destruct (FUNC_ENTER_API_cases s) as [r [s' [E [(_ & _ & ->)|(_ & _ & r0 & E0 & _)]]]].
  - exists r, s. split; [exact E | reflexivity].
  - exists r, s'. split; [exact E|].
    destruct (H5_init_library_same Hi Hf Ha Hc Hl Hd Hs Hw s) as [r1 [s1 [E1 H]]].
    rewrite E1 in E0. injection E0 as _ <-. exact H.
Qed.

(* --------------------------------------------------------------- *)
(** *** The exit routines *)

Lemma same_exit_step (s s' : state) : same exit_view s s' -> exit_step s s'.
Proof. unfold same, exit_view. intros [= H1 H2]. left. split; assumption. Qed.

Lemma exit_step_refl (s : state) : exit_step s s.
Proof. left. split; reflexivity. Qed.

Lemma exit_step_trans (a b c : state) : exit_step a b -> exit_step b c -> exit_step a c.
Proof.
  intros [[F1 L1]|(F1 & F1' & L1)] [[F2 L2]|(F2 & F2' & L2)].
  - left. split; congruence.
  - right. rewrite <- F1, <- L1. auto.
  - right. rewrite F2, L2. auto.
  - congruence.
Qed.

Lemma register_atexit_hooks_list (st : state) :
  atexit_list (register_atexit_hooks st) =
    if H5_dont_atexit_g st then atexit_list st
    else (atexit_list st ++ exit_routines)%list.
Proof.
  unfold register_atexit_hooks, exit_routines.
  destruct (H5_dont_atexit_g st); [reflexivity|].
  destruct (H5_HAVE_THREADSAFE_API cfg); cbn; [rewrite <- app_assoc|]; reflexivity.
Qed.

Lemma register_atexit_hooks_exit (st : state) : exit_step st (register_atexit_hooks st).
Proof.
  destruct (H5_dont_atexit_g st) eqn:E.
  - unfold register_atexit_hooks. rewrite E. apply exit_step_refl.
  - right. split; [exact E|]. split; [apply register_atexit_hooks_sets|].
    right. rewrite register_atexit_hooks_list, E. reflexivity.
Qed.

Ltac ignored := intros ? ?; reflexivity.

(** Initialisation as the exit routines see it: when the MPI block fails
    nothing is registered and the flag is as it was; otherwise the flag
    and the list are those the [atexit] block makes of the ones found. *)
Lemma H5_init_library_exit (s : state) :
  H5_libinit_g s || H5_libterm_g s = false ->
  exists r s', H5_init_library s = Returned r s' /\
    (exit_view s' = exit_view (register_atexit_hooks s) \/
     (r = FAIL /\ H5_HAVE_PARALLEL cfg = true /\ exit_view s' = exit_view s)).
Proof.
  intros Hg.
  destruct (H5_init_library_steps s Hg) as (r0 & s1 & ok & s2 & E1 & E2 & ->).
  assert (H1 : same exit_view s s1).
  { destruct (H5_check_version_own_same (p := exit_view)
                ltac:(ignored) ltac:(ignored) ltac:(ignored) s) as [r [s1' [E H]]].
    rewrite E in E1. injection E1 as _ <-. exact H. }
  assert (H2 : same exit_view s s2 /\ (ok = false -> H5_HAVE_PARALLEL cfg = true)).
  { destruct (H5_HAVE_PARALLEL cfg).
    - destruct (mpi_attach_same (p := exit_view) ltac:(ignored) (set_libinit true s1))
        as [ok' [s2' [E H]]].
      rewrite E in E2. injection E2 as <- <-.
      split; [|reflexivity]. eapply same_trans; [exact H1 | exact H].
    - injection E2 as <- <-. split; [exact H1 | discriminate]. }
  destruct H2 as [H2 Hpar]. destruct ok.
  - destruct (init_after_atexit_same (p := exit_view)
                ltac:(ignored) ltac:(ignored) ltac:(ignored)
                (register_atexit_hooks (set_debug cleared_debug s2)))
      as [r [s3 [E H3]]].
    exists r, s3. split; [exact E|]. left.
    unfold same in H3. rewrite H3.
    unfold exit_view. rewrite !register_atexit_hooks_sets, !register_atexit_hooks_list.
    unfold same, exit_view in H2. cbn [H5_dont_atexit_g atexit_list set_debug].
    injection H2 as -> ->. reflexivity.
  - exists FAIL, s2. split; [reflexivity|]. right.
    split; [reflexivity|]. split; [apply Hpar; reflexivity | exact H2].
Qed.

Lemma FUNC_ENTER_API_exit : returns exit_step FUNC_ENTER_API.
Proof.
  intros s.
  destruct (FUNC_ENTER_API_cases s) as [r [s' [E [(_ & _ & ->)|(Hg & _ & r0 & E0 & _)]]]].
  - exists r, s. split; [exact E | apply exit_step_refl].
  - exists r, s'. split; [exact E|].
    destruct (H5_init_library_exit s Hg) as [r1 [s1 [E1 H]]].
    rewrite E1 in E0. injection E0 as _ <-.
    destruct H as [H|(_ & _ & H)].
    + pose proof (register_atexit_hooks_exit s) as Hreg.
      eapply exit_step_trans; [exact Hreg|]. apply same_exit_step. exact H.
    + apply same_exit_step. exact H.
Qed.

Lemma run_call_exit (c : api_call) : respects exit_step (run_call c).
Proof.
  assert (Hret : forall (B : Type) (b : B), respects exit_step (@ret state B b))
    by (intros B b; apply returns_respects, returns_ret, exit_step_refl).
  assert (Hcall : forall (B : Type) (f : World -> B * World),
             respects exit_step (lift (call f))).
  { intros B f. apply returns_respects, returns_lift. intros s.
    apply same_exit_step, call_same. ignored. }
  destruct c as [| | |f c|a b r|]; cbn [run_call].
  - unfold H5open. apply (respects_bind exit_step_trans).
    + apply returns_respects, FUNC_ENTER_API_exit.
    + intros r. destruct (r <? 0); apply Hret.
  - unfold H5close. apply (respects_bind exit_step_trans).
    + intros s. apply same_exit_step.
      apply (H5_term_library_same (p := exit_view)); ignored.
    + intros _. apply Hret.
  - unfold H5dont_atexit. intros s. unfold bind, gets.
    destruct (H5_dont_atexit_g s) eqn:E; cbn [final_state ret modify].
    + apply exit_step_refl.
    + right. split; [exact E|]. split; [reflexivity|]. left. reflexivity.
  - unfold H5atclose. apply (respects_bind exit_step_trans).
    + apply returns_respects, FUNC_ENTER_API_exit.
    + intros r. destruct (r <? 0); [apply Hret|].
      destruct f as [fn|]; [|apply Hret].
      apply (respects_bind exit_step_trans); [apply Hcall|].
      intros ok. destruct ok; cbn [negb]; [|apply Hret].
      apply (respects_bind exit_step_trans); [|intros _; apply Hret].
      apply returns_respects, returns_modify. intros s.
      apply same_exit_step. reflexivity.
  - unfold H5check_version. apply (respects_bind exit_step_trans).
    + intros s. apply same_exit_step.
      apply (H5_check_version_same (p := exit_view)); ignored.
    + intros _. apply Hret.
  - unfold H5garbage_collect. apply (respects_bind exit_step_trans).
    + apply returns_respects, FUNC_ENTER_API_exit.
    + intros r. destruct (r <? 0); [apply Hret|].
      apply (respects_bind exit_step_trans); [apply Hcall|].
      intros g. destruct (g <? 0); apply Hret.
Qed.

Lemma run_calls_exit (cs : list api_call) : respects exit_step (run_calls cs).
Proof.
  induction cs as [|c rest IH]; cbn [run_calls].
  - apply returns_respects, returns_ret, exit_step_refl.
  - apply (respects_bind exit_step_trans); [apply run_call_exit|].
    intros r. apply (respects_bind exit_step_trans); [exact IH|].
    intros rs. apply returns_respects, returns_ret, exit_step_refl.
Qed.

Lemma exit_routines_NoDup : NoDup exit_routines.
Proof.
  unfold exit_routines. destruct (H5_HAVE_THREADSAFE_API cfg); cbn.
  - constructor; [cbn; intros [H|[]]; discriminate|].
    constructor; [intros []|constructor].
  - constructor; [intros []|constructor].
Qed.

(** X3.  Over any sequence of calls of the public functions, whether it
    runs to its end or is cut short by an abort, the library registers its
    exit routines at most once.  Starting from a state where nothing is
    registered while the opt-out flag is clear (as in a fresh process),
    the list passed to [atexit] never holds a routine twice, it is still
    empty whenever the flag is still clear, and it is either what it was
    or exactly [exit_routines] -- [H5TS_term_package] first in a
    thread-safe build, then [H5_term_library]. *)
Theorem exit_routines_registered_once (cs : list api_call) (s : state) :
  (H5_dont_atexit_g s = false -> atexit_list s = []) ->
  NoDup (atexit_list s) ->
  NoDup (atexit_list (final_state (run_calls cs s))) /\
  (H5_dont_atexit_g (final_state (run_calls cs s)) = false ->
   atexit_list (final_state (run_calls cs s)) = []) /\
  (atexit_list (final_state (run_calls cs s)) = atexit_list s \/
   atexit_list (final_state (run_calls cs s)) = exit_routines).
Proof.
  intros Hclear Hnd.
  destruct (run_calls_exit cs s) as [[F L]|(F & F' & [L|L])].
  - rewrite L, F. split; [exact Hnd|]. split; [exact Hclear | left; reflexivity].
  - rewrite L. split; [exact Hnd|]. split; [congruence | left; reflexivity].
  - rewrite L, (Hclear F). cbn [app].
    split; [apply exit_routines_NoDup|]. split; [congruence | right; reflexivity].
Qed.

(** X4.  The opt-out is honoured: from a state with [H5_dont_atexit_g]
    set, no sequence of calls adds an exit routine; and whatever the
    state, once [H5dont_atexit] has been called -- successfully or not --
    no later call does, initialisations and re-initialisations
    included. *)
Theorem opt_out_blocks_registration (cs : list api_call) (s : state) :
  (H5_dont_atexit_g s = true ->
   atexit_list (final_state (run_calls cs s)) = atexit_list s) /\
  atexit_list (final_state (run_calls (Call_H5dont_atexit :: cs) s)) = atexit_list s.
Proof.
  assert (Hset : forall s0 : state, H5_dont_atexit_g s0 = true ->
            atexit_list (final_state (run_calls cs s0)) = atexit_list s0).
  { intros s0 Hf.
    destruct (run_calls_exit cs s0) as [[_ L]|(F & _)]; [exact L | congruence]. }
  split; [apply Hset|].
  cbn [run_calls run_call]. unfold bind at 1.
  assert (Hcall : exists r s1, H5dont_atexit s = Returned r s1 /\
                    H5_dont_atexit_g s1 = true /\ atexit_list s1 = atexit_list s).
  { unfold H5dont_atexit, bind, gets.
    destruct (H5_dont_atexit_g s) eqn:E; eexists; eexists;
      (split; [reflexivity|]); split; try reflexivity; exact E. }
  destruct Hcall as [r [s1 [-> [Hf <-]]]].
  rewrite <- (Hset s1 Hf). unfold bind.
  destruct (run_calls cs s1); reflexivity.
Qed.

(** X5.  The order of registration.  A call of [H5_init_library] that
    runs (library neither initialised nor terminating) with the opt-out
    flag clear and returns success has passed to [atexit], after whatever
    was registered before, [H5TS_term_package] in a thread-safe build and
    then [H5_term_library], in this order -- so that under the LIFO order
    of [atexit] the thread package is torn down last.  The same holds of a
    call that fails in one of the interface initialisations; a call that
    fails in the MPI block has registered nothing. *)
Theorem init_registers_exit_routines (s s' : state) (r : herr_t) :
  H5_libinit_g s || H5_libterm_g s = false ->
  H5_dont_atexit_g s = false ->
  H5_init_library s = Returned r s' ->
  (0 <= r ->
   atexit_list s' =
     (atexit_list s ++
      (if H5_HAVE_THREADSAFE_API cfg
       then [atexit_H5TS_term_package; atexit_H5_term_library]
       else [atexit_H5_term_library]))%list /\
   H5_dont_atexit_g s' = true) /\
  (atexit_list s' = (atexit_list s ++ exit_routines)%list \/
   (r = FAIL /\ H5_HAVE_PARALLEL cfg = true /\ atexit_list s' = atexit_list s /\
    H5_dont_atexit_g s' = false)).
Proof.
  intros Hg Hf Hrun.
  destruct (H5_init_library_exit s Hg) as [r1 [s1 [E H]]].
  rewrite E in Hrun. injection Hrun as -> ->.
  assert (Hreg : exit_view (register_atexit_hooks s)
                 = (true, (atexit_list s ++ exit_routines)%list)).
  { unfold exit_view.
    rewrite register_atexit_hooks_sets, register_atexit_hooks_list, Hf. reflexivity. }
  assert (Hlist : (atexit_list s ++ exit_routines)%list =
            (atexit_list s ++
             (if H5_HAVE_THREADSAFE_API cfg
              then [atexit_H5TS_term_package; atexit_H5_term_library]
              else [atexit_H5_term_library]))%list).
  { unfold exit_routines. destruct (H5_HAVE_THREADSAFE_API cfg); reflexivity. }
  destruct H as [H|(Hr & Hpar & H)].
  - rewrite Hreg in H. unfold exit_view in H. injection H as H1 H2.
    split; [intros _; rewrite H2, Hlist; split; [reflexivity | exact H1]|].
    left. exact H2.
  - unfold exit_view in H. injection H as H1 H2.
    split; [intros Hr0; subst r; unfold FAIL in Hr0; lia|].
    right. repeat apply conj; try assumption. congruence.
Qed.

(** X6.  A failed initialisation is not undone and not retried.  When a
    call of [H5_init_library] that ran returns a failure, the library is
    left marked initialised: calling it again, and entering the library
    through [H5open], return [SUCCEED] at once and change nothing.  The
    state it is left in is one of two.  Either the MPI block failed (in a
    parallel build): the debug configuration and the opt-out flag are as
    they were.  Or an interface failed to initialise: the debug
    configuration is the cleared one, with the names of the packages and
    no stream -- neither ["-all"] nor [HDF5_DEBUG] was applied -- and the
    opt-out flag is set. *)
Theorem failed_init_not_retried (s s' : state) (r : herr_t) :
  H5_libinit_g s || H5_libterm_g s = false ->
  H5_init_library s = Returned r s' ->
  r < 0 ->
  H5_libinit_g s' = true /\
  H5_init_library s' = Returned SUCCEED s' /\
  H5open s' = Returned SUCCEED s' /\
  ((H5_HAVE_PARALLEL cfg = true /\ H5_debug_g s' = H5_debug_g s /\
    H5_dont_atexit_g s' = H5_dont_atexit_g s) \/
   (H5_debug_g s' = cleared_debug /\ H5_dont_atexit_g s' = true)).
Proof.
  intros Hg Hrun Hr.
  assert (Hinit : H5_libinit_g s' = true).
  { destruct (H5_init_library_runs s Hg) as [r1 [s1 [E (Hinit & _)]]].
    rewrite E in Hrun. injection Hrun as _ <-. exact Hinit. }
  split; [exact Hinit|]. split; [|split].
  - apply H5_init_library_noop. rewrite Hinit. reflexivity.
  - unfold H5open, FUNC_ENTER_API, H5__init_package, bind, gets.
    rewrite Hinit. reflexivity.
  - destruct (H5_init_library_steps s Hg) as (r0 & s1 & ok & s2 & E1 & E2 & E).
    rewrite Hrun in E. symmetry in E.
    assert (Hsame : forall (B : Type) (p : state -> B),
               ignores set_stderr_out p -> ignores set_checked p ->
               ignores set_disable_version_check p -> ignores set_libinit p ->
               ignores set_world p ->
               same p s s2 /\ (ok = false -> H5_HAVE_PARALLEL cfg = true)).
    { intros B p Hs Hc Hl Hi Hw.
      assert (H1 : same p s s1).
      { destruct (H5_check_version_own_same Hs Hc Hl s) as [r' [s1' [E' H]]].
        rewrite E' in E1. injection E1 as _ <-. exact H. }
      destruct (H5_HAVE_PARALLEL cfg).
      - destruct (mpi_attach_same Hw (set_libinit true s1)) as [ok' [s2' [E' H]]].
        rewrite E' in E2. injection E2 as _ <-. split; [|reflexivity].
        eapply same_trans; [exact H1|]. eapply same_trans; [apply Hi | exact H].
      - injection E2 as <- <-. split; [|discriminate].
        eapply same_trans; [exact H1 | apply Hi]. }
    destruct ok.
    + right.
      set (st0 := register_atexit_hooks (set_debug cleared_debug s2)) in *.
      assert (H0 : H5_debug_g st0 = cleared_debug /\ H5_dont_atexit_g st0 = true).
      { split; [|apply register_atexit_hooks_sets].
        unfold st0, register_atexit_hooks.
        destruct (H5_dont_atexit_g (set_debug cleared_debug s2)); [reflexivity|].
        destruct (H5_HAVE_THREADSAFE_API cfg); reflexivity. }
      unfold init_after_atexit in E. apply bind_returned in E.
      destruct E as (r1 & st1 & E3 & Hk).
      destruct (r1 <? 0).
      * injection Hk as _ <-.
        destruct (init_interfaces_same (p := fun st : state => H5_debug_g st)
                    ltac:(ignored) interface_order st0) as [ra [sa [Ea Ha]]].
        destruct (init_interfaces_same (p := fun st : state => H5_dont_atexit_g st)
                    ltac:(ignored) interface_order st0) as [rb [sb [Eb Hb]]].
        rewrite E3 in Ea, Eb. injection Ea as _ <-. injection Eb as _ <-.
        unfold same in Ha, Hb. destruct H0 as [D F]. split; congruence.
      * unfold bind, modify, gets, ret in Hk. injection Hk as <- _.
        unfold SUCCEED in Hr. lia.
    + left. injection E as _ <-.
      destruct (Hsame _ (fun st : state => H5_debug_g st)) as [H1 Hpar]; try ignored.
      destruct (Hsame _ (fun st : state => H5_dont_atexit_g st)) as [H2 _]; try ignored.
      split; [apply Hpar; reflexivity|]. split; assumption.
Qed.

(** X7.  In a parallel build, when MPI is initialised and not finalised
    and one of the three MPI calls fails, [H5_init_library] returns [FAIL]
    with the library marked initialised and the version marked checked,
    and it has stopped before the rest of its work: no exit routine is
    registered, the opt-out flag and the debug configuration are as they
    were (the package names are not filled in), and no interface was
    initialised. *)
Theorem mpi_failure_stops_init (s : state) :
  H5_libinit_g s || H5_libterm_g s = false ->
  H5_HAVE_PARALLEL cfg = true ->
  MPI_Initialized X (world s) && negb (MPI_Finalized X (world s)) = true ->
  mpi_call_fails (world s) = true ->
  exists s',
    H5_init_library s = Returned FAIL s' /\
    H5_libinit_g s' = true /\
    atexit_list s' = atexit_list s /\
    H5_dont_atexit_g s' = H5_dont_atexit_g s /\
    H5_debug_g s' = H5_debug_g s /\
    H5_atclose_head s' = H5_atclose_head s.
Proof.
  intros Hg Hpar Hmpi Hfail.
  destruct (H5_init_library_steps s Hg) as (r0 & s1 & ok & s2 & E1 & E2 & ->).
  rewrite Hpar in E2.
  assert (Hsame : forall (B : Type) (p : state -> B),
             ignores set_stderr_out p -> ignores set_checked p ->
             ignores set_disable_version_check p -> same p s s1).
  { intros B p Hs Hc Hl.
    destruct (H5_check_version_own_same Hs Hc Hl s) as [r [s1' [E H]]].
    rewrite E in E1. injection E1 as _ <-. exact H. }
  assert (Hw : world (set_libinit true s1) = world s)
    by (apply (Hsame _ (fun st : state => world st)); ignored).
  assert (Hok : ok = false).
  { unfold mpi_attach, mpi_call_fails in *.
    unfold bind at 1 in E2. unfold gets at 1 in E2.
    rewrite Hw, Hmpi in E2.
    unfold bind at 1 in E2. unfold lift at 1 in E2. unfold call at 1 in E2.
    rewrite Hw in E2.
    destruct (MPI_Comm_create_keyval X (world s)) as [ok1 w1].
    destruct ok1; cbn [negb] in *; [|injection E2 as <- _; reflexivity].
    unfold bind at 1 in E2. unfold lift at 1 in E2. unfold call at 1 in E2.
    cbn [world set_world] in E2.
    destruct (MPI_Comm_set_attr X w1) as [ok2 w2].
    destruct ok2; cbn [negb] in *; [|injection E2 as <- _; reflexivity].
    unfold lift, call in E2. cbn [world set_world] in E2.
    destruct (MPI_Comm_free_keyval X w2) as [ok3 w3]. cbn [fst] in Hfail.
    injection E2 as <- _. destruct ok3; [discriminate | reflexivity]. }
  subst ok. exists s2. split; [reflexivity|].
  assert (Hsame2 : forall (B : Type) (p : state -> B),
             ignores set_stderr_out p -> ignores set_checked p ->
             ignores set_disable_version_check p -> ignores set_libinit p ->
             ignores set_world p -> same p s s2).
  { intros B p Hs Hc Hl Hi Hwd.
    destruct (mpi_attach_same Hwd (set_libinit true s1)) as [ok' [s2' [E H]]].
    rewrite E in E2. injection E2 as _ <-.
    eapply same_trans; [apply (Hsame _ p); assumption|].
    eapply same_trans; [apply Hi | exact H]. }
  split.
  - destruct (mpi_attach_steady (set_libinit true s1)) as [ok' [s2' [E H]]].
    rewrite E in E2. injection E2 as _ <-. destruct H as (H & _). rewrite H. reflexivity.
  - repeat apply conj.
    + apply (Hsame2 _ (fun st : state => atexit_list st)); ignored.
    + apply (Hsame2 _ (fun st : state => H5_dont_atexit_g st)); ignored.
    + apply (Hsame2 _ (fun st : state => H5_debug_g st)); ignored.
    + apply (Hsame2 _ (fun st : state => H5_atclose_head st)); ignored.
Qed.

(* --------------------------------------------------------------- *)
(** *** The life cycle over sequences of calls *)

(** A call of [H5_term_library] that finds the library initialised and
    returns. *)
Lemma H5_term_library_returned (s s' : state) :
  H5_libinit_g s = true ->
  H5_term_library s = Returned tt s' ->
  H5_libinit_g s' = false /\ H5_libterm_g s' = false /\
  H5_atclose_head s' = [] /\ open_stream (H5_debug_g s') = [].
Proof.
  intros Hinit Hrun.
  destruct (H5_term_library_final s Hinit) as (_ & Hhead & _).
  rewrite Hrun in Hhead. cbn [final_state] in Hhead.
  rewrite (H5_term_library_run s Hinit) in Hrun.
  assert (Hfin : exists st, s' = finish_term st).
  { destruct (negb (pending (fst (term_loop_result s)) =? 0) && diagnostics_enabled s);
      [destruct (NDEBUG cfg)|]; try discriminate; injection Hrun as <-; eexists; reflexivity. }
  destruct Hfin as [st ->].
  repeat apply conj; try reflexivity. exact Hhead.
Qed.

Lemma FUNC_ENTER_API_lifecycle (s s' : state) (r : herr_t) :
  lifecycle_inv s ->
  FUNC_ENTER_API s = Returned r s' ->
  H5_libinit_g s' = true /\ H5_libterm_g s' = false.
Proof.
  intros [Hterm _] Hrun.
  destruct (FUNC_ENTER_API_spec s) as [r1 [s1 [E (Ht & _)]]].
  destruct (FUNC_ENTER_API_cases s) as [r2 [s2 [E' [(Hg & _ & ->)|(_ & Hi & _)]]]];
    rewrite E in E'; injection E' as <- <-; rewrite E in Hrun; injection Hrun as <- <-.
  - rewrite Hterm, orb_false_r in Hg. split; assumption.
  - split; [exact Hi | congruence].
Qed.

Lemma lifecycle_initialized (s : state) :
  H5_libinit_g s = true -> H5_libterm_g s = false -> lifecycle_inv s.
Proof. intros Hi Ht. split; [exact Ht | congruence]. Qed.

Lemma run_call_lifecycle (c : api_call) (s s' : state) (r : herr_t) :
  lifecycle_inv s -> run_call c s = Returned r s' -> lifecycle_inv s'.
Proof.
  intros Hinv Hrun. destruct c as [| | |f c|a b v|]; cbn [run_call] in Hrun.
  - unfold H5open in Hrun. apply bind_returned in Hrun.
    destruct Hrun as (r0 & s1 & E & Hk).
    destruct (FUNC_ENTER_API_lifecycle Hinv E) as [Hi Ht].
    destruct (r0 <? 0); injection Hk as _ <-; apply lifecycle_initialized; assumption.
  - unfold H5close in Hrun. apply bind_returned in Hrun.
    destruct Hrun as ([] & s1 & E & Hk). injection Hk as _ <-.
    destruct (H5_libinit_g s) eqn:Hi.
    + destruct (H5_term_library_returned s Hi E) as (H1 & H2 & H3 & H4).
      split; [exact H2 | intros _; split; assumption].
    + rewrite (H5_term_library_skip s Hi) in E. injection E as <-. exact Hinv.
  - unfold H5dont_atexit, bind, gets in Hrun.
    destruct (H5_dont_atexit_g s); injection Hrun as _ <-; exact Hinv.
  - unfold H5atclose in Hrun. apply bind_returned in Hrun.
    destruct Hrun as (r0 & s1 & E & Hk).
    destruct (FUNC_ENTER_API_lifecycle Hinv E) as [Hi Ht].
    destruct (r0 <? 0);
      [injection Hk as _ <-; apply lifecycle_initialized; assumption|].
    destruct f as [fn|];
      [|injection Hk as _ <-; apply lifecycle_initialized; assumption].
    apply bind_returned in Hk. destruct Hk as (ok & s2 & E2 & Hk).
    assert (H2 : H5_libinit_g s2 = true /\ H5_libterm_g s2 = false).
    { unfold lift in E2. pose proof (call_steady (H5FL_MALLOC X) s1) as Hs.
      destruct (call (H5FL_MALLOC X) s1) as [ok' s2']. injection E2 as _ <-.
      cbn [snd] in Hs. destruct Hs as (S1 & S2 & _). split; congruence. }
    destruct H2 as [Hi2 Ht2].
    destruct ok; cbn [negb] in Hk; injection Hk as _ <-;
      apply lifecycle_initialized; assumption.
  - unfold H5check_version in Hrun. apply bind_returned in Hrun.
    destruct Hrun as (r0 & s1 & E & Hk). injection Hk as _ <-.
    pose proof (H5_check_version_steady a b v s) as Hs.
    pose proof (H5_check_version_same (p := fun st : state => open_stream (H5_debug_g st))
                  ltac:(ignored) ltac:(ignored) ltac:(ignored) a b v s) as Hd.
    rewrite E in Hs, Hd. cbn [final_state] in Hs, Hd. unfold same in Hd.
    destruct Hs as (S1 & S2 & S3 & _). destruct Hinv as [Ht Hrest].
    split; [congruence|]. rewrite S1, S3, Hd. exact Hrest.
  - unfold H5garbage_collect in Hrun. apply bind_returned in Hrun.
    destruct Hrun as (r0 & s1 & E & Hk).
    destruct (FUNC_ENTER_API_lifecycle Hinv E) as [Hi Ht].
    destruct (r0 <? 0);
      [injection Hk as _ <-; apply lifecycle_initialized; assumption|].
    apply bind_returned in Hk. destruct Hk as (g & s2 & E2 & Hk).
    assert (H2 : H5_libinit_g s2 = true /\ H5_libterm_g s2 = false).
    { unfold lift in E2. pose proof (call_steady (H5FL_garbage_coll X) s1) as Hs.
      destruct (call (H5FL_garbage_coll X) s1) as [g' s2']. injection E2 as _ <-.
      cbn [snd] in Hs. destruct Hs as (S1 & S2 & _). split; congruence. }
    destruct H2 as [Hi2 Ht2].
    destruct (g <? 0); injection Hk as _ <-; apply lifecycle_initialized; assumption.
Qed.

Lemma run_calls_lifecycle (cs : list api_call) (s s' : state) (rs : list herr_t) :
  lifecycle_inv s -> run_calls cs s = Returned rs s' -> lifecycle_inv s'.
Proof.
  revert s rs. induction cs as [|c rest IH]; intros s rs Hinv Hrun; cbn [run_calls] in Hrun.
  - injection Hrun as _ <-. exact Hinv.
  - apply bind_returned in Hrun. destruct Hrun as (r & s1 & E & Hk).
    apply bind_returned in Hk. destruct Hk as (rs' & s2 & E2 & Hk).
    injection Hk as _ <-.
    apply (IH s1 rs'); [|exact E2]. apply (run_call_lifecycle c Hinv E).
Qed.

(** X8.  Between calls the library is never "terminating", and an
    uninitialised library holds nothing.  From a state with no
    termination in progress, an empty registry and no open debug stream
    while uninitialised (a fresh process, for one), after any sequence of
    public calls that returns: [H5is_library_terminating] reports false;
    an atclose callback is registered only while the library is
    initialised, so that the next termination will run it; and no debug
    stream is open while the library is not initialised, so the [memset]
    of [H5_debug_g] in [H5_init_library] never drops an open stream. *)
Theorem lifecycle_between_calls (cs : list api_call) (s s' : state) (rs : list herr_t) :
  H5_libterm_g s = false ->
  (H5_libinit_g s = false ->
   H5_atclose_head s = [] /\ open_stream (H5_debug_g s) = []) ->
  run_calls cs s = Returned rs s' ->
  H5is_library_terminating s' = Returned (SUCCEED, false) s' /\
  (H5_atclose_head s' <> [] -> H5_libinit_g s' = true) /\
  (H5_libinit_g s' = false -> open_stream (H5_debug_g s') = []).
Proof.
  intros Ht Hrest Hrun.
  destruct (run_calls_lifecycle cs (conj Ht Hrest) Hrun) as [Ht' Hrest'].
  split; [unfold H5is_library_terminating, bind, gets, ret; rewrite Ht'; reflexivity|].
  split.
  - intros Hne. destruct (H5_libinit_g s') eqn:Hi; [reflexivity|].
    destruct (Hrest' eq_refl) as [Hh _]. contradiction.
  - intros Hi. apply Hrest', Hi.
Qed.

(** X9.  The library can be brought up again after it was shut down.  A
    call of [H5_term_library] that found the library initialised and
    returned leaves both flags clear, the registry empty and no debug
    stream open; a following [H5open] runs the initialisation again
    (it returns, with the library marked initialised), and registers no
    second exit routine when the first bring-up had set the opt-out
    flag. *)
Theorem reinit_after_term (s s' : state) :
  H5_libinit_g s = true ->
  H5_term_library s = Returned tt s' ->
  H5_libinit_g s' = false /\ H5_libterm_g s' = false /\
  H5_atclose_head s' = [] /\ open_stream (H5_debug_g s') = [] /\
  exists r s'', H5open s' = Returned r s'' /\
    H5_libinit_g s'' = true /\ H5_libterm_g s'' = false /\
    H5_atclose_head s'' = [] /\
    (H5_dont_atexit_g s = true -> atexit_list s'' = atexit_list s).
Proof.
  intros Hinit Hrun.
  destruct (H5_term_library_returned s Hinit Hrun) as (H1 & H2 & H3 & H4).
  repeat (split; [assumption|]).
  assert (Hinv : lifecycle_inv s') by (split; [exact H2 | intros _; split; assumption]).
  destruct (FUNC_ENTER_API_spec s') as [r [s'' [E (_ & Hh & _)]]].
  destruct (FUNC_ENTER_API_lifecycle Hinv E) as [Hi Ht].
  exists (if r <? 0 then FAIL else SUCCEED), s''.
  split; [unfold H5open, bind; rewrite E; destruct (r <? 0); reflexivity|].
  repeat (split; [congruence|]).
  intros Hflag.
  pose proof (H5_term_library_same (p := exit_view)
                ltac:(ignored) ltac:(ignored) ltac:(ignored) ltac:(ignored)
                ltac:(ignored) ltac:(ignored) ltac:(ignored) s) as Hv.
  rewrite Hrun in Hv. cbn [final_state] in Hv. unfold same, exit_view in Hv.
  injection Hv as Hf Hl.
  destruct (FUNC_ENTER_API_exit s') as [r1 [s1 [E1 Hstep]]].
  rewrite E in E1. injection E1 as <- <-.
  destruct Hstep as [[_ L]|(F & _)]; congruence.
Qed.

(** X10.  [H5atclose] always returns, and what it does to the registry is
    all or nothing: either it returns [SUCCEED], the function pointer
    was not null and the new node is at the head of the list, in front of
    the nodes already there; or it returns [FAIL] -- initialisation
    failed, the pointer is null, or the node could not be allocated --
    and the registry is exactly as before.  In both cases the call leaves
    the record of callbacks run untouched. *)
Theorem H5atclose_all_or_nothing (f : option Func) (c : Ctx) (s : state) :
  exists r s', H5atclose f c s = Returned r s' /\
    events s' = events s /\
    ((r = SUCCEED /\
      exists fn, f = Some fn /\
        H5_atclose_head s' = {| func := fn; ctx := c |} :: H5_atclose_head s) \/
     (r = FAIL /\ H5_atclose_head s' = H5_atclose_head s)) /\
    (f = None -> r = FAIL).
Proof.
  unfold H5atclose. unfold bind at 1.
  destruct (FUNC_ENTER_API_spec s) as [r0 [s1 [-> (_ & Hh & He & _)]]].
  destruct (r0 <? 0).
  - exists FAIL, s1. split; [reflexivity|]. split; [exact He|]. split; auto.
  - destruct f as [fn|].
    + unfold bind at 1. unfold lift.
      pose proof (call_steady (H5FL_MALLOC X) s1) as Hs.
      destruct (call (H5FL_MALLOC X) s1) as [ok s2]. cbn [snd] in Hs.
      destruct Hs as (_ & _ & S3 & S4 & _).
      destruct ok; cbn [negb].
      * eexists. eexists. split; [reflexivity|].
        cbn [events H5_atclose_head set_atclose_head].
        split; [congruence|]. split; [|discriminate].
        left. split; [reflexivity|]. exists fn. split; [reflexivity | congruence].
      * exists FAIL, s2. split; [reflexivity|]. split; [congruence|].
        split; [right; split; [reflexivity | congruence] | discriminate].
    + exists FAIL, s1. split; [reflexivity|]. split; [exact He|]. split; auto.
Qed.

(* --------------------------------------------------------------- *)
(** *** More on the version check *)

(** The end of [H5_check_version], from [checked = true] on, as a
    function of the state it is entered in. *)
Lemma check_version_end_run (st : state) :
  (modify (set_checked true) ;;
   level <- gets (fun st : state => disable_version_check st) ;;
   when_ (level =? 0)
     (when_ (negb (lib_str =? H5_VERS_INFO cfg)%string)
        (modify (fputs_stderr version_info_warning) ;;
         modify (fputs_stderr version_info_details))) ;;
   ret SUCCEED) st
  = Returned SUCCEED
      (if (disable_version_check st =? 0) && negb (lib_str =? H5_VERS_INFO cfg)%string
       then fputs_stderr version_info_details
              (fputs_stderr version_info_warning (set_checked true st))
       else set_checked true st).
Proof.
  unfold bind, modify, gets, when_, ret. cbn [disable_version_check set_checked].
  destruct (disable_version_check st =? 0); cbn [andb]; [|reflexivity].
  destruct (negb (lib_str =? H5_VERS_INFO cfg)%string); reflexivity.
Qed.

Lemma check_version_end_checked (st : state) :
  checked (if (disable_version_check st =? 0) && negb (lib_str =? H5_VERS_INFO cfg)%string
           then fputs_stderr version_info_details
                  (fputs_stderr version_info_warning (set_checked true st))
           else set_checked true st) = true.
Proof. destruct (_ && _); reflexivity. Qed.

(** A call of [H5_check_version] that returns has returned [SUCCEED],
    and the check is marked done. *)
Lemma H5_check_version_returned (a b c : Z) (s s' : state) (r : herr_t) :
  H5_check_version a b c s = Returned r s' ->
  r = SUCCEED /\ checked s' = true.
Proof.
  intros Hrun. destruct (checked s) eqn:Hc.
  - unfold H5_check_version, bind, gets in Hrun. rewrite Hc in Hrun.
    injection Hrun as <- <-. split; [reflexivity | exact Hc].
  - rewrite (H5_check_version_run a b c s Hc) in Hrun.
    apply bind_returned in Hrun. destruct Hrun as (u1 & s1 & _ & Hrun).
    apply bind_returned in Hrun. destruct Hrun as (u2 & s2 & _ & Hrun).
    rewrite check_version_end_run in Hrun. injection Hrun as <- <-.
    split; [reflexivity | apply check_version_end_checked].
Qed.

(** X11.  The version check runs at most once in a process and never
    reports a failure by its value.  A call of [H5_check_version] that
    returns has returned [SUCCEED] and left the check marked done; from
    then on every call, with any numbers -- matching or not -- returns
    [SUCCEED] at once, prints nothing and changes nothing, and so does
    the public [H5check_version]. *)
Theorem version_checked_once (a b c : Z) (s s' : state) (r : herr_t) :
  H5_check_version a b c s = Returned r s' ->
  r = SUCCEED /\ checked s' = true /\
  forall a' b' c',
    H5_check_version a' b' c' s' = Returned SUCCEED s' /\
    H5check_version a' b' c' s' = Returned SUCCEED s'.
Proof.
  intros Hrun.
  destruct (H5_check_version_returned a b c s Hrun) as [Hr Hc].
  split; [exact Hr|]. split; [exact Hc|].
  intros a' b' c'.
  assert (E : H5_check_version a' b' c' s' = Returned SUCCEED s')
    by (unfold H5_check_version, bind, gets; rewrite Hc; reflexivity).
  split; [exact E|]. unfold H5check_version, bind. rewrite E. reflexivity.
Qed.

(** X12.  The numbers the library reports about itself pass its own
    check.  [H5get_libversion] always returns; on success it has stored
    [H5_VERS_MAJOR], [H5_VERS_MINOR] and [H5_VERS_RELEASE] through
    exactly the pointers that are not null, on failure it has stored
    nothing; and [H5check_version] called next with the library's three
    numbers returns [SUCCEED] -- it never aborts, whatever the override
    level -- leaving the life cycle of the library as it is. *)
Theorem libversion_passes_check (majnum minnum relnum : bool) (s : state) :
  exists r out s1,
    H5get_libversion majnum minnum relnum s = Returned (r, out) s1 /\
    ((r = SUCCEED /\
      out = (if majnum then Some (H5_VERS_MAJOR cfg) else None,
             if minnum then Some (H5_VERS_MINOR cfg) else None,
             if relnum then Some (H5_VERS_RELEASE cfg) else None)) \/
     (r = FAIL /\ out = (None, None, None))) /\
    exists s2,
      H5check_version (H5_VERS_MAJOR cfg) (H5_VERS_MINOR cfg) (H5_VERS_RELEASE cfg) s1
        = Returned SUCCEED s2 /\
      checked s2 = true /\ steady s1 s2.
Proof.
  unfold H5get_libversion. unfold bind at 1.
  destruct (FUNC_ENTER_API_spec s) as [r0 [s1 [-> _]]].
  assert (Hcheck : exists s2,
            H5check_version (H5_VERS_MAJOR cfg) (H5_VERS_MINOR cfg) (H5_VERS_RELEASE cfg) s1
              = Returned SUCCEED s2 /\ checked s2 = true /\ steady s1 s2).
  { destruct (H5_check_version_own s1) as [r [s2 [E Hs]]].
    exists s2. unfold H5check_version, bind. rewrite E.
    split; [reflexivity|]. split; [|exact Hs].
    destruct (H5_check_version_returned _ _ _ s1 E) as [_ Hc]. exact Hc. }
  destruct (r0 <? 0).
  - exists FAIL, (None, None, None), s1. split; [reflexivity|]. split; [|exact Hcheck].
    right. split; reflexivity.
  - eexists. eexists. exists s1. split; [reflexivity|]. split; [|exact Hcheck].
    left. split; reflexivity.
Qed.

Lemma bind_run {A B : Type} (m : M state A) (k : A -> M state B)
    (s s1 : state) (a : A) :
  m s = Returned a s1 -> bind m k s = k a s1.
Proof. intros E. unfold bind. rewrite E. reflexivity. Qed.

Lemma bind_aborted {A B : Type} (m : M state A) (k : A -> M state B) (s s1 : state) :
  m s = Aborted s1 -> bind m k s = Aborted s1.
Proof. intros E. unfold bind. rewrite E. reflexivity. Qed.

Lemma release_switch_aborts (a b c : Z) (st : state) :
  disable_version_check st = 0 ->
  release_mismatch_switch a b c st =
    Aborted
      (fputs_stderr ("Bye..." ++ nl)
         (fputs_stderr (headers_line a b c (H5_VERS_MAJOR cfg) (H5_VERS_MINOR cfg)
                          (H5_VERS_RELEASE cfg))
            (fputs_stderr (RELEASE_MISMATCH_WARNING ++ disable_hint) st))).
Proof.
  intros Hl. unfold release_mismatch_switch, bind, gets, modify, abort.
  rewrite Hl. reflexivity.
Qed.

Lemma release_switch_continues (a b c : Z) (st : state) :
  disable_version_check st = 1 ->
  release_mismatch_switch a b c st =
    Returned tt
      (fputs_stderr (headers_line a b c (H5_VERS_MAJOR cfg) (H5_VERS_MINOR cfg)
                       (H5_VERS_RELEASE cfg))
         (fputs_stderr (continue_notice RELEASE_MISMATCH_WARNING 1) st)).
Proof.
  intros Hl. unfold release_mismatch_switch, bind, gets, modify.
  rewrite Hl. reflexivity.
Qed.

Lemma bind_ret_unit {B : Type} (m : M state unit) (k : M state B) (s : state) :
  ((m ;; ret tt) ;; k) s = (m ;; k) s.
Proof. unfold bind, ret. destruct (m s) as [[] s1|s1]; reflexivity. Qed.

(** The check when the major and minor numbers are the library's and the
    release number is not: only the table of exceptions is consulted. *)
Lemma H5_check_version_release_run (relnum : Z) (s : state) :
  checked s = false ->
  relnum <> H5_VERS_RELEASE cfg ->
  H5_check_version (H5_VERS_MAJOR cfg) (H5_VERS_MINOR cfg) relnum s =
    (when_ ((0 =? relnum) || (0 =? H5_VERS_RELEASE cfg))
       (release_mismatch_switch (H5_VERS_MAJOR cfg) (H5_VERS_MINOR cfg) relnum) ;;
     modify (set_checked true) ;;
     level <- gets (fun st : state => disable_version_check st) ;;
     when_ (level =? 0)
       (when_ (negb (lib_str =? H5_VERS_INFO cfg)%string)
          (modify (fputs_stderr version_info_warning) ;;
           modify (fputs_stderr version_info_details))) ;;
     ret SUCCEED) (after_getenv s).
Proof.
  intros Hc Hrel. rewrite (H5_check_version_run _ _ _ s Hc).
  rewrite !Z.eqb_refl. cbn [negb orb].
  assert (E : (H5_VERS_RELEASE cfg =? relnum) = false) by (apply Z.eqb_neq; congruence).
  rewrite E. cbn [negb]. unfold VERS_RELEASE_EXCEPTIONS.
  cbn [release_exceptions_loop when_].
  change ((ret tt ;; ?m ;; ?k) (after_getenv s)) with ((m ;; k) (after_getenv s)).
  apply bind_ret_unit.
Qed.

(** X13.  A release number that differs from the library's matters only
    through the table of exceptions, which holds the one entry 0.  With
    the library's major and minor numbers, when the check runs:
    - if neither the application's release number nor the library's is
      0, the check returns [SUCCEED] and prints no mismatch warning at
      any override level (only, at level 0, the consistency warning when
      [H5_VERS_INFO] is not the string built from the numbers);
    - if one of the two is 0, then at level 0 the release warning and the
      two version triples are printed, then ["Bye..."], and the process
      is aborted -- the build settings are not printed, unlike for a
      major or minor mismatch; at level 1 the warning and the triples are
      printed and the check returns [SUCCEED]; at level 2 or more it
      returns [SUCCEED] in silence. *)
Theorem release_mismatch_by_exception (relnum : Z) (s : state) :
  checked s = false ->
  relnum <> H5_VERS_RELEASE cfg ->
  (relnum <> 0 -> H5_VERS_RELEASE cfg <> 0 ->
   exists s',
     H5_check_version (H5_VERS_MAJOR cfg) (H5_VERS_MINOR cfg) relnum s
       = Returned SUCCEED s' /\
     stderr_out s' =
       (stderr_out s ++
        (if (override_level s =? 0) && negb (lib_str =? H5_VERS_INFO cfg)%string
         then [version_info_warning; version_info_details] else []))%list) /\
  (relnum = 0 \/ H5_VERS_RELEASE cfg = 0 ->
   (override_level s = 0 ->
    exists s',
      H5_check_version (H5_VERS_MAJOR cfg) (H5_VERS_MINOR cfg) relnum s = Aborted s' /\
      stderr_out s' =
        (stderr_out s ++
         [(RELEASE_MISMATCH_WARNING ++ disable_hint)%string;
          headers_line (H5_VERS_MAJOR cfg) (H5_VERS_MINOR cfg) relnum
            (H5_VERS_MAJOR cfg) (H5_VERS_MINOR cfg) (H5_VERS_RELEASE cfg);
          ("Bye..." ++ nl)%string])%list) /\
   (override_level s = 1 ->
    exists s',
      H5_check_version (H5_VERS_MAJOR cfg) (H5_VERS_MINOR cfg) relnum s
        = Returned SUCCEED s' /\
      stderr_out s' =
        (stderr_out s ++
         [continue_notice RELEASE_MISMATCH_WARNING 1;
          headers_line (H5_VERS_MAJOR cfg) (H5_VERS_MINOR cfg) relnum
            (H5_VERS_MAJOR cfg) (H5_VERS_MINOR cfg) (H5_VERS_RELEASE cfg)])%list) /\
   (override_level s <> 0 -> override_level s <> 1 ->
    exists s',
      H5_check_version (H5_VERS_MAJOR cfg) (H5_VERS_MINOR cfg) relnum s
        = Returned SUCCEED s' /\
      stderr_out s' = stderr_out s)).
Proof.
  intros Hc Hrel.
  rewrite (H5_check_version_release_run s Hc Hrel).
  destruct (after_getenv_fields s) as (Hlevel & Hout & _).
  rewrite <- Hlevel, <- Hout. generalize (after_getenv s). intros st.
  split.
  - intros H1 H2.
    assert (E : (0 =? relnum) || (0 =? H5_VERS_RELEASE cfg) = false).
    { apply orb_false_iff. split; apply Z.eqb_neq; congruence. }
    rewrite E. cbn [when_]. unfold bind at 1. unfold ret at 1.
    rewrite check_version_end_run. eexists. split; [reflexivity|].
    destruct ((disable_version_check st =? 0) && negb (lib_str =? H5_VERS_INFO cfg)%string);
      cbn [stderr_out fputs_stderr set_stderr_out set_checked].
    + rewrite <- app_assoc. reflexivity.
    + rewrite app_nil_r. reflexivity.
  - intros H0.
    assert (E : (0 =? relnum) || (0 =? H5_VERS_RELEASE cfg) = true).
    { apply orb_true_iff. destruct H0 as [H0|H0]; [left|right]; apply Z.eqb_eq; congruence. }
    rewrite E. cbn [when_].
    repeat apply conj.
    + intros Hl. eexists.
      erewrite bind_aborted by (apply release_switch_aborts; exact Hl).
      split; [reflexivity|].
      cbn [stderr_out fputs_stderr set_stderr_out].
      rewrite <- !app_assoc. reflexivity.
    + intros Hl. eexists.
      erewrite bind_run by (apply release_switch_continues; exact Hl).
      rewrite check_version_end_run. split; [reflexivity|].
      cbn [disable_version_check fputs_stderr set_stderr_out]. rewrite Hl.
      cbn [Z.eqb andb stderr_out set_checked set_stderr_out fputs_stderr].
      rewrite <- !app_assoc. reflexivity.
    + intros Hn0 Hn1.
      apply Z.eqb_neq in Hn0. apply Z.eqb_neq in Hn1. eexists.
      erewrite bind_run by (apply release_switch_silent; assumption).
      rewrite check_version_end_run. split; [reflexivity|].
      rewrite Hn0. reflexivity.
Qed.

(* --------------------------------------------------------------- *)
(** *** More on the sweeps *)

(** Whatever every sweep preserves holds of the locals the loop ends
    with. *)
Lemma shutdown_loop_locals (Q : term_locals World -> Prop) (k : nat) (ntries : Z)
    (l : term_locals World) (done : list (Z * list (term_hook * Z))) :
  Z.to_nat (100 - ntries) = k ->
  (forall l', Q l' -> Q (sweep l')) ->
  Q l ->
  Q (fst (shutdown_loop ntries l done)).
Proof.
  intros Hk HQ. revert ntries l done Hk.
  induction k as [|k IH]; intros ntries l done Hk Hl;
    rewrite shutdown_loop_step;
    destruct (pending (sweep l) =? 0); cbn [fst]; try (apply HQ; exact Hl);
    destruct (Z.ltb_spec ntries 100); cbn [fst]; try (apply HQ; exact Hl).
  - lia.
  - apply IH; [lia | apply HQ; exact Hl].
Qed.

(** Whatever holds of every sweep, of the value of [pending] it ends
    with and of its calls, holds of every sweep the loop records. *)
Lemma shutdown_loop_records (P : Z * list (term_hook * Z) -> Prop) (k : nat) (ntries : Z)
    (l : term_locals World) (done : list (Z * list (term_hook * Z))) :
  Z.to_nat (100 - ntries) = k ->
  (forall l', P (pending (sweep l'), calls (sweep l'))) ->
  Forall P done ->
  Forall P (snd (shutdown_loop ntries l done)).
Proof.
  intros Hk HP. revert ntries l done Hk.
  assert (Hsnoc : forall l0 done0, Forall P done0 ->
            Forall P (done0 ++ [(pending (sweep l0), calls (sweep l0))])%list).
  { intros l0 done0 Hd. apply Forall_app. split; [exact Hd|].
    constructor; [apply HP | constructor]. }
  induction k as [|k IH]; intros ntries l done Hk Hdone;
    rewrite shutdown_loop_step;
    destruct (pending (sweep l) =? 0); cbn [snd]; try (apply Hsnoc; exact Hdone);
    destruct (Z.ltb_spec ntries 100); cbn [snd]; try (apply Hsnoc; exact Hdone).
  - lia.
  - apply IH; [lia | apply Hsnoc; exact Hdone].
Qed.

(** The loop goes on only after a sweep that left work pending. *)
Lemma shutdown_loop_nonzero (k : nat) (ntries : Z) (l : term_locals World)
    (done : list (Z * list (term_hook * Z))) :
  Z.to_nat (100 - ntries) = k ->
  exists new,
    snd (shutdown_loop ntries l done) = (done ++ new)%list /\
    new <> [] /\
    Forall (fun r => fst r <> 0) (removelast new).
Proof.
  revert ntries l done. induction k as [|k IH]; intros ntries l done Hk;
    rewrite shutdown_loop_step.
  - exists [(pending (sweep l), calls (sweep l))].
    destruct (pending (sweep l) =? 0); [|destruct (Z.ltb_spec ntries 100); [lia|]];
      cbn [snd removelast]; (split; [reflexivity|]); (split; [discriminate | constructor]).
  - destruct (pending (sweep l) =? 0) eqn:Hp;
      [|destruct (Z.ltb_spec ntries 100)]; cbn [snd].
    + exists [(pending (sweep l), calls (sweep l))].
      split; [reflexivity|]. split; [discriminate | constructor].
    + destruct (IH (ntries + 1) (sweep l)
                  (done ++ [(pending (sweep l), calls (sweep l))])%list)
        as [new (Hs & Hne & Hall)]; [lia|].
      exists ((pending (sweep l), calls (sweep l)) :: new).
      split; [rewrite Hs, <- app_assoc; reflexivity|]. split; [discriminate|].
      destruct new as [|x new]; [contradiction|].
      cbn [removelast]. constructor; [cbn; apply Z.eqb_neq; exact Hp | exact Hall].
    + exists [(pending (sweep l), calls (sweep l))].
      split; [reflexivity|]. split; [discriminate | constructor].
Qed.

(** X14.  The shape of every termination run.  The shutdown loop makes at
    least one sweep and at most 101; every sweep but the last ended with
    work pending -- the loop stops at the first sweep that ends with
    [pending] zero -- and a run of fewer than 101 sweeps has converged:
    its last sweep ended with [pending] zero, which is the value the code
    after the loop tests. *)
Theorem shutdown_loop_stops_at_first_zero (s : state) :
  (1 <= List.length (snd (term_loop_result s)) <= 101)%nat /\
  Forall (fun r => fst r <> 0) (removelast (snd (term_loop_result s))) /\
  fst (last (snd (term_loop_result s)) (0, [])) = pending (fst (term_loop_result s)) /\
  ((List.length (snd (term_loop_result s)) < 101)%nat ->
   pending (fst (term_loop_result s)) = 0).
Proof.
  destruct (term_loop_sweeps s) as (Hlen & Hlast & Hfull).
  split; [exact Hlen|]. split; [|split; [exact Hlast|]].
  - unfold term_loop_result.
    destruct (@shutdown_loop_nonzero 100 0 (initial_locals (world (before_sweeps s))) []
                eq_refl) as [new (Hs & _ & Hall)].
    cbn [app] in Hs. rewrite Hs. exact Hall.
  - intros Hshort.
    destruct (Z.eq_dec (pending (fst (term_loop_result s))) 0) as [E|E]; [exact E|].
    specialize (Hfull E). lia.
Qed.

Lemma total_reported_snoc (cs : list (term_hook * Z)) (F : term_hook) (n : Z) :
  total_reported (cs ++ [(F, n)]) = total_reported cs + n.
Proof.
  unfold total_reported. induction cs as [|c cs IH]; cbn; [lia|].
  cbn in IH. rewrite IH. lia.
Qed.

Lemma pending_plus_DOWN_sum (F : term_hook) (l : term_locals World) :
  hooks_bounded ->
  (List.length (calls l) < 26)%nat ->
  sum_inv l ->
  sum_inv (pending_plus_DOWN F l) /\
  List.length (calls (pending_plus_DOWN F l)) = S (List.length (calls l)).
Proof.
  intros Hb Hlen [Hsum Hrange].
  destruct (pending_plus_DOWN_calls F l) as [Hc Hp].
  pose proof (Hb F (tl_world l)) as Hn.
  set (n := fst (H5_term_package X F (tl_world l))) in *.
  assert (Hadd : pending (pending_plus_DOWN F l) = pending l + n).
  { rewrite Hp. apply int_add_small; unfold max_reported, INT_MAX in *; nia. }
  unfold sum_inv. rewrite Hc, Hadd, total_reported_snoc, length_app. cbn [List.length].
  split; [|lia]. split; [lia|].
  rewrite Nat.add_1_r, Nat2Z.inj_succ. unfold max_reported in *. nia.
Qed.

Lemma run_hooks_sum (Fs : list term_hook) (l : term_locals World) :
  hooks_bounded ->
  (List.length (calls l) + List.length Fs <= 26)%nat ->
  sum_inv l ->
  sum_inv (run_hooks Fs l) /\
  List.length (calls (run_hooks Fs l)) = (List.length (calls l) + List.length Fs)%nat.
Proof.
  intros Hb. revert l. induction Fs as [|F Fs IH]; intros l Hlen Hinv.
  - cbn. split; [exact Hinv | lia].
  - cbn [run_hooks fold_left]. fold (run_hooks Fs (pending_plus_DOWN F l)).
    cbn [List.length] in Hlen.
    destruct (@pending_plus_DOWN_sum F l Hb) as [H1 H2]; [lia | exact Hinv|].
    destruct (IH (pending_plus_DOWN F l)) as [H3 H4]; [lia | exact H1|].
    split; [exact H3|]. rewrite H4, H2. cbn [List.length]. lia.
Qed.

Lemma run_blocks_sum (bs : list (list term_hook)) (l : term_locals World) :
  hooks_bounded ->
  (List.length (calls l) + List.length (List.concat bs) <= 26)%nat ->
  sum_inv l ->
  sum_inv (run_blocks bs l) /\
  (List.length (calls (run_blocks bs l))
   <= List.length (calls l) + List.length (List.concat bs))%nat.
Proof.
  intros Hb. revert l. induction bs as [|b bs IH]; intros l Hlen Hinv.
  - cbn. split; [exact Hinv | lia].
  - cbn [run_blocks fold_left]. fold (run_blocks bs (guarded_block b l)).
    cbn [List.concat] in Hlen. rewrite length_app in Hlen.
    assert (Hblock : sum_inv (guarded_block b l) /\
              (List.length (calls (guarded_block b l))
               <= List.length (calls l) + List.length b)%nat).
    { unfold guarded_block, if_pending_zero. destruct (pending l =? 0).
      - destruct (@run_hooks_sum b l Hb) as [H1 H2]; [lia | exact Hinv|].
        split; [exact H1 | lia].
      - split; [exact Hinv | lia]. }
    destruct Hblock as [H1 H2].
    destruct (IH (guarded_block b l)) as [H3 H4]; [lia | exact H1|].
    split; [exact H3|]. cbn [List.concat]. rewrite length_app. lia.
Qed.

Lemma sweep_sum (l : term_locals World) : hooks_bounded -> sum_inv (sweep l).
Proof.
  intros Hb. rewrite sweep_as_blocks.
  apply run_blocks_sum; [exact Hb | cbn; lia|].
  unfold sum_inv, total_reported. cbn. lia.
Qed.

(** X15.  What [pending] counts.  When every [term_package] routine
    reports a value between 0 and [max_reported], the 26 additions of a
    sweep do not overflow [int]: at the end of every sweep of a
    termination run, [pending] is non-negative and equal to the sum of the
    values the routines called in that sweep reported, so it is zero
    exactly when every routine called reported 0. *)
Theorem pending_is_sum_of_reports (s : state) :
  hooks_bounded ->
  Forall (fun r => fst r = total_reported (snd r) /\ 0 <= fst r /\
                   (fst r = 0 <-> Forall (fun c => snd c = 0) (snd r)))
    (snd (term_loop_result s)).
Proof.
  intros Hb. unfold term_loop_result.
  apply (@shutdown_loop_records _ 100); [reflexivity| |constructor].
  intros l. cbn [fst snd].
  destruct (sweep_sum l Hb) as [Hsum Hrange].
  split; [exact Hsum|]. split; [lia|].
  destruct (sweep_block_inv l Hb) as [(Hp & _ & Hz)|(Hp & k & zeros & last & _ & Hc & _ & _ & _)].
  - split; [intros _; exact Hz | intros _; exact Hp].
  - split; [intros E; contradiction|].
    intros Hz. exfalso. apply Hp. rewrite Hsum.
    clear - Hz. unfold total_reported.
    induction (calls (sweep l)) as [|c cs IH]; [reflexivity|].
    inversion Hz; subst. cbn. rewrite IH by assumption. lia.
Qed.

Lemma run_hooks_quiet (Fs : list term_hook) (l : term_locals World) :
  (forall F w, fst (H5_term_package X F w) = 0) ->
  pending l = 0 ->
  pending (run_hooks Fs l) = 0 /\
  calls (run_hooks Fs l) = (calls l ++ map (fun F => (F, 0)) Fs)%list /\
  at_ (run_hooks Fs l) = at_ l /\ loop (run_hooks Fs l) = loop l.
Proof.
  intros Hq. revert l. induction Fs as [|F Fs IH]; intros l Hp.
  - cbn. rewrite app_nil_r. repeat split. exact Hp.
  - cbn [run_hooks fold_left]. fold (run_hooks Fs (pending_plus_DOWN F l)).
    assert (Hstep : pending (pending_plus_DOWN F l) = 0 /\
              calls (pending_plus_DOWN F l) = (calls l ++ [(F, 0)])%list /\
              at_ (pending_plus_DOWN F l) = at_ l /\
              loop (pending_plus_DOWN F l) = loop l).
    { unfold pending_plus_DOWN, DOWN. specialize (Hq F (tl_world l)).
      destruct (H5_term_package X F (tl_world l)) as [n w]. cbn [fst] in Hq. subst n.
      cbn. rewrite Hp. repeat split. }
    destruct Hstep as (H1 & H2 & H3 & H4).
    destruct (IH (pending_plus_DOWN F l) H1) as (I1 & I2 & I3 & I4).
    rewrite I2, I3, I4, H2, H3, H4, <- app_assoc. repeat split. exact I1.
Qed.

Lemma run_blocks_quiet (bs : list (list term_hook)) (l : term_locals World) :
  (forall F w, fst (H5_term_package X F w) = 0) ->
  pending l = 0 ->
  pending (run_blocks bs l) = 0 /\
  calls (run_blocks bs l) = (calls l ++ map (fun F => (F, 0)) (List.concat bs))%list /\
  at_ (run_blocks bs l) = at_ l /\ loop (run_blocks bs l) = loop l.
Proof.
  intros Hq. revert l. induction bs as [|b bs IH]; intros l Hp.
  - cbn. rewrite app_nil_r. repeat split. exact Hp.
  - cbn [run_blocks fold_left]. fold (run_blocks bs (guarded_block b l)).
    unfold guarded_block. rewrite if_pending_zero_enter by (apply Z.eqb_eq; exact Hp).
    destruct (run_hooks_quiet b l Hq Hp) as (H1 & H2 & H3 & H4).
    destruct (IH (run_hooks b l) H1) as (I1 & I2 & I3 & I4).
    rewrite I2, I3, I4, H2, H3, H4. cbn [List.concat].
    rewrite map_app, <- app_assoc. repeat split. exact I1.
Qed.

(** X16.  Shutting down a quiescent library.  When the library is
    initialised and every [term_package] routine reports 0, a call of
    [H5_term_library] makes exactly one sweep, in which all 26 routines
    are called once each in the order of [teardown_order] -- event sets
    first, API contexts last -- prints nothing into [loop] or on
    [stderr], and returns with both flags clear, in any build and with
    error reporting on or off. *)
Theorem quiescent_library_one_sweep (s : state) :
  H5_libinit_g s = true ->
  (forall F w, fst (H5_term_package X F w) = 0) ->
  snd (term_loop_result s) = [(0, map (fun F => (F, 0)) teardown_order)] /\
  loop (fst (term_loop_result s)) = EmptyString /\
  exists s',
    H5_term_library s = Returned tt s' /\
    stderr_out s' = stderr_out s /\
    H5_libinit_g s' = false /\ H5_libterm_g s' = false /\
    sweeps_made (events s') =
      (sweeps_made (events s) ++ [(0, map (fun F => (F, 0)) teardown_order)])%list.
Proof.
  intros Hinit Hq.
  assert (Hsweep : forall l,
             pending (sweep l) = 0 /\
             calls (sweep l) = map (fun F => (F, 0)) teardown_order /\
             loop (sweep l) = loop l).
  { intros l. rewrite sweep_as_blocks.
    destruct (run_blocks_quiet guard_blocks (sweep_start l) Hq eq_refl)
      as (H1 & H2 & _ & H4).
    split; [exact H1|]. split; [exact H2 | exact H4]. }
  assert (Hres : term_loop_result s =
            (sweep (initial_locals (world (before_sweeps s))),
             [(0, map (fun F => (F, 0)) teardown_order)])).
  { unfold term_loop_result. rewrite shutdown_loop_step.
    destruct (Hsweep (initial_locals (world (before_sweeps s)))) as (H1 & H2 & _).
    rewrite H1, H2. reflexivity. }
  destruct (Hsweep (initial_locals (world (before_sweeps s)))) as (H1 & _ & H3).
  split; [rewrite Hres; reflexivity|].
  split; [rewrite Hres; cbn [fst]; rewrite H3; reflexivity|].
  pose proof (H5_term_library_run s Hinit) as Hrun.
  pose proof (H5_term_library_stderr s Hinit) as Hout.
  destruct (H5_term_library_final s Hinit) as (Hev & _).
  assert (Hp : (pending (fst (term_loop_result s)) =? 0) = true)
    by (rewrite Hres; cbn [fst]; rewrite H1; reflexivity).
  rewrite Hp in Hrun, Hout. cbn [negb andb] in Hrun, Hout.
  rewrite Hrun in Hout, Hev. cbn [final_state] in Hout, Hev.
  exists (finish_term (after_sweeps s)).
  split; [exact Hrun|]. split; [exact Hout|].
  split; [reflexivity|]. split; [reflexivity|].
  rewrite Hev, !sweeps_made_app, sweeps_made_atclose, sweeps_made_sweeps, Hres.
  reflexivity.
Qed.

Lemma hook_name_short (F : term_hook) : (String.length (hook_name F) <= 5)%nat.
Proof. destruct F; cbn; lia. Qed.

Lemma DOWN_in_bounds (F : term_hook) (l : term_locals World) :
  loop_in_bounds l -> loop_in_bounds (snd (DOWN F l)).
Proof.
  intros (Hat & Hmax). unfold DOWN.
  destruct (H5_term_package X F (tl_world l)) as [n w].
  destruct (negb (n =? 0) && (at_ l + 8 <? 1024)) eqn:Hfirst;
    [|destruct ((0 <? n) && (at_ l + 5 <? 1024)) eqn:Hsecond];
    unfold loop_in_bounds; cbn [snd at_ loop sprintf_at].
  - apply andb_true_iff in Hfirst. destruct Hfirst as [_ Hroom].
    apply Z.ltb_lt in Hroom. pose proof (hook_name_short F) as Hname.
    rewrite !string_length_app, !Nat2Z.inj_add.
    assert (Hsep : (String.length (if (at_ l =? 0)%Z then EmptyString else ","%string)
                    <= 1)%nat)
      by (destruct (at_ l =? 0); cbn; lia).
    lia.
  - apply andb_true_iff in Hsecond. destruct Hsecond as [_ Hroom].
    apply Z.ltb_lt in Hroom.
    rewrite !string_length_app, !Nat2Z.inj_add. cbn [String.length]. lia.
  - lia.
Qed.

Lemma pending_plus_DOWN_in_bounds (F : term_hook) (l : term_locals World) :
  loop_in_bounds l -> loop_in_bounds (pending_plus_DOWN F l).
Proof.
  intros H. apply (DOWN_in_bounds F) in H. unfold pending_plus_DOWN.
  destruct (DOWN F l) as [n l']. exact H.
Qed.

Lemma sweep_in_bounds (l : term_locals World) :
  loop_in_bounds l -> loop_in_bounds (sweep l).
Proof.
  intros H. rewrite sweep_as_blocks.
  assert (Hstart : loop_in_bounds (sweep_start l)) by exact H.
  revert Hstart. generalize (sweep_start l). generalize guard_blocks.
  intros bs. induction bs as [|b bs IH]; intros l0 H0; [exact H0|].
  cbn [run_blocks fold_left]. fold (run_blocks bs (guarded_block b l0)).
  apply IH. unfold guarded_block, if_pending_zero.
  destruct (pending l0 =? 0); [|exact H0].
  clear IH. revert l0 H0. induction b as [|F Fs IHF]; intros l0 H0; [exact H0|].
  cbn [run_hooks fold_left]. fold (run_hooks Fs (pending_plus_DOWN F l0)).
  apply IHF, pending_plus_DOWN_in_bounds, H0.
Qed.

(** X17.  The text buffer of the shutdown loop is never overrun.  [DOWN]
    keeps [at] equal to the length of the text in [loop] and at most
    1021: a name is printed only while [at + 8 < 1024] and takes at most
    six bytes with its comma, the dots only while [at + 5 < 1024].  So
    through all the sweeps of any termination run, whatever the routines
    report, the text and its terminating NUL stay within the 1024 bytes
    of [loop]. *)
Theorem loop_buffer_never_overrun (s : state) :
  (forall F l, loop_in_bounds l -> loop_in_bounds (snd (DOWN F l))) /\
  at_ (fst (term_loop_result s))
    = Z.of_nat (String.length (loop (fst (term_loop_result s)))) /\
  (String.length (loop (fst (term_loop_result s))) <= 1021)%nat /\
  (String.length (loop (fst (term_loop_result s))) + 1 <= 1024)%nat.
Proof.
  split; [intros F l; apply DOWN_in_bounds|].
  assert (H : loop_in_bounds (fst (term_loop_result s))).
  { unfold term_loop_result.
    apply (@shutdown_loop_locals loop_in_bounds 100); [reflexivity| |].
    - intros l. apply sweep_in_bounds.
    - unfold loop_in_bounds. cbn. lia. }
  destruct H as (Hat & Hmax). split; [exact Hat|]. lia.
Qed.

(* --------------------------------------------------------------- *)
(** *** More on the debug mask *)

(** One turn of the [while] loop of [H5__debug_mask]. *)
Lemma debug_mask_loop_step (s : string) (cur : option FILE) (st : state) :
  debug_mask_loop s cur st =
    match s with
    | EmptyString => st
    | String c s' =>
        if isalpha c || (c =? "-")%char || (c =? "+")%char then
          debug_mask_loop (snd (alpha_run (after_sign c s'))) cur
            (debug_word (c =? "-")%char
               (truncate 31 (fst (alpha_run (after_sign c s')))) cur st)
        else if isdigit c then
          match call (HDfdopen X (to_int (fst (strtol (LONG_MAX cfg) s)))) st with
          | (Some f, st1) =>
              match call (H5MM_malloc X) (call_ (HDsetvbuf X f) st1) with
              | (true, st2) =>
                  debug_mask_loop (snd (strtol (LONG_MAX cfg) s)) (Some f)
                    (set_debug
                       (set_open_stream (f :: open_stream (H5_debug_g st2))
                          (H5_debug_g st2)) st2)
              | (false, st2) => call_ (fclose X f) st2
              end
          | (None, st1) => debug_mask_loop (snd (strtol (LONG_MAX cfg) s)) None st1
          end
        else debug_mask_loop s' cur st
    end.
Proof.
  funelim (debug_mask_loop s cur st); try reflexivity;
    match goal with H : isalpha _ || _ || _ = _ |- _ => rewrite H end;
    try match goal with H : isdigit _ = _ |- _ => rewrite H end;
    reflexivity.
Qed.

Lemma no_digit_alpha_rest (s : string) :
  no_digit s = true -> no_digit (snd (alpha_run s)) = true.
Proof.
  induction s as [|c s IH]; intros H; [reflexivity|].
  cbn [alpha_run]. destruct (isalpha c); [|exact H].
  cbn [snd]. apply IH. cbn in H. apply andb_true_iff in H. apply H.
Qed.

Lemma no_digit_after_sign (c : ascii) (s' : string) :
  no_digit (String c s') = true -> no_digit (after_sign c s') = true.
Proof.
  intros H. unfold after_sign.
  destruct ((c =? "-")%char || (c =? "+")%char); [|exact H].
  cbn in H. apply andb_true_iff in H. apply H.
Qed.

(** Over a string without digits the loop only applies [debug_word], with
    the stream it was entered with. *)
Lemma debug_mask_loop_no_digit (R : state -> state -> Prop) (cur : option FILE) :
  (forall st, R st st) ->
  (forall a b c, R a b -> R b c -> R a c) ->
  (forall clear nm st, R st (debug_word clear nm cur st)) ->
  forall (n : nat) (s : string) (st : state),
    (String.length s <= n)%nat ->
    no_digit s = true ->
    R st (debug_mask_loop s cur st).
Proof.
  intros Hrefl Htrans Hword. induction n as [|n IH]; intros s st Hlen Hnd;
    rewrite debug_mask_loop_step; destruct s as [|c s']; try apply Hrefl.
  - cbn in Hlen. lia.
  - destruct (isalpha c || (c =? "-")%char || (c =? "+")%char) eqn:Hc.
    + eapply Htrans; [apply Hword|]. apply IH.
      * pose proof (word_rest_shorter c s' Hc). lia.
      * apply no_digit_alpha_rest, no_digit_after_sign, Hnd.
    + cbn in Hnd. apply andb_true_iff in Hnd. destruct Hnd as [Hd Hnd].
      apply negb_true_iff in Hd. rewrite Hd. apply IH; [cbn in Hlen; lia | exact Hnd].
Qed.

Lemma stream_from_trans (cur a b c : option FILE) :
  stream_from cur a b -> stream_from cur b c -> stream_from cur a c.
Proof. unfold stream_from. intuition congruence. Qed.

Lemma reassigned_refl (cur : option FILE) (d : H5_debug_t) : reassigned cur d d.
Proof.
  split; [reflexivity|]. split; [left; reflexivity|].
  induction (pkg d) as [|p l IH]; constructor; [|exact IH].
  split; [reflexivity | left; reflexivity].
Qed.

Lemma reassigned_trans (cur : option FILE) (a b c : H5_debug_t) :
  reassigned cur a b -> reassigned cur b c -> reassigned cur a c.
Proof.
  intros (O1 & T1 & P1) (O2 & T2 & P2).
  split; [congruence|]. split; [exact (stream_from_trans T1 T2)|].
  revert P2. generalize (pkg c). induction P1 as [|p q l1 l2 [Hn Hs] _ IH];
    intros l3 P2; inversion P2 as [|q' r l2' l3' [Hn' Hs'] P2']; subst; constructor.
  - split; [congruence | exact (stream_from_trans Hs Hs')].
  - apply IH. exact P2'.
Qed.

Lemma set_named_stream_reassigned (cur : option FILE) (nm : string) (v : option FILE)
    (l l' : list H5_debug_pkg_t) :
  v = None \/ v = cur ->
  set_named_stream nm v l = Some l' ->
  Forall2 (fun p q => name q = name p /\ stream_from cur (stream p) (stream q)) l l'.
Proof.
  intros Hv. revert l'. induction l as [|p l IH]; intros l' H; [discriminate|].
  cbn [set_named_stream] in H. destruct (name p =? nm)%string.
  - injection H as <-. constructor.
    + split; [reflexivity|]. right. exact Hv.
    + clear IH. induction l as [|q l IH]; constructor; [|exact IH].
      split; [reflexivity | left; reflexivity].
  - destruct (set_named_stream nm v l) as [l0|]; [|discriminate].
    injection H as <-. constructor; [|apply IH; reflexivity].
    split; [reflexivity | left; reflexivity].
Qed.

Lemma debug_word_mask_step (cur : option FILE) (clear : bool) (nm : string) (st : state) :
  mask_step cur st (debug_word clear nm cur st).
Proof.
  assert (Htarget : (if clear then None else cur) = None \/ (if clear then None else cur) = cur)
    by (destruct clear; auto).
  assert (Hpkg : forall l : list H5_debug_pkg_t,
             Forall2 (fun p q => name q = name p /\ stream_from cur (stream p) (stream q)) l l).
  { induction l as [|p l IH]; constructor; [|exact IH].
    split; [reflexivity | left; reflexivity]. }
  unfold debug_word, mask_step, reassigned.
  destruct (nm =? "trace")%string; [|destruct (nm =? "ttop")%string;
    [|destruct (nm =? "ttimes")%string; [|destruct (nm =? "all")%string]]];
    cbn [world H5_debug_g set_debug open_stream trace pkg set_trace set_ttop set_ttimes set_pkg].
  - repeat split; [right; exact Htarget | apply Hpkg].
  - repeat split; [right; right; reflexivity | apply Hpkg].
  - repeat split; [right; right; reflexivity | apply Hpkg].
  - repeat split; [left; reflexivity|].
    induction (pkg (H5_debug_g st)) as [|p l IH]; cbn [map]; constructor; [|exact IH].
    split; [reflexivity | right; exact Htarget].
  - destruct (set_named_stream nm (if clear then None else cur) (pkg (H5_debug_g st)))
      as [l|] eqn:E;
      cbn [world H5_debug_g set_debug open_stream trace pkg set_pkg fputs_stderr
           set_stderr_out].
    + repeat split; [left; reflexivity|].
      apply (@set_named_stream_reassigned cur nm _ _ _ Htarget E).
    + repeat split; [left; reflexivity | apply Hpkg].
Qed.

(** X18.  A debug string without a digit names no file descriptor: when
    [H5__debug_mask] is applied to it no file is opened and no external
    is called (the world is as before), the list of opened streams is
    unchanged, and every stream of the configuration -- the trace stream
    and the stream of each package -- is left as it was, set to null, or
    set to [stderr]; the packages keep their names and their order. *)
Theorem debug_mask_without_digits (str : string) (st : state) :
  no_digit str = true ->
  world (H5__debug_mask (Some str) st) = world st /\
  open_stream (H5_debug_g (H5__debug_mask (Some str) st)) = open_stream (H5_debug_g st) /\
  stream_from (Some stderr) (trace (H5_debug_g st))
    (trace (H5_debug_g (H5__debug_mask (Some str) st))) /\
  Forall2 (fun p q => name q = name p /\ stream_from (Some stderr) (stream p) (stream q))
    (pkg (H5_debug_g st)) (pkg (H5_debug_g (H5__debug_mask (Some str) st))).
Proof.
  intros Hnd.
  assert (H : mask_step (Some stderr) st (H5__debug_mask (Some str) st)).
  { unfold H5__debug_mask.
    apply (@debug_mask_loop_no_digit (mask_step (Some stderr)) (Some stderr))
      with (n := String.length str); [| | |lia|exact Hnd].
    - intros s0. split; [reflexivity | apply reassigned_refl].
    - intros a b c [W1 D1] [W2 D2]. split; [congruence | exact (reassigned_trans D1 D2)].
    - intros clear nm s0. apply debug_word_mask_step. }
  destruct H as (Hw & Ho & Ht & Hp). repeat split; assumption.
Qed.

Lemma alpha_run_app (t s2 : string) (sep : ascii) :
  isalpha sep = false ->
  alpha_run (t ++ String sep s2) =
    (fst (alpha_run t), (snd (alpha_run t) ++ String sep s2)%string).
Proof.
  intros Hsep. induction t as [|c t IH]; cbn [append alpha_run].
  - rewrite Hsep. reflexivity.
  - destruct (isalpha c); [rewrite IH|]; reflexivity.
Qed.

Lemma after_sign_app (c : ascii) (s' r : string) :
  after_sign c (s' ++ r) = (after_sign c s' ++ r)%string.
Proof. unfold after_sign. destruct ((c =? "-")%char || (c =? "+")%char); reflexivity. Qed.

Lemma debug_mask_loop_app (cur : option FILE) (sep : ascii) (s2 : string) :
  isalpha sep || (sep =? "-")%char || (sep =? "+")%char = false ->
  isdigit sep = false ->
  forall (n : nat) (s1 : string) (st : state),
    (String.length s1 <= n)%nat ->
    no_digit s1 = true ->
    debug_mask_loop (s1 ++ String sep s2) cur st =
      debug_mask_loop s2 cur (debug_mask_loop s1 cur st).
Proof.
  intros Hsep Hdig.
  assert (Halpha : isalpha sep = false).
  { destruct (isalpha sep); [discriminate | reflexivity]. }
  induction n as [|n IH]; intros s1 st Hlen Hnd;
    rewrite (debug_mask_loop_step (s1 ++ String sep s2)),
            (debug_mask_loop_step s1);
    destruct s1 as [|c s1']; cbn [append];
    try (rewrite Hsep, Hdig; reflexivity).
  - cbn in Hlen. lia.
  - destruct (isalpha c || (c =? "-")%char || (c =? "+")%char) eqn:Hc.
    + rewrite after_sign_app, alpha_run_app by exact Halpha. cbn [fst snd].
      apply IH.
      * pose proof (word_rest_shorter c s1' Hc). lia.
      * apply no_digit_alpha_rest, no_digit_after_sign, Hnd.
    + cbn in Hnd. apply andb_true_iff in Hnd. destruct Hnd as [Hd Hnd].
      apply negb_true_iff in Hd. rewrite Hd. apply IH; [cbn in Hlen; lia | exact Hnd].
Qed.

(** X19.  Debug strings compose.  For a string [s1] without digits and a
    separator that is neither a letter, a sign nor a digit (a space or a
    comma, say), applying [H5__debug_mask] to [s1], the separator and
    [s2] put together has the effect of applying it to [s1] and then to
    [s2]: words take effect from left to right, and a word of [s1] never
    changes how [s2] is read. *)
Theorem debug_mask_concat (s1 s2 : string) (sep : ascii) (st : state) :
  no_digit s1 = true ->
  isalpha sep || (sep =? "-")%char || (sep =? "+")%char = false ->
  isdigit sep = false ->
  H5__debug_mask (Some (s1 ++ String sep s2)) st =
    H5__debug_mask (Some s2) (H5__debug_mask (Some s1) st).
Proof.
  intros Hnd Hsep Hdig. unfold H5__debug_mask.
  apply (@debug_mask_loop_app (Some stderr) sep s2 Hsep Hdig (String.length s1));
    [lia | exact Hnd].
Qed.

Lemma alpha_run_all_alpha (nm : string) :
  all_alpha nm = true -> alpha_run nm = (nm, EmptyString).
Proof.
  induction nm as [|c nm IH]; intros H; [reflexivity|].
  cbn in H. apply andb_true_iff in H. destruct H as [Hc H].
  cbn [alpha_run]. rewrite Hc, (IH H). reflexivity.
Qed.

Lemma isalpha_not_sign (c : ascii) :
  isalpha c = true -> (c =? "-")%char = false /\ (c =? "+")%char = false.
Proof.
  intros H. destruct c as [[] [] [] [] [] [] [] []]; try discriminate H; split; reflexivity.
Qed.

Lemma set_named_stream_absent (nm : string) (v : option FILE) (l : list H5_debug_pkg_t) :
  ~ In nm (map name l) -> set_named_stream nm v l = None.
Proof.
  induction l as [|p l IH]; intros Hn; [reflexivity|].
  cbn [set_named_stream]. destruct (String.eqb_spec (name p) nm) as [E|E].
  - exfalso. apply Hn. left. exact E.
  - rewrite IH; [reflexivity|]. intros Hin. apply Hn. right. exact Hin.
Qed.

(** The chain "Trace, all, or one?" on a name that is no keyword and no
    package: the name is reported and nothing else happens. *)
Lemma debug_word_unknown (clear : bool) (w : string) (cur : option FILE) (st : state) :
  ~ In w ["trace"; "ttop"; "ttimes"; "all"]%string ->
  ~ In w (map name (pkg (H5_debug_g st))) ->
  debug_word clear w cur st = fputs_stderr ("HDF5_DEBUG: ignored " ++ w ++ nl) st.
Proof.
  intros Hkey Hpkg. unfold debug_word.
  destruct (String.eqb_spec w "trace") as [E|_]; [exfalso; apply Hkey; cbn; auto|].
  destruct (String.eqb_spec w "ttop") as [E|_]; [exfalso; apply Hkey; cbn; auto|].
  destruct (String.eqb_spec w "ttimes") as [E|_]; [exfalso; apply Hkey; cbn; auto|].
  destruct (String.eqb_spec w "all") as [E|_]; [exfalso; apply Hkey; cbn; auto 6|].
  rewrite (@set_named_stream_absent w _ _ Hpkg). reflexivity.
Qed.

(** X20.  A word that names nothing is reported and otherwise ignored.
    When the debug string is a single word of letters, with or without a
    sign in front, whose first 31 letters -- all that [pkg_name] keeps --
    are none of [trace], [ttop], [ttimes], [all] and no package name,
    [H5__debug_mask] prints ["HDF5_DEBUG: ignored "] followed by those
    letters on [stderr] and changes nothing else: the debug
    configuration, the world and the life cycle are as before. *)
Theorem debug_mask_unknown_name (sign nm : string) (st : state) :
  In sign [EmptyString; "-"; "+"]%string ->
  nm <> EmptyString ->
  all_alpha nm = true ->
  ~ In (truncate 31 nm) ["trace"; "ttop"; "ttimes"; "all"]%string ->
  ~ In (truncate 31 nm) (map name (pkg (H5_debug_g st))) ->
  H5__debug_mask (Some (sign ++ nm)) st =
    fputs_stderr ("HDF5_DEBUG: ignored " ++ truncate 31 nm ++ nl) st.
Proof.
  intros Hsign Hne Halpha Hkey Hpkg. unfold H5__debug_mask.
  rewrite debug_mask_loop_step.
  destruct Hsign as [<-|[<-|[<-|[]]]]; cbn [append].
  - destruct nm as [|c nm']; [contradiction|].
    pose proof Halpha as Hc. cbn in Hc. apply andb_true_iff in Hc. destruct Hc as [Hc _].
    destruct (isalpha_not_sign c Hc) as [Hm Hp].
    rewrite Hc. cbn [orb]. unfold after_sign. rewrite Hm, Hp. cbn [orb].
    rewrite (alpha_run_all_alpha _ Halpha). cbn [fst snd].
    rewrite debug_mask_loop_step. apply debug_word_unknown; assumption.
  - change (isalpha "-" || ("-" =? "-")%char || ("-" =? "+")%char) with true.
    cbv iota. unfold after_sign. change (("-" =? "-")%char || ("-" =? "+")%char) with true.
    cbv iota. rewrite (alpha_run_all_alpha _ Halpha). cbn [fst snd].
    rewrite debug_mask_loop_step. apply debug_word_unknown; assumption.
  - change (isalpha "+" || ("+" =? "-")%char || ("+" =? "+")%char) with true.
    cbv iota. unfold after_sign. change (("+" =? "-")%char || ("+" =? "+")%char) with true.
    cbv iota. rewrite (alpha_run_all_alpha _ Halpha). cbn [fst snd].
    rewrite debug_mask_loop_step. apply debug_word_unknown; assumption.
Qed.

Section MaskRel.
Variable R : state -> state -> Prop.
Hypothesis R_refl : forall st, R st st.
Hypothesis R_trans : forall a b c, R a b -> R b c -> R a c.
Hypothesis R_world : forall w st, R st (set_world w st).
Hypothesis R_word : forall clear nm cur st, R st (debug_word clear nm cur st).
Hypothesis R_open : forall f st,
  R st (set_debug (set_open_stream (f :: open_stream (H5_debug_g st)) (H5_debug_g st)) st).

Lemma R_call {B : Type} (f : World -> B * World) (st : state) : R st (snd (call f st)).
Proof. unfold call. destruct (f (world st)). apply R_world. Qed.

(** Whatever [debug_word], the calls of the externals and the recording
    of an opened stream preserve, the loop preserves, on any string. *)
Lemma debug_mask_loop_rel (s : string) (cur : option FILE) (st : state) :
  R st (debug_mask_loop s cur st).
Proof.
  funelim (debug_mask_loop s cur st).
  - apply R_refl.
  - eapply R_trans; [apply R_word | eassumption].
  - match goal with
    | |- context [call (HDfdopen X ?fd) ?st0] =>
        pose proof (R_call (HDfdopen X fd) st0) as Ropen;
        destruct (call (HDfdopen X fd) st0) as [o st1]
    end.
    cbn [snd] in Ropen. destruct o as [f|].
    + pose proof (R_call (H5MM_malloc X) (call_ (HDsetvbuf X f) st1)) as Ralloc.
      pose proof (R_world (HDsetvbuf X f (world st1)) st1) as Rbuf.
      change (set_world (HDsetvbuf X f (world st1)) st1)
        with (call_ (HDsetvbuf X f) st1) in Rbuf.
      destruct (call (H5MM_malloc X) (call_ (HDsetvbuf X f) st1)) as [b st2].
      cbn [snd] in Ralloc.
      assert (Hst2 : R st st2)
        by (eapply R_trans; [exact Ropen|]; eapply R_trans; [exact Rbuf | exact Ralloc]).
      destruct b.
      * eapply R_trans; [exact Hst2|].
        eapply R_trans; [|match goal with IH : _ |- _ => apply (IH None st f true st2) end].
        apply R_open.
      * eapply R_trans; [exact Hst2 | apply R_world].
    + eapply R_trans;
        [exact Ropen | match goal with IH : _ |- _ => apply (IH None st1) end].
  - assumption.
Qed.
End MaskRel.

Lemma reassigned_names (cur : option FILE) (d d' : H5_debug_t) :
  reassigned cur d d' -> map name (pkg d') = map name (pkg d).
Proof.
  intros (_ & _ & H). induction H as [|p q l l' [Hn _] _ IH]; [reflexivity|].
  cbn [map]. rewrite Hn, IH. reflexivity.
Qed.

(** [H5__debug_mask] never adds, removes, reorders or renames a
    package. *)
Lemma H5__debug_mask_names (s : option string) (st : state) :
  map name (pkg (H5_debug_g (H5__debug_mask s st))) = map name (pkg (H5_debug_g st)).
Proof.
  destruct s as [str|]; [|reflexivity]. unfold H5__debug_mask.
  apply (@debug_mask_loop_rel
           (fun a b : state =>
              map name (pkg (H5_debug_g b)) = map name (pkg (H5_debug_g a)))).
  - reflexivity.
  - intros a b c H1 H2. congruence.
  - reflexivity.
  - intros clear nm cur st0.
    destruct (debug_word_mask_step cur clear nm st0) as [_ H].
    apply (reassigned_names H).
  - reflexivity.
Qed.

Lemma debug_mask_minus_all_cleared (st : state) :
  H5_debug_g st = cleared_debug ->
  H5_debug_g (H5__debug_mask (Some "-all") st) = cleared_debug.
Proof.
  intros H. unfold H5__debug_mask.
  repeat (simp debug_mask_loop; cbn).
  rewrite H. reflexivity.
Qed.

(** X21.  The debug table after a successful initialisation.  A call of
    [H5_init_library] that ran and returned success leaves in
    [H5_debug_g] exactly the twenty packages of [H5_pkg_names], in that
    order, whatever [HDF5_DEBUG] holds: the mask can only set streams.
    When [HDF5_DEBUG] is not set, debugging is entirely off: no trace
    stream, no flag, no package stream and no opened stream. *)
Theorem init_debug_table (s s' : state) (r : herr_t) :
  H5_libinit_g s || H5_libterm_g s = false ->
  H5_init_library s = Returned r s' ->
  0 <= r ->
  map name (pkg (H5_debug_g s')) = H5_pkg_names /\
  ((forall w, getenv X "HDF5_DEBUG" w = None) -> H5_debug_g s' = cleared_debug).
Proof.
  intros Hg Hrun Hr.
  destruct (H5_init_library_steps s Hg) as (r0 & s1 & ok & s2 & _ & _ & E).
  rewrite E in Hrun. clear E.
  destruct ok; [|injection Hrun as <- _; unfold FAIL in Hr; lia].
  set (st0 := register_atexit_hooks (set_debug cleared_debug s2)) in *.
  assert (H0 : H5_debug_g st0 = cleared_debug).
  { unfold st0, register_atexit_hooks.
    destruct (H5_dont_atexit_g (set_debug cleared_debug s2)); [reflexivity|].
    destruct (H5_HAVE_THREADSAFE_API cfg); reflexivity. }
  unfold init_after_atexit in Hrun. apply bind_returned in Hrun.
  destruct Hrun as (r1 & st1 & E1 & Hrun).
  assert (H1 : H5_debug_g st1 = cleared_debug).
  { destruct (init_interfaces_same (p := fun st : state => H5_debug_g st)
                ltac:(ignored) interface_order st0) as [r' [st' [E' H]]].
    rewrite E' in E1. injection E1 as _ <-. unfold same in H. congruence. }
  destruct (r1 <? 0); [injection Hrun as <- _; unfold FAIL in Hr; lia|].
  unfold bind, modify, gets, ret in Hrun. injection Hrun as _ <-.
  pose proof (debug_mask_minus_all_cleared st1 H1) as H2.
  unfold H5__debug_mask at 1 in H2.
  split.
  - rewrite H5__debug_mask_names, H2. cbn [cleared_debug pkg].
    rewrite map_map. cbn [name]. apply map_id.
  - intros Henv. rewrite Henv. exact H2.
Qed.

(** X22.  Callbacks are single-use.  When [H5_term_library] has run on an
    initialised library and returned, it has invoked the callbacks of the
    registry, head first, and emptied it; if the library is then brought
    up again by [H5open] and shut down a second time, that second
    termination invokes no callback: a callback registered once is never
    run by two terminations. *)
Theorem atclose_callbacks_single_use (s s1 s2 : state) (r : herr_t) :
  H5_libinit_g s = true ->
  H5_term_library s = Returned tt s1 ->
  H5open s1 = Returned r s2 ->
  callbacks_invoked (events s1) =
    (callbacks_invoked (events s)
       ++ map (fun node => (func node, ctx node)) (H5_atclose_head s))%list /\
  H5_atclose_head s2 = [] /\
  callbacks_invoked (events (final_state (H5_term_library s2)))
    = callbacks_invoked (events s1).
Proof.
  intros Hinit Hterm Hopen.
  destruct (H5_term_library_final s Hinit) as (Hev & Hhead & _).
  rewrite Hterm in Hev, Hhead. cbn [final_state] in Hev, Hhead.
  destruct (H5_term_library_returned s Hinit Hterm) as (Hi1 & Ht1 & _ & Ho1).
  split.
  { rewrite Hev, !callbacks_invoked_app, callbacks_invoked_atclose,
      callbacks_invoked_sweeps, app_nil_r. reflexivity. }
  unfold H5open in Hopen. apply bind_returned in Hopen.
  destruct Hopen as (r0 & s2' & E & Hk).
  assert (Hs2 : s2' = s2) by (destruct (r0 <? 0); injection Hk as _ <-; reflexivity).
  subst s2'.
  destruct (FUNC_ENTER_API_spec s1) as [r1 [s3 [E1 (_ & Hh & He & _)]]].
  rewrite E in E1. injection E1 as <- <-.
  split; [congruence|].
  destruct (H5_libinit_g s2) eqn:Hi2.
  - destruct (H5_term_library_final s2 Hi2) as (Hev2 & _).
    rewrite Hev2, Hh, Hhead. cbn [map app].
    rewrite callbacks_invoked_app, callbacks_invoked_sweeps, app_nil_r, He. reflexivity.
  - rewrite (H5_term_library_skip s2 Hi2). cbn [final_state]. rewrite He. reflexivity.
Qed.

(** X23.  [H5dont_atexit] succeeds at most once in a process.  A call
    returns [SUCCEED] exactly when the flag was clear; and once a call
    has returned, with either value, every later call -- after any
    sequence of other public calls -- returns [FAIL] and changes
    nothing. *)
Theorem dont_atexit_succeeds_once
    (s s1 s2 : state) (r : herr_t) (cs : list api_call) (rs : list herr_t) :
  H5dont_atexit s = Returned r s1 ->
  run_calls cs s1 = Returned rs s2 ->
  (r = SUCCEED <-> H5_dont_atexit_g s = false) /\
  (r = FAIL <-> H5_dont_atexit_g s = true) /\
  H5dont_atexit s2 = Returned FAIL s2.
Proof.
  intros Hcall Hcalls.
  assert (H : H5_dont_atexit_g s1 = true /\
              (r = SUCCEED <-> H5_dont_atexit_g s = false) /\
              (r = FAIL <-> H5_dont_atexit_g s = true)).
  { unfold H5dont_atexit, bind, gets, modify, ret in Hcall.
    destruct (H5_dont_atexit_g s) eqn:E; injection Hcall as <- <-.
    - split; [exact E|]. unfold SUCCEED, FAIL. split; split; intros; congruence.
    - split; [reflexivity|]. unfold SUCCEED, FAIL. split; split; intros; congruence. }
  destruct H as (Hflag & H1 & H2). split; [exact H1|]. split; [exact H2|].
  pose proof (run_calls_keeps cs s1) as Hk. rewrite Hcalls in Hk.
  cbn [final_state] in Hk. specialize (Hk Hflag).
  unfold H5dont_atexit, bind, gets. rewrite Hk. reflexivity.
Qed.

(* --------------------------------------------------------------- *)
(** *** Which calls bring the library up *)

(** X24.  From a process in which the library is neither initialised nor
    terminating, the public functions that enter through
    [FUNC_ENTER_API] -- [H5open], [H5atclose], [H5garbage_collect] --
    leave the library marked initialised when they return, whether they
    succeed or fail; [H5close], [H5dont_atexit] and [H5check_version]
    never initialise it. *)
Theorem which_calls_initialise (c : api_call) (s s' : state) (r : herr_t) :
  H5_libinit_g s = false ->
  H5_libterm_g s = false ->
  run_call c s = Returned r s' ->
  H5_libinit_g s' = initialises c.
Proof.
  intros Hi Ht Hrun.
  assert (Henter : forall r0 s1, FUNC_ENTER_API s = Returned r0 s1 -> H5_libinit_g s1 = true).
  { intros r0 s1 E.
    destruct (FUNC_ENTER_API_cases s) as [r1 [s2 [E1 [(Hg & _)|(_ & H & _)]]]].
    - rewrite Hi, Ht in Hg. discriminate.
    - rewrite E in E1. injection E1 as _ <-. exact H. }
  assert (Hcall : forall (B : Type) (f : World -> B * World) (b : B) (s1 s2 : state),
             lift (call f) s1 = Returned b s2 -> H5_libinit_g s2 = H5_libinit_g s1).
  { intros B f b s1 s2 E. unfold lift in E.
    pose proof (call_steady f s1) as Hs. destruct (call f s1) as [b' s2'].
    injection E as _ <-. apply Hs. }
  destruct c as [| | |f c|a b v|]; cbn [run_call initialises] in *.
  - unfold H5open in Hrun. apply bind_returned in Hrun.
    destruct Hrun as (r0 & s1 & E & Hk).
    destruct (r0 <? 0); injection Hk as _ <-; apply (Henter _ _ E).
  - unfold H5close, bind in Hrun. rewrite (H5_term_library_skip s Hi) in Hrun.
    injection Hrun as _ <-. exact Hi.
  - unfold H5dont_atexit, bind, gets in Hrun.
    destruct (H5_dont_atexit_g s); injection Hrun as _ <-; exact Hi.
  - unfold H5atclose in Hrun. apply bind_returned in Hrun.
    destruct Hrun as (r0 & s1 & E & Hk). pose proof (Henter _ _ E) as H1.
    destruct (r0 <? 0); [injection Hk as _ <-; exact H1|].
    destruct f as [fn|]; [|injection Hk as _ <-; exact H1].
    apply bind_returned in Hk. destruct Hk as (ok & s2 & E2 & Hk).
    apply Hcall in E2.
    destruct ok; cbn [negb] in Hk; injection Hk as _ <-; cbn; congruence.
  - unfold H5check_version in Hrun. apply bind_returned in Hrun.
    destruct Hrun as (r0 & s1 & E & Hk). injection Hk as _ <-.
    pose proof (H5_check_version_steady a b v s) as Hs. rewrite E in Hs.
    destruct Hs as (H1 & _). cbn [final_state] in H1. congruence.
  - unfold H5garbage_collect in Hrun. apply bind_returned in Hrun.
    destruct Hrun as (r0 & s1 & E & Hk). pose proof (Henter _ _ E) as H1.
    destruct (r0 <? 0); [injection Hk as _ <-; exact H1|].
    apply bind_returned in Hk. destruct Hk as (g & s2 & E2 & Hk).
    apply Hcall in E2.
    destruct (g <? 0); injection Hk as _ <-; congruence.
Qed.

(* --------------------------------------------------------------- *)
(** *** The calls of a sweep, whatever the routines report *)

Lemma run_hooks_called (Fs : list term_hook) (l : term_locals World) :
  map fst (calls (run_hooks Fs l)) = (map fst (calls l) ++ Fs)%list.
Proof.
  revert l. induction Fs as [|F Fs IH]; intros l.
  - cbn. rewrite app_nil_r. reflexivity.
  - cbn [run_hooks fold_left]. fold (run_hooks Fs (pending_plus_DOWN F l)).
    rewrite IH. destruct (pending_plus_DOWN_calls F l) as [-> _].
    rewrite map_app, <- app_assoc. reflexivity.
Qed.

Lemma run_blocks_skip (bs : list (list term_hook)) (l : term_locals World) :
  pending l <> 0 -> run_blocks bs l = l.
Proof.
  intros Hp. induction bs as [|b bs IH]; [reflexivity|].
  cbn [run_blocks fold_left]. fold (run_blocks bs (guarded_block b l)).
  unfold guarded_block. rewrite if_pending_zero_skip by (apply Z.eqb_neq; exact Hp).
  exact IH.
Qed.

Lemma run_blocks_called (bs : list (list term_hook)) (l : term_locals World) :
  exists k, (k <= List.length bs)%nat /\
    map fst (calls (run_blocks bs l)) = (map fst (calls l) ++ List.concat (firstn k bs))%list /\
    (pending l = 0 -> bs <> [] -> (1 <= k)%nat).
Proof.
  revert l. induction bs as [|b bs IH]; intros l.
  - exists 0%nat. cbn. rewrite app_nil_r. repeat split; [lia | congruence].
  - destruct (Z.eq_dec (pending l) 0) as [Hp|Hp].
    + cbn [run_blocks fold_left]. fold (run_blocks bs (guarded_block b l)).
      unfold guarded_block. rewrite if_pending_zero_enter by (apply Z.eqb_eq; exact Hp).
      destruct (IH (run_hooks b l)) as [k (Hk & Hc & _)].
      exists (S k). cbn [List.length firstn List.concat].
      rewrite Hc, run_hooks_called, <- app_assoc.
      repeat split; lia.
    + rewrite (@run_blocks_skip (b :: bs) l Hp). exists 0%nat. cbn. rewrite app_nil_r.
      repeat split; [lia | contradiction].
Qed.

Lemma firstn_guard_blocks_prefix (k : nat) :
  exists rest, teardown_order = (List.concat (firstn k guard_blocks) ++ rest)%list.
Proof.
  unfold guard_blocks, teardown_order.
  do 12 (destruct k as [|k]; [eexists; cbn; reflexivity|]).
  exists []. cbn [firstn]. rewrite firstn_nil. reflexivity.
Qed.

(** X25.  Which routines a sweep calls, with no assumption on what they
    report.  In every sweep of every termination run the routines called
    are the first [k] guarded blocks of the sweep, complete and in source
    order, for some [k] between 1 and 12: the sweep always starts with
    the event-set routine, never calls a routine twice, never calls a
    routine of a block without the rest of the block, and never resumes
    after a block it skipped -- the calls are a prefix of
    [teardown_order]. *)
Theorem sweep_calls_are_leading_blocks (s : state) :
  Forall (fun r =>
            (exists k, (1 <= k <= 12)%nat /\
               map fst (snd r) = List.concat (firstn k guard_blocks)) /\
            (exists rest, teardown_order = (map fst (snd r) ++ rest)%list) /\
            NoDup (map fst (snd r)) /\
            hd_error (map fst (snd r)) = Some H5ES)
    (snd (term_loop_result s)).
Proof.
  unfold term_loop_result.
  apply (@shutdown_loop_records _ 100); [reflexivity| |constructor].
  intros l. cbn [snd]. rewrite sweep_as_blocks.
  destruct (run_blocks_called guard_blocks (sweep_start l)) as [k (Hk & Hc & Hpos)].
  cbn [calls sweep_start map app] in Hc.
  assert (H1 : (1 <= k)%nat) by (apply Hpos; [reflexivity | discriminate]).
  change (List.length guard_blocks) with 12%nat in Hk.
  destruct (firstn_guard_blocks_prefix k) as [rest Hrest].
  rewrite Hc.
  split; [exists k; split; [lia | reflexivity]|].
  split; [exists rest; exact Hrest|]. split.
  - assert (Hnd : NoDup teardown_order).
    { unfold teardown_order.
      repeat (constructor; [cbn; intuition discriminate|]). constructor. }
    rewrite Hrest in Hnd. apply NoDup_app_remove_r in Hnd. exact Hnd.
  - destruct k as [|k]; [lia|]. reflexivity.
Qed.

(* --------------------------------------------------------------- *)
(** *** The streams opened for debugging *)

Lemma reassigned_tracked (cur : option FILE) (d d' : H5_debug_t) :
  reassigned cur d d' ->
  current_tracked cur d ->
  streams_tracked d ->
  streams_tracked d'.
Proof.
  intros (Ho & Ht & Hp) Hcur [Htr Hpk]. unfold streams_tracked. rewrite Ho. split.
  - intros f Hf. destruct Ht as [E|[E|E]].
    + apply Htr. congruence.
    + congruence.
    + apply Hcur. congruence.
  - intros q f Hin Hf.
    assert (Hq : exists p, In p (pkg d) /\ stream_from cur (stream p) (stream q)).
    { clear - Hp Hin. induction Hp as [|p q' l l' [_ Hs] _ IH]; [contradiction|].
      destruct Hin as [<-|Hin].
      - exists p. split; [left; reflexivity | exact Hs].
      - destruct (IH Hin) as [p0 [H1 H2]]. exists p0. split; [right; exact H1 | exact H2]. }
    destruct Hq as [p [Hpin [E|[E|E]]]].
    + apply (Hpk p); [exact Hpin | congruence].
    + congruence.
    + apply Hcur. congruence.
Qed.

Lemma call_debug {B : Type} (f : World -> B * World) (st : state) :
  H5_debug_g (snd (call f st)) = H5_debug_g st.
Proof. unfold call. destruct (f (world st)). reflexivity. Qed.

Lemma debug_mask_loop_tracked (s : string) (cur : option FILE) (st : state) :
  current_tracked cur (H5_debug_g st) ->
  streams_tracked (H5_debug_g st) ->
  streams_tracked (H5_debug_g (debug_mask_loop s cur st)).
Proof.
  funelim (debug_mask_loop s cur st); intros Hcur Htr.
  - exact Htr.
  - destruct (debug_word_mask_step cur_stream (c =? "-")%char
                (truncate 31 (fst (alpha_run (after_sign c s')))) st) as [_ Hre].
    match goal with IH : _ -> _ -> _ |- _ => apply IH end.
    + destruct Hre as (Ho & _). unfold current_tracked. rewrite Ho. exact Hcur.
    + exact (reassigned_tracked Hre Hcur Htr).
  - match goal with
    | |- context [call (HDfdopen X ?fd) ?st0] =>
        pose proof (call_debug (HDfdopen X fd) st0) as Dopen;
        destruct (call (HDfdopen X fd) st0) as [o st1]
    end.
    cbn [snd] in Dopen. destruct o as [f|].
    + pose proof (call_debug (H5MM_malloc X) (call_ (HDsetvbuf X f) st1)) as Dalloc.
      destruct (call (H5MM_malloc X) (call_ (HDsetvbuf X f) st1)) as [b st2].
      cbn [snd] in Dalloc.
      assert (D2 : H5_debug_g st2 = H5_debug_g st) by (rewrite Dalloc; exact Dopen).
      destruct b.
      * match goal with IH : _ |- _ => apply (IH None st f true st2) end;
          cbn [H5_debug_g set_debug]; rewrite D2.
        -- intros g [= <-]. right. left. reflexivity.
        -- destruct Htr as [T1 T2]. split; cbn [trace pkg open_stream set_open_stream].
           ++ intros g Hg. destruct (T1 g Hg) as [E|E]; [left; exact E | right; right; exact E].
           ++ intros p g Hin Hg.
              destruct (T2 p g Hin Hg) as [E|E]; [left; exact E | right; right; exact E].
      * cbn [H5_debug_g call_ set_world]. rewrite D2. exact Htr.
    + match goal with IH : _ |- _ => apply (IH None st1) end; rewrite Dopen.
      * intros g Hg. discriminate.
      * exact Htr.
  - match goal with IH : _ -> _ -> _ |- _ => apply IH; assumption end.
Qed.

(** X26.  No debug stream escapes the clean-up.  [H5__debug_mask]
    preserves this invariant of the debug configuration: every stream
    debug output is sent to -- the trace stream and the stream of each
    package -- is [stderr] or is on the list of opened streams, the list
    [H5_term_library] walks to close them.  It holds of the
    configuration after any call of [H5_init_library] that ran and
    returned success, whatever [HDF5_DEBUG] contains and whether the
    files could be opened or not. *)
Theorem debug_streams_tracked (s s' : state) (r : herr_t) :
  H5_libinit_g s || H5_libterm_g s = false ->
  H5_init_library s = Returned r s' ->
  0 <= r ->
  streams_tracked (H5_debug_g s') /\
  (forall str st, streams_tracked (H5_debug_g st) ->
                  streams_tracked (H5_debug_g (H5__debug_mask str st))).
Proof.
  intros Hg Hrun Hr.
  assert (Hmask : forall str st, streams_tracked (H5_debug_g st) ->
                                 streams_tracked (H5_debug_g (H5__debug_mask str st))).
  { intros [str|] st Htr; [|exact Htr]. unfold H5__debug_mask.
    apply debug_mask_loop_tracked; [|exact Htr].
    intros f [= <-]. left. reflexivity. }
  split; [|exact Hmask].
  destruct (H5_init_library_steps s Hg) as (r0 & s1 & ok & s2 & _ & _ & E).
  rewrite E in Hrun. clear E.
  destruct ok; [|injection Hrun as <- _; unfold FAIL in Hr; lia].
  set (st0 := register_atexit_hooks (set_debug cleared_debug s2)) in *.
  assert (H0 : H5_debug_g st0 = cleared_debug).
  { unfold st0, register_atexit_hooks.
    destruct (H5_dont_atexit_g (set_debug cleared_debug s2)); [reflexivity|].
    destruct (H5_HAVE_THREADSAFE_API cfg); reflexivity. }
  unfold init_after_atexit in Hrun. apply bind_returned in Hrun.
  destruct Hrun as (r1 & st1 & E1 & Hrun).
  assert (H1 : H5_debug_g st1 = cleared_debug).
  { destruct (init_interfaces_same (p := fun st : state => H5_debug_g st)
                ltac:(ignored) interface_order st0) as [r' [st' [E' H]]].
    rewrite E' in E1. injection E1 as _ <-. unfold same in H. congruence. }
  destruct (r1 <? 0); [injection Hrun as <- _; unfold FAIL in Hr; lia|].
  unfold bind, modify, gets, ret in Hrun. injection Hrun as _ <-.
  apply Hmask. apply (Hmask (Some "-all") st1). rewrite H1. split.
  - intros f Hf. discriminate.
  - intros p f Hin Hf. cbn [cleared_debug pkg] in Hin. apply in_map_iff in Hin.
    destruct Hin as [nm [<- _]]. discriminate.
Qed.

(* --------------------------------------------------------------- *)
(** *** Callbacks and sweeps *)

Lemma callbacks_first_app (a b : list (event Func Ctx)) :
  callbacks_first a -> callbacks_invoked b = [] -> callbacks_first (a ++ b)%list.
Proof.
  intros Ha Hb. induction a as [|e a IH]; cbn [app].
  - destruct b as [|e b]; [exact I|]. destruct e; [discriminate | cbn in *; exact Hb].
  - destruct e; cbn [callbacks_first] in *.
    + apply IH, Ha.
    + rewrite callbacks_invoked_app, Ha, Hb. reflexivity.
Qed.

Lemma callbacks_first_atclose (nodes : list (H5_atclose_node_t Func Ctx)) :
  callbacks_first (map (@EvAtclose Func Ctx) nodes).
Proof. induction nodes as [|n l IH]; [exact I | exact IH]. Qed.

(** X27.  Callbacks run before anything is torn down.  In a call of
    [H5_term_library] on an initialised library, returning or aborting,
    the atclose callbacks are all invoked -- those of the registry, head
    first -- before the first [term_package] routine is called, and none
    is invoked between or after the sweeps; the world the shutdown loop
    starts from is the one the last callback left. *)
Theorem callbacks_before_teardown (s : state) :
  H5_libinit_g s = true ->
  events (final_state (H5_term_library s)) =
    (events s ++ map (@EvAtclose Func Ctx) (H5_atclose_head s)
       ++ map (fun r => EvSweep (fst r) (snd r)) (snd (term_loop_result s)))%list /\
  (events s = [] -> callbacks_first (events (final_state (H5_term_library s)))) /\
  world (before_sweeps s) =
    fold_left (fun w node => user_callback node w) (H5_atclose_head s)
      (H5CX_push X (world s)).
Proof.
  intros Hinit. destruct (H5_term_library_final s Hinit) as (Hev & _).
  split; [exact Hev|]. split.
  - intros Hnil. rewrite Hev, Hnil. cbn [app].
    apply callbacks_first_app; [apply callbacks_first_atclose|].
    apply callbacks_invoked_sweeps.
  - unfold before_sweeps, run_atclose.
    cbn [H5_atclose_head call_ set_world set_libterm].
    assert (Hwalk : forall nodes (st : state),
               world (atclose_walk nodes st) =
                 fold_left (fun w node => user_callback node w) nodes (world st)).
    { induction nodes as [|n l IH]; intros st; [reflexivity|].
      cbn [atclose_walk fold_left]. rewrite IH. reflexivity. }
    destruct (H5_atclose_head s) as [|n l]; [reflexivity|].
    cbn [world set_atclose_head]. rewrite Hwalk. reflexivity.
Qed.

End Model.

(* ================================================================= *)
(** ** The properties on concrete runs *)

Lemma demo_initialized_reached (hooks : term_hook -> nat -> Z) (auto_func ndebug : bool) :
  H5open (demo_cfg ndebug) (demo_externals hooks auto_func no_env)
    (fresh_state nat nat 0%nat)
  = Returned SUCCEED demo_initialized.
Proof. vm_compute. reflexivity. Qed.

Lemma demo_hooks_bounded (hooks : term_hook -> nat -> Z) (auto_func : bool)
    (env : string -> option string) :
  (forall F w, 0 <= hooks F w <= 1) ->
  hooks_bounded (demo_externals hooks auto_func env).
Proof.
  intros H F w. cbn. specialize (H F w). unfold max_reported. lia.
Qed.

Lemma hooks_link_busy_small (F : term_hook) (w : nat) : 0 <= hooks_link_busy F w <= 1.
Proof. destruct F; cbn; lia. Qed.

(** C1 as written does not hold.  With the link package reporting work and
    every other package quiescent, the six "top" routines -- phase 3 of the
    specification's list -- are called in the sweep although the link
    routine, phase 2, has reported 1. *)
Lemma gated_by_spec_phases_fails :
  hooks_bounded (demo_externals hooks_link_busy true no_env) /\
  ~ gated spec_phase
      (calls (sweep (demo_externals hooks_link_busy true no_env) (initial_locals 0%nat))).
Proof.
  split; [apply demo_hooks_bounded, hooks_link_busy_small|].
  intros H.
  assert (Hc : calls (sweep (demo_externals hooks_link_busy true no_env)
                        (initial_locals 0%nat)) =
               [(H5ES, 0); (H5L, 1); (H5A_top, 0); (H5D_top, 0); (H5G_top, 0);
                (H5M_top, 0); (H5S_top, 0); (H5T_top, 0)])
    by (vm_compute; reflexivity).
  rewrite Hc in H.
  assert (Hin : In (H5L, 0) [(H5ES, 0); (H5L, 1); (H5A_top, 0); (H5D_top, 0);
                             (H5G_top, 0); (H5M_top, 0); (H5S_top, 0); (H5T_top, 0)]).
  { apply (H H5A_top 0 H5L); [cbn; tauto | cbn; lia]. }
  cbn in Hin. intuition discriminate.
Qed.

Lemma sweep_gated_by_blocks_witness :
  hooks_bounded (demo_externals hooks_link_busy true no_env) /\
  gated guard_block
    (calls (sweep (demo_externals hooks_link_busy true no_env) (initial_locals 0%nat))) /\
  Forall (fun r => gated guard_block (snd r))
    (snd (term_loop_result (demo_cfg true)
            (demo_externals hooks_link_busy true no_env) demo_initialized)).
Proof.
  split; [apply demo_hooks_bounded, hooks_link_busy_small|].
  apply (@sweep_gated_by_blocks nat nat nat (demo_cfg true)
           (demo_externals hooks_link_busy true no_env) (initial_locals 0%nat)
           demo_initialized).
  apply demo_hooks_bounded, hooks_link_busy_small.
Defined.

(** C2 as written does not hold.  With the file package reporting work in
    every sweep ("phase K always reports pending=1"), [pending] is positive
    at the end of every sweep and the loop makes 101 sweeps, not 100. *)
Lemma exactly_100_sweeps_fails :
  H5_libinit_g demo_initialized = true /\
  forallb (fun r => 0 <? fst r)
    (snd (term_loop_result (demo_cfg true)
            (demo_externals hooks_stuck_file true no_env) demo_initialized)) = true /\
  List.length
    (snd (term_loop_result (demo_cfg true)
            (demo_externals hooks_stuck_file true no_env) demo_initialized)) <> 100%nat.
Proof.
  split; [reflexivity|]. split; [vm_compute; reflexivity|].
  assert (H : List.length
                (snd (term_loop_result (demo_cfg true)
                        (demo_externals hooks_stuck_file true no_env) demo_initialized))
              = 101%nat) by (vm_compute; reflexivity).
  rewrite H. discriminate.
Qed.

Lemma shutdown_stops_after_101_sweeps_witness :
  H5_libinit_g demo_initialized = true /\
  forallb (fun r => 0 <? fst r)
    (snd (term_loop_result (demo_cfg true)
            (demo_externals hooks_stuck_file true no_env) demo_initialized)) = true /\
  List.length
    (snd (term_loop_result (demo_cfg true)
            (demo_externals hooks_stuck_file true no_env) demo_initialized)) = 101%nat.
Proof.
  split; [reflexivity|]. split; [vm_compute; reflexivity|].
  apply (shutdown_stops_after_101_sweeps (demo_cfg true)
           (demo_externals hooks_stuck_file true no_env) demo_initialized).
  - reflexivity.
  - vm_compute. reflexivity.
Defined.

(** Three callbacks registered in the order 1, 2, 3 in a process whose
    world records the callbacks that run: the termination runs 3, 2, 1. *)
Lemma atclose_lifo_witness :
  exists s1,
    H5_libterm_g (fresh_state nat nat (@nil (nat * nat))) = false /\
    H5_atclose_head (fresh_state nat nat (@nil (nat * nat))) = [] /\
    register_all (demo_cfg true) recording_externals
      [(1, 10); (2, 20); (3, 30)]%nat (fresh_state nat nat (@nil (nat * nat))) = Some s1 /\
    callbacks_invoked
      (events (final_state (H5_term_library (demo_cfg true) recording_externals s1)))
      = [(3, 30); (2, 20); (1, 10)]%nat /\
    H5_atclose_head (final_state (H5_term_library (demo_cfg true) recording_externals s1))
      = [] /\
    world (before_sweeps (demo_cfg true) recording_externals s1)
      = [(3, 30); (2, 20); (1, 10)]%nat /\
    world (final_state (H5_term_library (demo_cfg true) recording_externals s1))
      = [(3, 30); (2, 20); (1, 10)]%nat.
Proof.
  eexists. split; [reflexivity|]. split; [reflexivity|].
  split; [vm_compute; reflexivity|].
  match goal with
  | |- callbacks_invoked (events (final_state (H5_term_library _ _ ?s1))) = _ /\ _ =>
      destruct (@atclose_lifo _ nat nat (demo_cfg true) recording_externals
                  [(1, 10); (2, 20); (3, 30)]%nat
                  (fresh_state nat nat (@nil (nat * nat))) s1)
        as (H1 & H2 & H3 & H4)
  end.
  - reflexivity.
  - reflexivity.
  - vm_compute. reflexivity.
  - destruct (H4 (H3 ltac:(discriminate))) as [W1 W2].
    split; [exact H1|]. split; [exact H2|]. split; [exact W1|].
    rewrite W2. vm_compute. reflexivity.
Defined.

Lemma init_library_idempotent_witness :
  (H5_libinit_g demo_initialized || H5_libterm_g demo_initialized = true) /\
  H5_init_library (demo_cfg true) (demo_externals hooks_quiet true no_env) demo_initialized
  = Returned SUCCEED demo_initialized /\
  (exists r s',
     H5_init_library (demo_cfg true) (demo_externals hooks_quiet true no_env)
       (fresh_state nat nat 0%nat) = Returned r s' /\
     init_times (demo_cfg true) (demo_externals hooks_quiet true no_env) 3
       (fresh_state nat nat 0%nat) = Returned SUCCEED s').
Proof.
  split; [reflexivity|]. split.
  - apply (proj1 (init_library_idempotent (demo_cfg true)
                    (demo_externals hooks_quiet true no_env) demo_initialized 0)).
    reflexivity.
  - apply (proj2 (init_library_idempotent (demo_cfg true)
                    (demo_externals hooks_quiet true no_env)
                    (fresh_state nat nat 0%nat) 1)).
Defined.

Lemma term_library_uninitialized_noop_witness :
  H5_libinit_g (fresh_state nat nat 0%nat) = false /\
  H5_term_library (demo_cfg true) (demo_externals hooks_stuck_file true no_env)
    (fresh_state nat nat 0%nat)
  = Returned tt (fresh_state nat nat 0%nat).
Proof.
  split; [reflexivity|].
  apply (term_library_uninitialized_noop (demo_cfg true)
           (demo_externals hooks_stuck_file true no_env) (fresh_state nat nat 0%nat)).
  reflexivity.
Defined.



(** The three levels, with headers of version 1.0.0 against the library
    2.0.0 of [demo_cfg]: unset variable, ["1"], ["2"]. *)
Lemma version_mismatch_by_level_witness :
  checked (fresh_state nat nat 0%nat) = false /\
  H5_VERS_MAJOR (demo_cfg true) <> 1 /\
  (exists s',
     H5_check_version (demo_cfg true) (demo_externals hooks_quiet true no_env) 1 0 0
       (fresh_state nat nat 0%nat) = Aborted s') /\
  (exists s',
     H5_check_version (demo_cfg true)
       (demo_externals hooks_quiet true (env_version_check "1")) 1 0 0
       (fresh_state nat nat 0%nat) = Returned SUCCEED s' /\
     stderr_out s' <> []) /\
  (exists s',
     H5_check_version (demo_cfg true)
       (demo_externals hooks_quiet true (env_version_check "2")) 1 0 0
       (fresh_state nat nat 0%nat) = Returned SUCCEED s' /\
     stderr_out s' = []).
Proof.
  assert (Hmis : H5_VERS_MAJOR (demo_cfg true) <> 1 \/ H5_VERS_MINOR (demo_cfg true) <> 0)
    by (left; discriminate).
  split; [reflexivity|]. split; [discriminate|]. split; [|split].
  - destruct (version_mismatch_by_level (demo_cfg true)
                (demo_externals hooks_quiet true no_env) (fresh_state nat nat 0%nat)
                (majnum := 1) (minnum := 0) 0 eq_refl Hmis)
      as (Hdefault & H0 & _).
    destruct (H0 (Hdefault eq_refl eq_refl)) as [s' [Hrun _]].
    exists s'. exact Hrun.
  - destruct (version_mismatch_by_level (demo_cfg true)
                (demo_externals hooks_quiet true (env_version_check "1"))
                (fresh_state nat nat 0%nat)
                (majnum := 1) (minnum := 0) 0 eq_refl Hmis)
      as (_ & _ & H1 & _).
    destruct (H1 eq_refl) as [s' [more [Hrun Hout]]].
    exists s'. split; [exact Hrun|]. rewrite Hout. discriminate.
  - destruct (version_mismatch_by_level (demo_cfg true)
                (demo_externals hooks_quiet true (env_version_check "2"))
                (fresh_state nat nat 0%nat)
                (majnum := 1) (minnum := 0) 0 eq_refl Hmis)
      as (_ & _ & _ & H2).
    destruct H2 as [s' [Hrun Hout]]; [vm_compute; discriminate|].
    exists s'. split; [exact Hrun | exact Hout].
Defined.

Lemma dont_atexit_fails_after_init_witness :
  exists s2 rs,
    H5_libinit_g (fresh_state nat nat 0%nat) = false /\
    H5_libterm_g (fresh_state nat nat 0%nat) = false /\
    H5_init_library (demo_cfg true) (demo_externals hooks_quiet true no_env)
      (fresh_state nat nat 0%nat) = Returned SUCCEED demo_initialized /\
    0 <= SUCCEED /\
    run_calls (demo_cfg true) (demo_externals hooks_quiet true no_env)
      [Call_H5atclose (Some 1%nat) 10%nat; Call_H5close; Call_H5open; Call_H5garbage_collect]
      demo_initialized = Returned rs s2 /\
    H5_dont_atexit_g demo_initialized = true /\
    H5dont_atexit s2 = Returned FAIL s2.
Proof.
  eexists. eexists.
  split; [reflexivity|]. split; [reflexivity|].
  split; [vm_compute; reflexivity|].
  split; [unfold SUCCEED; lia|].
  split; [vm_compute; reflexivity|].
  eapply (dont_atexit_fails_after_init (demo_cfg true)
            (demo_externals hooks_quiet true no_env) (fresh_state nat nat 0%nat)
           [Call_H5atclose (Some 1%nat) 10%nat; Call_H5close; Call_H5open;
            Call_H5garbage_collect]).
  - reflexivity.
  - reflexivity.
  - vm_compute. reflexivity.
  - unfold SUCCEED. lia.
  - vm_compute. reflexivity.
Defined.

(** C9 as written does not hold.  In a build without [NDEBUG], with
    error reporting on and the file package reporting work in every
    sweep, [H5close] on an initialised library does not return [SUCCEED]:
    the shutdown loop gives up and the process is aborted inside
    [H5_term_library]. *)
Lemma H5close_aborts_in_debug_build :
  NDEBUG (demo_cfg false) = false /\
  (exists s',
     H5close (demo_cfg false) (demo_externals hooks_stuck_file true no_env)
       demo_initialized = Aborted s') /\
  ~ (exists s',
       H5close (demo_cfg false) (demo_externals hooks_stuck_file true no_env)
         demo_initialized = Returned SUCCEED s').
Proof.
  split; [reflexivity|].
  assert (H : exists s',
             H5close (demo_cfg false) (demo_externals hooks_stuck_file true no_env)
               demo_initialized = Aborted s')
    by (eexists; vm_compute; reflexivity).
  split; [exact H|].
  destruct H as [s' H]. intros [s'' H']. rewrite H in H'. discriminate.
Qed.

(** [H5close] on a library whose shutdown cannot converge: it returns
    [SUCCEED] in a build with [NDEBUG], and in a build without when error
    reporting is off; with reporting on, the build without [NDEBUG]
    aborts. *)
Lemma H5close_never_fails_witness :
  pending (fst (term_loop_result (demo_cfg true)
                  (demo_externals hooks_stuck_file true no_env) demo_initialized)) <> 0 /\
  (exists s',
     H5close (demo_cfg true) (demo_externals hooks_stuck_file true no_env)
       demo_initialized = Returned SUCCEED s') /\
  (exists s',
     H5close (demo_cfg false) (demo_externals hooks_stuck_file false no_env)
       demo_initialized = Returned SUCCEED s') /\
  (exists s',
     H5close (demo_cfg false) (demo_externals hooks_stuck_file true no_env)
       demo_initialized = Aborted s' /\
     H5_libinit_g s' = true /\ H5_libterm_g s' = true) /\
  (exists s',
     H5close (demo_cfg false) (demo_externals hooks_quiet true no_env)
       demo_initialized = Returned SUCCEED s').
Proof.
  split; [vm_compute; discriminate|]. split; [|split; [|split]].
  - apply (proj1 (proj2 (H5close_never_fails (demo_cfg true)
                           (demo_externals hooks_stuck_file true no_env)
                           demo_initialized))).
    left. reflexivity.
  - apply (proj1 (proj2 (H5close_never_fails (demo_cfg false)
                           (demo_externals hooks_stuck_file false no_env)
                           demo_initialized))).
    right. reflexivity.
  - apply (proj2 (proj2 (proj2 (H5close_never_fails (demo_cfg false)
                                  (demo_externals hooks_stuck_file true no_env)
                                  demo_initialized)))).
    + reflexivity.
    + reflexivity.
    + vm_compute. discriminate.
    + reflexivity.
  - apply (proj1 (proj2 (proj2 (H5close_never_fails (demo_cfg false)
                                  (demo_externals hooks_quiet true no_env)
                                  demo_initialized)))).
    right. vm_compute. reflexivity.
Defined.

(* ================================================================= *)
(** ** More concrete runs *)

Lemma term_library_idempotent_witness :
  exists s',
    H5_term_library (demo_cfg true) (demo_externals hooks_link_busy true no_env)
      demo_initialized = Returned tt s' /\
    H5_term_library (demo_cfg true) (demo_externals hooks_link_busy true no_env) s'
      = Returned tt s' /\
    H5close (demo_cfg true) (demo_externals hooks_link_busy true no_env) s'
      = Returned SUCCEED s' /\
    H5__mpi_delete_cb (demo_cfg true) (demo_externals hooks_link_busy true no_env) s'
      = Returned MPI_SUCCESS s'.
Proof.
  eexists. split; [vm_compute; reflexivity|].
  apply (term_library_idempotent (demo_cfg true)
           (demo_externals hooks_link_busy true no_env) demo_initialized).
  vm_compute. reflexivity.
Defined.

(** A fresh process that opens, closes and reopens the library, opts out
    too late and closes again. *)
Lemma exit_routines_registered_once_witness :
  (H5_dont_atexit_g (fresh_state nat nat 0%nat) = false ->
   atexit_list (fresh_state nat nat 0%nat) = []) /\
  NoDup (atexit_list (fresh_state nat nat 0%nat)) /\
  atexit_list
    (final_state
       (run_calls (demo_cfg_with false true 0) (demo_externals hooks_quiet true no_env)
          [Call_H5open; Call_H5close; Call_H5open; Call_H5dont_atexit; Call_H5close]
          (fresh_state nat nat 0%nat)))
  = [atexit_H5TS_term_package; atexit_H5_term_library] /\
  NoDup
    (atexit_list
       (final_state
          (run_calls (demo_cfg_with false true 0) (demo_externals hooks_quiet true no_env)
             [Call_H5open; Call_H5close; Call_H5open; Call_H5dont_atexit; Call_H5close]
             (fresh_state nat nat 0%nat)))).
Proof.
  split; [reflexivity|]. split; [constructor|]. split; [vm_compute; reflexivity|].
  apply (exit_routines_registered_once (demo_cfg_with false true 0)
           (demo_externals hooks_quiet true no_env)
           [Call_H5open; Call_H5close; Call_H5open; Call_H5dont_atexit; Call_H5close]
           (fresh_state nat nat 0%nat)).
  - reflexivity.
  - constructor.
Defined.

Lemma init_registers_exit_routines_witness :
  exists s',
    H5_init_library (demo_cfg_with false true 0) (demo_externals hooks_quiet true no_env)
      (fresh_state nat nat 0%nat) = Returned SUCCEED s' /\
    atexit_list s' =
      (atexit_list (fresh_state nat nat 0%nat) ++
       (if H5_HAVE_THREADSAFE_API (demo_cfg_with false true 0)
        then [atexit_H5TS_term_package; atexit_H5_term_library]
        else [atexit_H5_term_library]))%list /\
    H5_dont_atexit_g s' = true.
Proof.
  eexists. split; [vm_compute; reflexivity|].
  refine (proj1 (init_registers_exit_routines (demo_cfg_with false true 0)
                   (demo_externals hooks_quiet true no_env) (fresh_state nat nat 0%nat)
                   (r := SUCCEED) eq_refl eq_refl _) _).
  - vm_compute. reflexivity.
  - unfold SUCCEED. lia.
Defined.

(** The datatype interface fails: [H5_init_library] returns [FAIL], and
    the library counts as initialised from then on. *)
Lemma failed_init_not_retried_witness :
  exists s',
    H5_init_library (demo_cfg true)
      (with_init (demo_externals hooks_quiet true no_env) datatype_init_fails)
      (fresh_state nat nat 0%nat) = Returned FAIL s' /\
    H5_libinit_g s' = true /\
    H5open (demo_cfg true)
      (with_init (demo_externals hooks_quiet true no_env) datatype_init_fails) s'
      = Returned SUCCEED s' /\
    H5_debug_g s' = cleared_debug.
Proof.
  eexists. split; [vm_compute; reflexivity|].
  match goal with
  | |- H5_libinit_g ?s' = true /\ _ =>
      destruct (@failed_init_not_retried nat nat nat (demo_cfg true)
                  (with_init (demo_externals hooks_quiet true no_env) datatype_init_fails)
                  (fresh_state nat nat 0%nat) s' FAIL) as (H1 & _ & H3 & H4)
  end.
  - reflexivity.
  - vm_compute. reflexivity.
  - unfold FAIL. lia.
  - split; [exact H1|]. split; [exact H3|]. reflexivity.
Defined.

(** A parallel build in which [MPI_Comm_set_attr] fails. *)
Lemma mpi_failure_stops_init_witness :
  exists s',
    H5_init_library (demo_cfg_with true false 0)
      (with_mpi_running (demo_externals hooks_quiet true no_env) false)
      (fresh_state nat nat 0%nat) = Returned FAIL s' /\
    H5_libinit_g s' = true /\
    atexit_list s' = atexit_list (fresh_state nat nat 0%nat) /\
    H5_dont_atexit_g s' = H5_dont_atexit_g (fresh_state nat nat 0%nat) /\
    H5_debug_g s' = H5_debug_g (fresh_state nat nat 0%nat) /\
    H5_atclose_head s' = H5_atclose_head (fresh_state nat nat 0%nat).
Proof.
  apply (mpi_failure_stops_init (demo_cfg_with true false 0)
           (with_mpi_running (demo_externals hooks_quiet true no_env) false)
           (fresh_state nat nat 0%nat)); reflexivity.
Defined.

Lemma lifecycle_between_calls_witness :
  exists rs s',
    run_calls (demo_cfg true) (demo_externals hooks_quiet true no_env)
      [Call_H5atclose (Some 1%nat) 10%nat; Call_H5check_version 2 0 0;
       Call_H5close; Call_H5atclose (Some 2%nat) 20%nat]
      (fresh_state nat nat 0%nat) = Returned rs s' /\
    H5is_library_terminating s' = Returned (SUCCEED, false) s' /\
    (H5_atclose_head s' <> [] -> H5_libinit_g s' = true) /\
    (H5_libinit_g s' = false -> open_stream (H5_debug_g s') = []).
Proof.
  eexists. eexists. split; [vm_compute; reflexivity|].
  eapply (lifecycle_between_calls (demo_cfg true) (demo_externals hooks_quiet true no_env)
           [Call_H5atclose (Some 1%nat) 10%nat; Call_H5check_version 2 0 0;
            Call_H5close; Call_H5atclose (Some 2%nat) 20%nat]
           (fresh_state nat nat 0%nat)).
  - reflexivity.
  - intros _. split; reflexivity.
  - vm_compute. reflexivity.
Defined.

Lemma reinit_after_term_witness :
  exists s',
    H5_term_library (demo_cfg true) (demo_externals hooks_quiet true no_env)
      demo_with_callback = Returned tt s' /\
    H5_libinit_g s' = false /\ H5_libterm_g s' = false /\
    H5_atclose_head s' = [] /\ open_stream (H5_debug_g s') = [] /\
    exists r s'',
      H5open (demo_cfg true) (demo_externals hooks_quiet true no_env) s' = Returned r s'' /\
      H5_libinit_g s'' = true /\ H5_libterm_g s'' = false /\
      H5_atclose_head s'' = [] /\
      (H5_dont_atexit_g demo_with_callback = true ->
       atexit_list s'' = atexit_list demo_with_callback).
Proof.
  eexists. split; [vm_compute; reflexivity|].
  apply (reinit_after_term (demo_cfg true) (demo_externals hooks_quiet true no_env)
           demo_with_callback).
  - reflexivity.
  - vm_compute. reflexivity.
Defined.

(** Headers of version 1.0.0 against the library 2.0.0, the check
    silenced by level 2; a later check with 9.9.9 passes unseen. *)
Lemma version_checked_once_witness :
  exists s',
    H5_check_version (demo_cfg true)
      (demo_externals hooks_quiet true (env_version_check "2")) 1 0 0
      (fresh_state nat nat 0%nat) = Returned SUCCEED s' /\
    checked s' = true /\
    H5check_version (demo_cfg true)
      (demo_externals hooks_quiet true (env_version_check "2")) 9 9 9 s'
      = Returned SUCCEED s'.
Proof.
  eexists. split; [vm_compute; reflexivity|].
  match goal with
  | |- checked ?s' = true /\ _ =>
      destruct (@version_checked_once nat nat nat (demo_cfg true)
                  (demo_externals hooks_quiet true (env_version_check "2")) 1 0 0
                  (fresh_state nat nat 0%nat) s' SUCCEED) as (_ & Hc & Hlater)
  end.
  - vm_compute. reflexivity.
  - split; [exact Hc|]. apply (Hlater 9 9 9).
Defined.

(** Headers 2.0.4 against the library 2.0.3: nothing happens.  Headers
    2.0.1 against the library 2.0.0, a development release: abort. *)
Lemma release_mismatch_by_exception_witness :
  (exists s',
     H5_check_version (demo_cfg_with false false 3)
       (demo_externals hooks_quiet true no_env) 2 0 4 (fresh_state nat nat 0%nat)
       = Returned SUCCEED s' /\
     stderr_out s' = []) /\
  (exists s',
     H5_check_version (demo_cfg_with false false 0)
       (demo_externals hooks_quiet true no_env) 2 0 1 (fresh_state nat nat 0%nat)
       = Aborted s' /\
     List.length (stderr_out s') = 3%nat).
Proof.
  split.
  - destruct (release_mismatch_by_exception (demo_cfg_with false false 3)
                (demo_externals hooks_quiet true no_env) (relnum := 4)
                (fresh_state nat nat 0%nat) eq_refl) as [H _]; [discriminate|].
    destruct H as [s' [Hrun Hout]]; [discriminate | discriminate |].
    exists s'. split; [exact Hrun|]. rewrite Hout. reflexivity.
  - destruct (release_mismatch_by_exception (demo_cfg_with false false 0)
                (demo_externals hooks_quiet true no_env) (relnum := 1)
                (fresh_state nat nat 0%nat) eq_refl) as [_ H]; [discriminate|].
    destruct H as [H _]; [right; reflexivity|].
    destruct H as [s' [Hrun Hout]]; [reflexivity|].
    exists s'. split; [exact Hrun|]. rewrite Hout. reflexivity.
Defined.

Lemma pending_is_sum_of_reports_witness :
  hooks_bounded (demo_externals hooks_late_file true no_env) /\
  Forall (fun r => fst r = total_reported (snd r) /\ 0 <= fst r /\
                   (fst r = 0 <-> Forall (fun c => snd c = 0) (snd r)))
    (snd (term_loop_result (demo_cfg true)
            (demo_externals hooks_late_file true no_env) demo_initialized)).
Proof.
  assert (Hb : hooks_bounded (demo_externals hooks_late_file true no_env)).
  { apply demo_hooks_bounded. intros F w. unfold hooks_late_file.
    destruct F; try destruct (w <=? 60)%nat; lia. }
  split; [exact Hb|].
  apply (pending_is_sum_of_reports (demo_cfg true) demo_initialized Hb).
Defined.

Lemma quiescent_library_one_sweep_witness :
  H5_libinit_g demo_with_callback = true /\
  snd (term_loop_result (demo_cfg false) (demo_externals hooks_quiet true no_env)
         demo_with_callback)
  = [(0, map (fun F => (F, 0)) teardown_order)] /\
  exists s',
    H5_term_library (demo_cfg false) (demo_externals hooks_quiet true no_env)
      demo_with_callback = Returned tt s' /\
    stderr_out s' = stderr_out demo_with_callback.
Proof.
  split; [reflexivity|].
  destruct (quiescent_library_one_sweep (demo_cfg false)
              (demo_externals hooks_quiet true no_env) demo_with_callback)
    as (H1 & _ & s' & H2 & H3 & _).
  - reflexivity.
  - intros F w. reflexivity.
  - split; [exact H1|]. exists s'. split; assumption.
Defined.

Lemma debug_mask_without_digits_witness :
  no_digit "+d,-e trace ttop" = true /\
  world (H5__debug_mask (demo_cfg true) (demo_externals hooks_quiet true no_env)
           (Some "+d,-e trace ttop") demo_initialized) = world demo_initialized /\
  open_stream
    (H5_debug_g (H5__debug_mask (demo_cfg true) (demo_externals hooks_quiet true no_env)
                   (Some "+d,-e trace ttop") demo_initialized))
  = open_stream (H5_debug_g demo_initialized).
Proof.
  split; [reflexivity|].
  destruct (debug_mask_without_digits (demo_cfg true)
              (demo_externals hooks_quiet true no_env) "+d,-e trace ttop"
              demo_initialized eq_refl) as (H1 & H2 & _).
  split; assumption.
Defined.

Lemma debug_mask_concat_witness :
  H5__debug_mask (demo_cfg true) (demo_externals hooks_quiet true no_env)
    (Some ("-all +d" ++ String " " "trace 2 e")) demo_initialized
  = H5__debug_mask (demo_cfg true) (demo_externals hooks_quiet true no_env)
      (Some "trace 2 e")
      (H5__debug_mask (demo_cfg true) (demo_externals hooks_quiet true no_env)
         (Some "-all +d") demo_initialized).
Proof.
  apply (debug_mask_concat (demo_cfg true) (demo_externals hooks_quiet true no_env)
           "-all +d" "trace 2 e" " " demo_initialized); reflexivity.
Defined.

Lemma debug_mask_unknown_name_witness :
  H5__debug_mask (demo_cfg true) (demo_externals hooks_quiet true no_env)
    (Some ("+" ++ "cache")) demo_initialized
  = fputs_stderr ("HDF5_DEBUG: ignored " ++ truncate 31 "cache" ++ nl) demo_initialized.
Proof.
  apply (debug_mask_unknown_name (demo_cfg true) (demo_externals hooks_quiet true no_env)
           (sign := "+") (nm := "cache") demo_initialized).
  - right. right. left. reflexivity.
  - discriminate.
  - reflexivity.
  - intros H. vm_compute in H. repeat (destruct H as [H|H]; [discriminate H|]). exact H.
  - intros H. vm_compute in H. repeat (destruct H as [H|H]; [discriminate H|]). exact H.
Defined.

Lemma init_debug_table_witness :
  H5_init_library (demo_cfg true)
    (demo_externals hooks_quiet true (fun v => if (v =? "HDF5_DEBUG")%string
                                               then Some "+d 2 e" else None))
    (fresh_state nat nat 0%nat) <> Aborted (fresh_state nat nat 0%nat) /\
  map name
    (pkg (H5_debug_g
            (final_state
               (H5_init_library (demo_cfg true)
                  (demo_externals hooks_quiet true
                     (fun v => if (v =? "HDF5_DEBUG")%string
                               then Some "+d 2 e" else None))
                  (fresh_state nat nat 0%nat)))))
  = H5_pkg_names.
Proof.
  split; [vm_compute; discriminate|].
  eapply (init_debug_table (demo_cfg true)
            (demo_externals hooks_quiet true
               (fun v => if (v =? "HDF5_DEBUG")%string then Some "+d 2 e" else None))
            (fresh_state nat nat 0%nat)).
  - reflexivity.
  - vm_compute. reflexivity.
  - unfold SUCCEED. lia.
Defined.

Lemma atclose_callbacks_single_use_witness :
  exists s1 s2,
    H5_term_library (demo_cfg true) (demo_externals hooks_quiet true no_env)
      demo_with_callback = Returned tt s1 /\
    H5open (demo_cfg true) (demo_externals hooks_quiet true no_env) s1
      = Returned SUCCEED s2 /\
    callbacks_invoked (events s1) = [(1, 10)]%nat /\
    callbacks_invoked
      (events (final_state
                 (H5_term_library (demo_cfg true)
                    (demo_externals hooks_quiet true no_env) s2)))
    = callbacks_invoked (events s1).
Proof.
  eexists. eexists. split; [vm_compute; reflexivity|].
  split; [vm_compute; reflexivity|].
  split; [vm_compute; reflexivity|].
  eapply (atclose_callbacks_single_use (demo_cfg true)
            (demo_externals hooks_quiet true no_env) demo_with_callback).
  - reflexivity.
  - vm_compute. reflexivity.
  - vm_compute. reflexivity.
Defined.

Lemma dont_atexit_succeeds_once_witness :
  exists s1 rs s2,
    H5dont_atexit (fresh_state nat nat 0%nat) = Returned SUCCEED s1 /\
    run_calls (demo_cfg true) (demo_externals hooks_quiet true no_env)
      [Call_H5open; Call_H5close] s1 = Returned rs s2 /\
    H5dont_atexit s2 = Returned FAIL s2.
Proof.
  eexists. eexists. eexists. split; [vm_compute; reflexivity|].
  split; [vm_compute; reflexivity|].
  eapply (dont_atexit_succeeds_once (demo_cfg true)
            (demo_externals hooks_quiet true no_env) (fresh_state nat nat 0%nat)
            [Call_H5open; Call_H5close]).
  - vm_compute. reflexivity.
  - vm_compute. reflexivity.
Defined.

Lemma which_calls_initialise_witness :
  exists r s',
    run_call (demo_cfg true) (demo_externals hooks_quiet true no_env)
      (Call_H5atclose None 0%nat) (fresh_state nat nat 0%nat) = Returned r s' /\
    r = FAIL /\
    H5_libinit_g s' = initialises (Call_H5atclose (@None nat) 0%nat).
Proof.
  eexists. eexists. split; [vm_compute; reflexivity|]. split; [reflexivity|].
  eapply (which_calls_initialise (demo_cfg true) (demo_externals hooks_quiet true no_env)
            (Call_H5atclose None 0%nat) (fresh_state nat nat 0%nat)).
  - reflexivity.
  - reflexivity.
  - vm_compute. reflexivity.
Defined.


(** [HDF5_DEBUG] opens descriptor 3 for the package [d]: the stream is
    on the list of opened streams. *)
Lemma debug_streams_tracked_witness :
  exists s',
    H5_init_library (demo_cfg true)
      (demo_externals hooks_quiet true (fun v => if (v =? "HDF5_DEBUG")%string
                                                 then Some "3 d trace" else None))
      (fresh_state nat nat 0%nat) = Returned SUCCEED s' /\
    open_stream (H5_debug_g s') = [fdopened 3] /\
    streams_tracked (H5_debug_g s').
Proof.
  eexists. split; [vm_compute; reflexivity|]. split; [reflexivity|].
  match goal with
  | |- streams_tracked (H5_debug_g ?s') =>
      destruct (@debug_streams_tracked nat nat nat (demo_cfg true)
                  (demo_externals hooks_quiet true
                     (fun v => if (v =? "HDF5_DEBUG")%string
                               then Some "3 d trace" else None))
                  (fresh_state nat nat 0%nat) s' SUCCEED) as [H _]
  end.
  - reflexivity.
  - vm_compute. reflexivity.
  - unfold SUCCEED. lia.
  - exact H.
Defined.

Lemma callbacks_before_teardown_witness :
  H5_libinit_g demo_with_callback = true /\
  world (before_sweeps (demo_cfg true) (demo_externals hooks_quiet true no_env)
           demo_with_callback)
  = fold_left
      (fun w node =>
         user_callback (demo_cfg true) (demo_externals hooks_quiet true no_env) node w)
      (H5_atclose_head demo_with_callback)
      (H5CX_push (demo_externals hooks_quiet true no_env) (world demo_with_callback)).
Proof.
  split; [reflexivity|].
  apply (callbacks_before_teardown (demo_cfg true)
           (demo_externals hooks_quiet true no_env) demo_with_callback).
  reflexivity.
Defined.
